(** * Abbreviated 5-bit Baudot codec: a shallow embedding and its properties

    The repository holds several generations of one script:
    [main.py] (the plain codec), [V1.2.py] and [V1.3.py] (abbreviation layer
    and validator added), [1.5/1.53.py] (dictionary loaded from [abv.txt],
    zlib compression) and [1.5/1.54.py].  The symbol table, the bit packer
    and the decoding loop are textually the same in all of them; they are
    embedded once.  What differs per generation lives in a module named
    after the file.

    Conventions of the embedding.
    - A Python [str] is a [list ascii]: a sequence of code points, here
      restricted to the code points 0..255.  The character predicates of
      Python ([isupper], [islower], [isspace]) are written out on that range.
    - [bytes] and [bytearray] are [list byte].
    - A [dict] is an association list in insertion order with unique keys.
    - An exception is a [Raise] result; [print] appends to an output log. *)

From Stdlib Require Import List String Ascii NArith ZArith Arith Lia Bool.
From Stdlib Require Import Zify ZifyNat.
From Stdlib.Strings Require Import Byte.
Import ListNotations.

Local Open Scope list_scope.

(** ** Python values *)

Definition str := list ascii.
Definition bytes := list byte.

(** String literals. *)
Definition pystr (s : string) : str := list_ascii_of_string s.

Definition str_eqb (a b : str) : bool :=
  if list_eq_dec ascii_dec a b then true else false.

Inductive exn := ValueError | KeyError | UnicodeDecodeError.

(** A text file as [os.path.exists] and [open(filename, "r",
    encoding="utf-8")] find it: the file is not there; or its bytes are
    not valid UTF-8, and reading it raises [UnicodeDecodeError]; or it is
    read, and [content] is what reading gives.  The codec is Python's own:
    its outcome is an input here. *)
Inductive text_file (A : Type) : Type :=
| Missing
| Undecodable
| Text (content : A).
Arguments Missing {A}.
Arguments Undecodable {A}.
Arguments Text {A} content.

Inductive result (A : Type) : Type :=
| Ok (a : A)
| Raise (e : exn).
Arguments Ok {A} a.
Arguments Raise {A} e.

Definition bind {A B} (r : result A) (k : A -> result B) : result B :=
  match r with
  | Ok a => k a
  | Raise e => Raise e
  end.

Notation "x <- r ;; k" := (bind r (fun x => k))
  (at level 61, r at next level, right associativity).

(** [len(s)], [s[i:j]] for [0 <= i <= j], [s[-n:]] and [s[:-n]] for [n > 0],
    [range(0, stop, step)]. *)
Definition len {A} (s : list A) : nat := List.length s.

Definition slice {A} (s : list A) (i j : nat) : list A :=
  firstn (j - i) (skipn i s).

Definition slice_last {A} (s : list A) (n : nat) : list A :=
  skipn (len s - n) s.

Definition slice_drop_last {A} (s : list A) (n : nat) : list A :=
  firstn (len s - n) s.

Definition py_range (stop step : nat) : list nat :=
  map (fun k => k * step) (seq 0 ((stop + step - 1) / step)).

(** ** Dictionaries *)

Section Dict.
Context {K V : Type} (keq : K -> K -> bool).

Fixpoint dict_get (d : list (K * V)) (k : K) : option V :=
  match d with
  | [] => None
  | (k', v) :: d' => if keq k' k then Some v else dict_get d' k
  end.

(** [d[k] = v]: overwrite in place, or append a new entry. *)
Fixpoint dict_set (d : list (K * V)) (k : K) (v : V) : list (K * V) :=
  match d with
  | [] => [(k, v)]
  | (k', v') :: d' =>
      if keq k' k then (k', v) :: d' else (k', v') :: dict_set d' k v
  end.

(** [k in d]. *)
Definition dict_mem (d : list (K * V)) (k : K) : bool :=
  match dict_get d k with Some _ => true | None => false end.

Definition dict_keys (d : list (K * V)) : list K := map fst d.
Definition dict_values (d : list (K * V)) : list V := map snd d.
End Dict.

(** [{v: k for k, v in d.items()}] *)
Definition dict_invert {K V} (veq : V -> V -> bool) (d : list (K * V))
  : list (V * K) :=
  fold_left (fun acc kv => dict_set veq acc (snd kv) (fst kv)) d [].

(** ** Symbol table (identical in every generation of the script) *)

Local Open Scope char_scope.

Definition BAUDOT_TABLE : list (ascii * str) :=
  [ ("a", pystr "00011"); ("b", pystr "11001"); ("c", pystr "01110");
    ("d", pystr "01001"); ("e", pystr "00001"); ("f", pystr "01101");
    ("g", pystr "11010"); ("h", pystr "10100"); ("i", pystr "00110");
    ("j", pystr "01011"); ("k", pystr "01111"); ("l", pystr "10010");
    ("m", pystr "11100"); ("n", pystr "01100"); ("o", pystr "11000");
    ("p", pystr "10110"); ("q", pystr "10111"); ("r", pystr "01010");
    ("s", pystr "00101"); ("t", pystr "10000"); ("u", pystr "00111");
    ("v", pystr "11110"); ("w", pystr "10011"); ("x", pystr "11101");
    ("y", pystr "10101"); ("z", pystr "10001"); (" ", pystr "00100");
    ("1", pystr "00010"); ("2", pystr "11011"); ("3", pystr "11111") ].

Definition REVERSE_TABLE : list (str * ascii) :=
  dict_invert str_eqb BAUDOT_TABLE.

Local Close Scope char_scope.

Definition STOP_WORD : str := pystr "stop".

(** ** Bit packer and unpacker *)

Definition is_bit (c : ascii) : bool := Ascii.eqb c "0"%char || Ascii.eqb c "1"%char.
Definition is_bitstring (s : str) : bool := forallb is_bit s.

(** [int(s, 2)] on a string of binary digits.  Python also accepts a sign,
    surrounding blanks, underscores and a [0b] prefix; the packer only ever
    passes slices made of table codes and ["0"] padding, and every other
    string is a [ValueError] here. *)
Definition bit_value (c : ascii) : option N :=
  if Ascii.eqb c "0"%char then Some 0%N
  else if Ascii.eqb c "1"%char then Some 1%N
  else None.

Fixpoint int2_acc (s : str) (acc : N) : option N :=
  match s with
  | [] => Some acc
  | c :: s' =>
      match bit_value c with
      | Some d => int2_acc s' (2 * acc + d)%N
      | None => None
      end
  end.

Definition int2 (s : str) : result N :=
  match s with
  | [] => Raise ValueError
  | _ => match int2_acc s 0%N with
         | Some n => Ok n
         | None => Raise ValueError
         end
  end.

(** [bytearray.append(n)]: a [ValueError] unless [0 <= n < 256]. *)
Definition bytearray_append (byte_array : bytes) (n : N) : result bytes :=
  match Byte.of_N n with
  | Some b => Ok (byte_array ++ [b])
  | None => Raise ValueError
  end.

(** [while len(bitstring) % 8 != 0: bitstring += "0"].  The loop runs at
    most seven times; [pad_loop_closed] shows that any fuel from seven on
    gives the same string and that the loop left through its condition. *)
Fixpoint pad_loop (fuel : nat) (bitstring : str) : str :=
  match fuel with
  | O => bitstring
  | S fuel' =>
      if Nat.eqb (len bitstring mod 8) 0 then bitstring
      else pad_loop fuel' (bitstring ++ ["0"%char])
  end.

Fixpoint pack_loop (bitstring : str) (idxs : list nat) (byte_array : bytes)
  : result bytes :=
  match idxs with
  | [] => Ok byte_array
  | i :: rest =>
      n <- int2 (slice bitstring i (i + 8)) ;;
      byte_array' <- bytearray_append byte_array n ;;
      pack_loop bitstring rest byte_array'
  end.

Definition bits_to_bytes (bitstring : str) : result bytes :=
  let bitstring := pad_loop 8 bitstring in
  pack_loop bitstring (py_range (len bitstring) 8) [].

(** [f'{n:b}'] and [f'{n:08b}']. *)
Fixpoint format_pos (p : positive) : str :=
  match p with
  | xH => ["1"%char]
  | xO p' => format_pos p' ++ ["0"%char]
  | xI p' => format_pos p' ++ ["1"%char]
  end.

Definition format_b (n : N) : str :=
  match n with
  | N0 => ["0"%char]
  | Npos p => format_pos p
  end.

Definition format_08b (n : N) : str :=
  let digits := format_b n in
  repeat "0"%char (8 - len digits) ++ digits.

Definition bytes_to_bits (byte_data : bytes) : str :=
  List.concat (map (fun b => format_08b (Byte.to_N b)) byte_data).

(** ** Framer, decode side

    The loop below is the body of [decode_from_file], the same text in
    [main.py] (lines 66-86), [V1.3.py] (141-162) and [1.5/1.53.py]
    (226-242).  It yields [Some (decoded[:-len(STOP_WORD)])] where the source
    reaches its [return] inside the loop, and [None] where the loop ends
    (by [break] or by running out of indices) and the source goes on to
    print that the stop word was not found. *)
Fixpoint scan_loop (bitstring : str) (idxs : list nat)
    (decoded stop_buffer : str) : option str :=
  match idxs with
  | [] => None
  | i :: rest =>
      let chunk := slice bitstring i (i + 5) in
      if len chunk <? 5 then None
      else
        match dict_get str_eqb REVERSE_TABLE chunk with
        | None => scan_loop bitstring rest decoded stop_buffer
        | Some char =>
            let decoded := decoded ++ [char] in
            let stop_buffer := stop_buffer ++ [char] in
            let stop_buffer :=
              if len STOP_WORD <? len stop_buffer
              then slice_last stop_buffer (len STOP_WORD)
              else stop_buffer in
            if str_eqb stop_buffer STOP_WORD
            then Some (slice_drop_last decoded (len STOP_WORD))
            else scan_loop bitstring rest decoded stop_buffer
        end
  end.

Definition scan (bitstring : str) : option str :=
  scan_loop bitstring (py_range (len bitstring) 5) [] [].

(** [bitstring += BAUDOT_TABLE[char]] for each character. *)
Definition table_code (char : ascii) : result str :=
  match dict_get Ascii.eqb BAUDOT_TABLE char with
  | Some code => Ok code
  | None => Raise KeyError
  end.

Fixpoint append_codes (chars : str) (bitstring : str) : result str :=
  match chars with
  | [] => Ok bitstring
  | char :: rest =>
      code <- table_code char ;;
      append_codes rest (bitstring ++ code)
  end.

(** ** [main.py] *)

Module Main.

Fixpoint encode_message (message : str) (bitstring : str) : result str :=
  match message with
  | [] => Ok bitstring
  | char :: rest =>
      if negb (dict_mem Ascii.eqb BAUDOT_TABLE char) then Raise ValueError
      else
        code <- table_code char ;;
        encode_message rest (bitstring ++ code)
  end.

(** The bytes written to the file. *)
Definition encode_to_file (message : str) : result bytes :=
  bitstring <- encode_message message [] ;;
  bitstring <- append_codes STOP_WORD bitstring ;;
  bits_to_bytes bitstring.

(** The lines printed, given the bytes read from the file. *)
Definition decode_from_file (byte_data : bytes) : list str :=
  let bitstring := bytes_to_bits byte_data in
  match scan bitstring with
  | Some message => [pystr "Decoded message:"; message]
  | None => [pystr "Stop word not found."]
  end.

End Main.

(** ** Character classes of Python on the code points 0..255 *)

Definition NL : ascii := ascii_of_nat 10.
Definition CR : ascii := ascii_of_nat 13.

Definition between (lo hi : nat) (c : ascii) : bool :=
  let n := nat_of_ascii c in (lo <=? n) && (n <=? hi).

Definition isspace (c : ascii) : bool :=
  between 9 13 c || between 28 32 c || between 133 133 c
  || between 160 160 c.

Definition isupper (c : ascii) : bool :=
  between 65 90 c || between 192 214 c || between 216 222 c.

Definition islower (c : ascii) : bool :=
  between 97 122 c || between 170 170 c || between 181 181 c
  || between 186 186 c || between 223 246 c || between 248 255 c.

(** [unicodedata.category(c)[0] == "C"] *)
Definition is_category_C (c : ascii) : bool :=
  between 0 31 c || between 127 159 c || between 173 173 c.

(** [s.islower()]: no uppercase character and at least one lowercase one
    (there is no titlecase character below 256). *)
Definition str_islower (s : str) : bool :=
  forallb (fun c => negb (isupper c)) s && existsb islower s.

(** ** String methods *)

Fixpoint dropwhile {A} (p : A -> bool) (s : list A) : list A :=
  match s with
  | [] => []
  | c :: rest => if p c then dropwhile p rest else s
  end.

Definition lstrip_by (p : ascii -> bool) (s : str) : str := dropwhile p s.
Definition rstrip_by (p : ascii -> bool) (s : str) : str :=
  rev (dropwhile p (rev s)).

(** [s.strip()] and [s.rstrip("\n")] *)
Definition py_strip (s : str) : str := rstrip_by isspace (lstrip_by isspace s).
Definition rstrip_newlines (s : str) : str := rstrip_by (Ascii.eqb NL) s.

(** [s.replace(c, "")] for a one-character [c] *)
Definition remove_char (c : ascii) (s : str) : str :=
  filter (fun x => negb (Ascii.eqb x c)) s.

(** [s.startswith(c)] and [c in s] for a one-character [c] *)
Definition startswith_char (c : ascii) (s : str) : bool :=
  match s with
  | x :: _ => Ascii.eqb x c
  | [] => false
  end.

Definition contains_char (c : ascii) (s : str) : bool :=
  existsb (fun x => Ascii.eqb x c) s.

(** [s.split(c, 1)] for a one-character [c]: one or two pieces. *)
Fixpoint split_first (c : ascii) (s : str) (before : str) : list str :=
  match s with
  | [] => [before]
  | x :: rest =>
      if Ascii.eqb x c then [before; rest]
      else split_first c rest (before ++ [x])
  end.

(** [s.split()]: the maximal runs of non-blank characters. *)
Fixpoint split_words (s : str) (word : str) : list str :=
  match s with
  | [] => match word with [] => [] | _ => [word] end
  | c :: rest =>
      if isspace c then
        match word with
        | [] => split_words rest []
        | _ => word :: split_words rest []
        end
      else split_words rest (word ++ [c])
  end.

Definition py_split (s : str) : list str := split_words s [].

(** [sep.join(words)] *)
Fixpoint py_join (sep : str) (words : list str) : str :=
  match words with
  | [] => []
  | [w] => w
  | w :: rest => w ++ sep ++ py_join sep rest
  end.

(** ** Abbreviation layer ([V1.2.py], [V1.3.py], [1.5/1.53.py]) *)

Section Abbreviation.
Variable WORD_SHORTCUTS : list (str * str).

Definition REVERSE_SHORTCUTS : list (str * str) :=
  dict_invert str_eqb WORD_SHORTCUTS.

(** [d.get(word, word)] *)
Definition get_or_self (d : list (str * str)) (word : str) : str :=
  match dict_get str_eqb d word with
  | Some w => w
  | None => word
  end.

Definition apply_shortcuts_encode (message : str) : str :=
  let words := py_split message in
  py_join (pystr " ") (map (get_or_self WORD_SHORTCUTS) words).

Definition apply_shortcuts_decode (message : str) : str :=
  let words := py_split message in
  py_join (pystr " ") (map (get_or_self REVERSE_SHORTCUTS) words).
End Abbreviation.

(** ** Validator ([V1.3.py] lines 52-70, [1.5/1.53.py] lines 142-155) *)

Definition error_record : Type := nat * nat * ascii * str.

Definition UPPERCASE_NOT_ALLOWED : str :=
  pystr "Uppercase character not allowed".
Definition INVALID_CHARACTER : str := pystr "Invalid character".

Fixpoint validate_loop (message : str) (line column : nat)
    (errors : list error_record) : list error_record :=
  match message with
  | [] => errors
  | char :: rest =>
      if Ascii.eqb char NL then validate_loop rest (line + 1) 1 errors
      else
        let errors :=
          if isupper char
          then errors ++ [(line, column, char, UPPERCASE_NOT_ALLOWED)]
          else if negb (dict_mem Ascii.eqb BAUDOT_TABLE char)
          then errors ++ [(line, column, char, INVALID_CHARACTER)]
          else errors in
        validate_loop rest line (column + 1) errors
  end.

Definition validate_message (message : str) : list error_record :=
  validate_loop message 1 1 [].

(** ** [1.5/1.53.py] *)

Module V153.

(** What [load_shortcuts] prints.  Each constructor stands for one
    [print] of the source and carries the values formatted into it:
    - [FileNotFound]: "ERROR: abv.txt not found in program directory."
    - [InvalidFormat n l]: f"Invalid format in abv.txt line {n}: '{l}'"
    - [OnlyLowercase n]: f"Line {n}: Only lowercase words allowed."
    - [InvalidFullWord n]: f"Line {n}: Invalid characters in full word."
    - [InvalidShortcut n]: f"Line {n}: Invalid characters in shortcut."
    - [DuplicateFullWord n]: f"Duplicate full word on line {n}."
    - [DuplicateShortcut n]: f"Duplicate shortcut on line {n}." *)
Inductive diagnostic :=
| FileNotFound
| InvalidFormat (line_number : nat) (line : str)
| OnlyLowercase (line_number : nat)
| InvalidFullWord (line_number : nat)
| InvalidShortcut (line_number : nat)
| DuplicateFullWord (line_number : nat)
| DuplicateShortcut (line_number : nat).

Definition diagnostic_line (d : diagnostic) : option nat :=
  match d with
  | FileNotFound => None
  | InvalidFormat n _ | OnlyLowercase n | InvalidFullWord n
  | InvalidShortcut n | DuplicateFullWord n | DuplicateShortcut n => Some n
  end.

Definition allowed_chars : list ascii := dict_keys BAUDOT_TABLE.

Definition allowed (c : ascii) : bool :=
  existsb (Ascii.eqb c) allowed_chars.

(** The body of the [for line_number, line in enumerate(f, 1)] loop: the
    dictionary and what is printed for this line. *)
Definition load_line (shortcuts : list (str * str)) (line_number : nat)
    (line : str) : result (list (str * str) * list diagnostic) :=
  let line := remove_char CR (py_strip line) in
  if match line with [] => true | _ => false end
     || startswith_char "#"%char line
  then Ok (shortcuts, [])
  else if negb (contains_char "="%char line)
  then Ok (shortcuts, [InvalidFormat line_number line])
  else
    match split_first "="%char line [] with
    | [full; short] =>
        let full := remove_char " "%char (py_strip full) in
        let short := remove_char " "%char (py_strip short) in
        if negb (str_islower full) || negb (str_islower short)
        then Ok (shortcuts, [OnlyLowercase line_number])
        else if negb (forallb allowed full)
        then Ok (shortcuts, [InvalidFullWord line_number])
        else if negb (forallb allowed short)
        then Ok (shortcuts, [InvalidShortcut line_number])
        else if dict_mem str_eqb shortcuts full
        then Ok (shortcuts, [DuplicateFullWord line_number])
        else if existsb (str_eqb short) (dict_values shortcuts)
        then Ok (shortcuts, [DuplicateShortcut line_number])
        else Ok (dict_set str_eqb shortcuts full short, [])
    | _ => Raise ValueError
    end.

Fixpoint load_loop (lines : list str) (line_number : nat)
    (shortcuts : list (str * str)) (printed : list diagnostic)
  : result (list (str * str) * list diagnostic) :=
  match lines with
  | [] => Ok (shortcuts, printed)
  | line :: rest =>
      r <- load_line shortcuts line_number line ;;
      load_loop rest (line_number + 1) (fst r) (printed ++ snd r)
  end.

(** [abv] is [abv.txt]: its content is what the file iterator yields, line
    by line.  The file is opened and read outside any [try]; when its
    bytes are not valid UTF-8 the iteration raises [UnicodeDecodeError],
    which leaves the function. *)
Definition load_shortcuts (abv : text_file (list str))
  : result (list (str * str) * list diagnostic) :=
  match abv with
  | Missing => Ok ([], [FileNotFound])
  | Undecodable => Raise UnicodeDecodeError
  | Text lines => load_loop lines 1 [] []
  end.

(** [read_text_file]: the records hold line, column and character; the
    source adds renderings of the same character (its [repr], its code
    point in hexadecimal and its Unicode name). *)
Fixpoint unicode_loop (text : str) (line column : nat)
    (unicode_errors : list (nat * nat * ascii)) : list (nat * nat * ascii) :=
  match text with
  | [] => unicode_errors
  | char :: rest =>
      if Ascii.eqb char NL then unicode_loop rest (line + 1) 1 unicode_errors
      else
        let codepoint := nat_of_ascii char in
        let unicode_errors :=
          if (127 <? codepoint) || is_category_C char
          then unicode_errors ++ [(line, column, char)]
          else unicode_errors in
        unicode_loop rest line (column + 1) unicode_errors
  end.

(** [Ok None] is the [return None] of the source; [f.read()] is outside
    any [try], so a file that is not valid UTF-8 raises. *)
Definition read_text_file (file : text_file str) : result (option str) :=
  match file with
  | Missing => Ok None
  | Undecodable => Raise UnicodeDecodeError
  | Text text =>
      match unicode_loop text 1 1 [] with
      | [] => Ok (Some text)
      | _ => Ok None
      end
  end.

Definition build_encoded_bytes (message : str) : result bytes :=
  bitstring <- append_codes message [] ;;
  bitstring <- append_codes STOP_WORD bitstring ;;
  bits_to_bytes bitstring.

Section Environment.
(** The environment of the script: the dictionary file and zlib.
    [zlib_decompress] is [None] where [zlib.decompress] raises.

    [WORD_SHORTCUTS = load_shortcuts()] runs when the script starts.  If
    it raises, the script stops there and none of the functions below is
    ever called; so they are given [abv.txt] as it is when the load
    returns: [None] when the file does not exist, or its lines. *)
Variable abv : option (list str).
Variable zlib_compress : bytes -> bytes.
Variable zlib_decompress : bytes -> option bytes.

(** [WORD_SHORTCUTS = load_shortcuts()].  On a missing file and on a
    file that is read, [load_loop] returns, so the second branch is
    dead. *)
Definition WORD_SHORTCUTS : list (str * str) :=
  match load_shortcuts (match abv with
                        | None => Missing
                        | Some lines => Text lines
                        end) with
  | Ok r => fst r
  | Raise _ => []
  end.

(** [handle_compression]: the bytes written.  [use_compression],
    [compare] and [choice] are the values of the variables of the same
    names, that is the answers typed at the prompts after
    [.strip().lower()]. *)
Definition handle_compression (byte_data : bytes)
    (use_compression compare choice : str) : bytes :=
  if negb (str_eqb use_compression (pystr "y")) then byte_data
  else
    let compressed_data := zlib_compress byte_data in
    if str_eqb compare (pystr "y")
       && (len byte_data <? len compressed_data)
    then
      if str_eqb choice (pystr "y") then compressed_data else byte_data
    else compressed_data.

(** [encode_to_file_from_text]: [Ok (Some data)] when [data] is written,
    [Ok None] when the function returns without writing; an exception of
    [read_text_file] or of [build_encoded_bytes] is not caught. *)
Definition encode_to_file_from_text (file : text_file str)
    (use_compression compare choice : str) : result (option bytes) :=
  message <- read_text_file file ;;
  match message with
  | None => Ok None
  | Some message =>
      let message := rstrip_newlines message in
      let message := apply_shortcuts_encode WORD_SHORTCUTS message in
      let errors := validate_message message in
      match errors with
      | _ :: _ => Ok None
      | [] =>
          byte_data <- build_encoded_bytes message ;;
          Ok (Some (handle_compression byte_data
                      use_compression compare choice))
      end
  end.

(** [try: byte_data = zlib.decompress(byte_data) except: pass] *)
Definition try_decompress (byte_data : bytes) : bytes :=
  match zlib_decompress byte_data with
  | Some data => data
  | None => byte_data
  end.

(** [decode_from_file]: the lines printed. *)
Definition decode_from_file (file : option bytes) : list str :=
  match file with
  | None => [pystr "File not found."]
  | Some byte_data =>
      let byte_data := try_decompress byte_data in
      let bitstring := bytes_to_bits byte_data in
      match scan bitstring with
      | Some decoded_message =>
          let decoded_message :=
            apply_shortcuts_decode WORD_SHORTCUTS decoded_message in
          [NL :: pystr "Decoded message:"; decoded_message]
      | None => [pystr "Stop word not found."]
      end
  end.
End Environment.

End V153.

(** ** zlib streams made of stored blocks

    [zlib.compress] and [zlib.decompress] are a library outside the
    repository, and the embedding of [1.5/1.53.py] takes them as
    parameters.  To evaluate the script on concrete files, this module
    gives the zlib container (RFC 1950) with deflate blocks of the stored
    kind (RFC 1951, BTYPE = 00): [compress_stored] writes what
    [zlib.compress(data, 0)] writes for up to 65535 bytes, and
    [decompress] reads any stream whose blocks are all stored, ignoring what
    follows the checksum as [zlib.decompress] does.  A stream with a
    Huffman-coded block is outside this fragment and is refused here. *)
Module Zlib.

Definition byte_of (n : N) : byte :=
  match Byte.of_N (n mod 256) with
  | Some b => b
  | None => x00
  end.

Fixpoint adler32_loop (data : bytes) (a b : N) : N * N :=
  match data with
  | [] => (a, b)
  | x :: rest =>
      let a := ((a + Byte.to_N x) mod 65521)%N in
      let b := ((b + a) mod 65521)%N in
      adler32_loop rest a b
  end.

Definition adler32 (data : bytes) : N :=
  let (a, b) := adler32_loop data 1%N 0%N in (b * 65536 + a)%N.

Definition le16 (lo hi : byte) : N :=
  (Byte.to_N lo + 256 * Byte.to_N hi)%N.

Definition be32 (b3 b2 b1 b0 : byte) : N :=
  (((Byte.to_N b3 * 256 + Byte.to_N b2) * 256 + Byte.to_N b1) * 256
   + Byte.to_N b0)%N.

(** CM = 8, CINFO <= 7, FCHECK, no preset dictionary. *)
Definition header_ok (cmf flg : byte) : bool :=
  (N.land (Byte.to_N cmf) 15 =? 8)%N
  && (N.shiftr (Byte.to_N cmf) 4 <=? 7)%N
  && ((Byte.to_N cmf * 256 + Byte.to_N flg) mod 31 =? 0)%N
  && negb (N.testbit (Byte.to_N flg) 5).

(** One stored block per step: the header byte (BFINAL in bit 0, BTYPE in
    bits 1-2, the other bits skipped), LEN, NLEN, LEN bytes.  Yields the
    output and what follows the final block. *)
Fixpoint inflate_stored (fuel : nat) (data out : bytes)
  : option (bytes * bytes) :=
  match fuel with
  | O => None
  | S fuel' =>
      match data with
      | hdr :: l0 :: l1 :: n0 :: n1 :: rest =>
          if negb (N.land (Byte.to_N hdr) 6 =? 0)%N then None
          else if negb (le16 n0 n1 =? N.lxor (le16 l0 l1) 65535)%N then None
          else
            let n := N.to_nat (le16 l0 l1) in
            if len rest <? n then None
            else
              let out := out ++ firstn n rest in
              let rest := skipn n rest in
              if N.testbit (Byte.to_N hdr) 0 then Some (out, rest)
              else inflate_stored fuel' rest out
      | _ => None
      end
  end.

Definition decompress (data : bytes) : option bytes :=
  match data with
  | cmf :: flg :: body =>
      if header_ok cmf flg then
        match inflate_stored (len body) body [] with
        | Some (out, b3 :: b2 :: b1 :: b0 :: _) =>
            if (be32 b3 b2 b1 b0 =? adler32 out)%N then Some out else None
        | _ => None
        end
      else None
  | _ => None
  end.

Definition compress_stored (data : bytes) : bytes :=
  let n := N.of_nat (len data) in
  let a := adler32 data in
  [x78; x01; x01;
   byte_of n; byte_of (n / 256); byte_of (N.lxor n 65535);
   byte_of (N.lxor n 65535 / 256)]
  ++ data
  ++ [byte_of (a / 16777216); byte_of (a / 65536); byte_of (a / 256);
      byte_of a].

End Zlib.

(** ** Concrete inputs used below *)

(** The dictionary file of the second scenario of the specification. *)
Definition ABV_DISPOSE : option (list str) :=
  Some [pystr "# abbreviations" ++ [NL]; pystr "dispose=dpo" ++ [NL]].

(** A dictionary that abbreviates the stop word. *)
Definition ABV_STOP : option (list str) :=
  Some [pystr "stop=sp" ++ [NL]].

(** A message over the symbol table whose packed bytes begin with a
    complete zlib stream: header 08 5b, one final stored block of 262
    bytes, matching Adler-32. *)
Definition CRAFTED_MESSAGE : str :=
  pystr "eeft1ete3u3dthe quick brown fox jumps over the lazy dog the quick brown fox jumps over the lazy dog the quick brown fox jumps over the lazy dog the quick brown fox jumps over the lazy dog the quick brown fox jumps over the lazy dog the quick brown fox jumps over the lazy dog the quick brown fox jumps over the lazy dog the quick brown fox jumps over the lazy dog the quick brown fox jumps over the lazy dog the quick brown s2zyci1woe21e end".

(** ** Notions used to state the properties *)

(** [w] occurs in [s] as a substring. *)
Definition occurs (w s : str) : Prop :=
  exists pre post, s = pre ++ w ++ post.

Fixpoint starts_with (w s : str) : bool :=
  match w, s with
  | [], _ => true
  | _ :: _, [] => false
  | x :: w', y :: s' => Ascii.eqb x y && starts_with w' s'
  end.

(** [w in s] *)
Fixpoint contains (w s : str) : bool :=
  starts_with w s
  || match s with
     | [] => false
     | _ :: s' => contains w s'
     end.

(** The bit string of a sequence of table characters. *)
Definition code_of (c : ascii) : str :=
  match dict_get Ascii.eqb BAUDOT_TABLE c with
  | Some code => code
  | None => []
  end.

Definition codes_of (chars : str) : str := flat_map code_of chars.

Definition in_table (s : str) : bool :=
  forallb (dict_mem Ascii.eqb BAUDOT_TABLE) s.

(** The decoded symbol stream: the characters of the known 5-bit chunks of
    a bit string, in order, up to the first incomplete chunk. *)
Fixpoint stream_loop (bitstring : str) (idxs : list nat) : str :=
  match idxs with
  | [] => []
  | i :: rest =>
      let chunk := slice bitstring i (i + 5) in
      if len chunk <? 5 then []
      else
        match dict_get str_eqb REVERSE_TABLE chunk with
        | None => stream_loop bitstring rest
        | Some char => char :: stream_loop bitstring rest
        end
  end.

Definition decoded_stream (bitstring : str) : str :=
  stream_loop bitstring (py_range (len bitstring) 5).

(** The sliding-window match of [scan_loop], fed with characters. *)
Fixpoint feed (chars : str) (decoded stop_buffer : str) : option str :=
  match chars with
  | [] => None
  | char :: rest =>
      let decoded := decoded ++ [char] in
      let stop_buffer := stop_buffer ++ [char] in
      let stop_buffer :=
        if len STOP_WORD <? len stop_buffer
        then slice_last stop_buffer (len STOP_WORD)
        else stop_buffer in
      if str_eqb stop_buffer STOP_WORD
      then Some (slice_drop_last decoded (len STOP_WORD))
      else feed rest decoded stop_buffer
  end.

(** Line and column of the position that follows the prefix [pre] of a
    text: one more than the newlines of [pre], and one more than the
    characters of [pre] after its last newline. *)
Fixpoint takewhile {A} (p : A -> bool) (s : list A) : list A :=
  match s with
  | [] => []
  | c :: rest => if p c then c :: takewhile p rest else []
  end.

Definition line_at (pre : str) : nat :=
  1 + count_occ ascii_dec pre NL.

Definition column_at (pre : str) : nat :=
  1 + len (takewhile (fun c => negb (Ascii.eqb c NL)) (rev pre)).

Definition line_of (text : str) (i : nat) : nat := line_at (firstn i text).
Definition column_of (text : str) (i : nat) : nat :=
  column_at (firstn i text).

(** The line as [load_line] sees it, after [line.strip().replace("\r", "")],
    and its two sides around the first "=", each after
    [.strip().replace(" ", "")]. *)
Definition cleaned (line : str) : str := remove_char CR (py_strip line).

Definition blank_or_comment (line : str) : bool :=
  match cleaned line with
  | [] => true
  | c :: _ => Ascii.eqb c "#"%char
  end.

Definition not_equals (c : ascii) : bool := negb (Ascii.eqb c "="%char).

Definition side (s : str) : str := remove_char " "%char (py_strip s).

Definition full_of (line : str) : str :=
  side (takewhile not_equals (cleaned line)).

Definition short_of (line : str) : str :=
  side (tl (dropwhile not_equals (cleaned line))).

(** The defects of a dictionary line, relative to the entries loaded before
    it: not exactly one "=", a side that is not lowercase, a side with a
    character outside the symbol table, a full word or a shortcut that an
    earlier entry already has. *)
Definition defective (shortcuts : list (str * str)) (line : str) : Prop :=
  count_occ ascii_dec (cleaned line) "="%char <> 1
  \/ str_islower (full_of line) = false
  \/ str_islower (short_of line) = false
  \/ forallb V153.allowed (full_of line) = false
  \/ forallb V153.allowed (short_of line) = false
  \/ In (full_of line) (dict_keys shortcuts)
  \/ In (short_of line) (dict_values shortcuts).

(** How many of the printed diagnostics carry line number [n]. *)
Definition count_line (n : nat) (printed : list V153.diagnostic) : nat :=
  len (filter (fun d => match V153.diagnostic_line d with
                        | Some m => Nat.eqb m n
                        | None => false
                        end) printed).

(** The three outcomes of [load_line] on a line: skipped in silence, skipped
    with one diagnostic that carries the line number, or entered into the
    dictionary. *)
Inductive line_outcome (d : list (str * str)) (n : nat) (line : str)
  : list (str * str) * list V153.diagnostic -> Prop :=
| Silent :
    blank_or_comment line = true ->
    line_outcome d n line (d, [])
| Reported diag :
    blank_or_comment line = false ->
    V153.diagnostic_line diag = Some n ->
    line_outcome d n line (d, [diag])
| Accepted :
    blank_or_comment line = false ->
    count_occ ascii_dec (cleaned line) "="%char >= 1 ->
    str_islower (full_of line) = true ->
    str_islower (short_of line) = true ->
    forallb V153.allowed (full_of line) = true ->
    forallb V153.allowed (short_of line) = true ->
    ~ In (full_of line) (dict_keys d) ->
    ~ In (short_of line) (dict_values d) ->
    line_outcome d n line (d ++ [(full_of line, short_of line)], []).

(** The invariant of the dictionary under construction. *)
Definition well_formed (d : list (str * str)) : Prop :=
  NoDup (dict_keys d) /\ NoDup (dict_values d)
  /\ forall w, In w (dict_keys d) \/ In w (dict_values d) ->
               forallb V153.allowed w = true /\ str_islower w = true.

(** A diagnostic whose line number lies in [lo, hi). *)
Definition numbered (lo hi : nat) (diag : V153.diagnostic) : Prop :=
  exists m, V153.diagnostic_line diag = Some m /\ lo <= m < hi.

(** A word as [str.split()] yields it: not empty, no blank character. *)
Definition nonblank (w : str) : Prop :=
  w <> [] /\ forallb (fun c => negb (isspace c)) w = true.

(** No full word and no shortcut of the dictionary holds a space. *)
Definition spaceless (d : list (str * str)) : Prop :=
  forall w, In w (dict_keys d) \/ In w (dict_values d) ->
            ~ In " "%char w.

(** ** [validate_output_filename] ([1.5/1.53.py], lines 157-167)

    [re.fullmatch(r"[A-Za-z0-9_-]+", name)] holds when [name] is not empty
    and each of its characters is a letter a-z or A-Z, a digit, "_" or
    "-".  The result is the value returned and the lines printed. *)
Definition filename_char (c : ascii) : bool :=
  between 65 90 c || between 97 122 c || between 48 57 c
  || Ascii.eqb c "_"%char || Ascii.eqb c "-"%char.

Definition fullmatch_filename (name : str) : bool :=
  match name with
  | [] => false
  | _ => forallb filename_char name
  end.

Definition validate_output_filename (name : str) : bool * list str :=
  match name with
  | [] => (false, [pystr "Error: File name cannot be empty."])
  | _ =>
      if contains_char "."%char name
      then (false,
            [pystr "Error: Do NOT include '.' or '.bin' in the file name."])
      else if negb (fullmatch_filename name)
      then (false,
            [pystr "Error: File name may only contain letters, numbers, underscores, and hyphens."])
      else (true, [])
  end.

(** ** [V1.2.py]: the validator by index (lines 53-62) *)

(** [c.isalpha()] on the code points 0..255 *)
Definition isalpha (c : ascii) : bool :=
  between 65 90 c || between 97 122 c || between 170 170 c
  || between 181 181 c || between 186 186 c || between 192 214 c
  || between 216 246 c || between 248 255 c.

Module V12.

Definition error_record : Type := nat * ascii * str.

Fixpoint validate_loop (message : str) (index : nat)
    (errors : list error_record) : list error_record :=
  match message with
  | [] => errors
  | char :: rest =>
      let errors :=
        if isalpha char && isupper char
        then errors ++ [(index, char, UPPERCASE_NOT_ALLOWED)]
        else if negb (dict_mem Ascii.eqb BAUDOT_TABLE char)
        then errors ++ [(index, char, INVALID_CHARACTER)]
        else errors in
      validate_loop rest (index + 1) errors
  end.

Definition validate_message (message : str) : list error_record :=
  validate_loop message 0 [].

Definition WORD_SHORTCUTS : list (str * str) :=
  [(pystr "dispose", pystr "dpo")].

(** The loop of [encode_to_file] that asks for the text again (lines
    70-84).  [inputs] holds the lines typed at the prompt, in order; the
    result is the message that leaves the loop, [None] when the prompt
    finds no more input. *)
Fixpoint reenter_loop (message : str) (inputs : list str) {struct inputs}
  : option str :=
  match validate_message message with
  | [] => Some message
  | _ :: _ =>
      match inputs with
      | [] => None
      | entered :: inputs =>
          reenter_loop (apply_shortcuts_encode WORD_SHORTCUTS entered) inputs
      end
  end.

(** [encode_to_file] (lines 65-97): the bytes written. *)
Definition encode_to_file (message : str) (inputs : list str)
  : option (result bytes) :=
  let message := apply_shortcuts_encode WORD_SHORTCUTS message in
  match reenter_loop message inputs with
  | None => None
  | Some message =>
      Some (bitstring <- append_codes message [] ;;
            bitstring <- append_codes STOP_WORD bitstring ;;
            bits_to_bytes bitstring)
  end.

(** [decode_from_file] (lines 100-136): the lines printed. *)
Definition decode_from_file (file : option bytes) : list str :=
  match file with
  | None => [pystr "File not found in current directory."]
  | Some byte_data =>
      let bitstring := bytes_to_bits byte_data in
      match scan bitstring with
      | Some decoded_message =>
          let decoded_message :=
            apply_shortcuts_decode WORD_SHORTCUTS decoded_message in
          [NL :: pystr "Decoded message:"; decoded_message]
      | None => [pystr "Stop word not found."]
      end
  end.

End V12.

(** ** [1.5/1.54.py]: the text file reader (lines 26-70)

    [file] is what [readlines()] returns, or [None] when the file does not
    exist.  Each issue found is printed with its line, column and
    character; the record holds these and the kind of issue:
    - [NonAscii]: f"Non-ASCII | U+{codepoint:04X} | {name}"
    - [ControlInvisible]: "Control / Invisible character"
    - [UppercaseNotAllowed]: "Uppercase not allowed"
    - [NotSupported]: "Not supported in Baudot table" *)
Module V154.

Inductive issue :=
| NonAscii
| ControlInvisible
| UppercaseNotAllowed
| NotSupported.

Definition classify (char : ascii) : option issue :=
  let codepoint := nat_of_ascii char in
  if 127 <? codepoint then Some NonAscii
  else if is_category_C char then Some ControlInvisible
  else if isupper char then Some UppercaseNotAllowed
  else if negb (dict_mem Ascii.eqb BAUDOT_TABLE char) then Some NotSupported
  else None.

Fixpoint column_loop (chars : str) (line_number column : nat)
    (printed : list (nat * nat * ascii * issue))
  : list (nat * nat * ascii * issue) :=
  match chars with
  | [] => printed
  | char :: rest =>
      let printed :=
        match classify char with
        | Some i => printed ++ [(line_number, column, char, i)]
        | None => printed
        end in
      column_loop rest line_number (column + 1) printed
  end.

Fixpoint line_loop (lines : list str) (line_number : nat)
    (printed : list (nat * nat * ascii * issue))
  : list (nat * nat * ascii * issue) :=
  match lines with
  | [] => printed
  | line :: rest =>
      line_loop rest (line_number + 1)
        (column_loop (rstrip_newlines line) line_number 1 printed)
  end.

Definition read_text_file_with_diagnostics (file : option (list str))
  : option str :=
  match file with
  | None => None
  | Some lines =>
      match line_loop lines 1 [] with
      | [] => Some (rstrip_newlines (List.concat lines))
      | _ :: _ => None
      end
  end.

(** [handle_compression] (lines 109-141): the bytes written.
    [use_compression] and [compare] are the answers typed at the prompts
    after [.strip().lower()].  The ratio printed divides by the size of
    [byte_data]. *)
Inductive written :=
| Written (data : bytes)
| ZeroDivisionError.

Definition handle_compression (zlib_compress : bytes -> bytes)
    (byte_data : bytes) (use_compression compare : str) : written :=
  let original_size := len byte_data in
  if negb (str_eqb use_compression (pystr "y")) then Written byte_data
  else
    let compressed_data := zlib_compress byte_data in
    if original_size =? 0 then ZeroDivisionError
    else
      Written (if str_eqb compare (pystr "y") then compressed_data
               else byte_data).

(** [decode_from_file] (lines 147-181): the lines printed;
    [zlib_decompress] is [None] where [zlib.decompress] raises. *)
Definition decode_from_file (zlib_decompress : bytes -> option bytes)
    (file : option bytes) : list str :=
  match file with
  | None => [pystr "File not found."]
  | Some byte_data =>
      let byte_data := V153.try_decompress zlib_decompress byte_data in
      let bitstring := bytes_to_bits byte_data in
      match scan bitstring with
      | Some decoded => [NL :: pystr "Decoded message:"; decoded]
      | None => [pystr "Stop word not found."]
      end
  end.

End V154.

(** A printable ASCII character: code point 32 to 126. *)
Definition printable (c : ascii) : bool := between 32 126 c.

(** What the decoder of [V1.2.py] makes of a word. *)
Definition dpo_expanded (w : str) : str :=
  if str_eqb w (pystr "dpo") then pystr "dispose" else w.

(** The number of digits that pads a bit string of length [n]. *)
Definition padding (n : nat) : nat := (8 - n mod 8) mod 8.

(** No element of the list is repeated. *)
Fixpoint distinctb {A} (eqb : A -> A -> bool) (l : list A) : bool :=
  match l with
  | [] => true
  | x :: rest => negb (existsb (eqb x) rest) && distinctb eqb rest
  end.

(** * Properties *)

(** ** Basic facts *)

Ltac zmod := Zify.zify; Z.to_euclidean_division_equations; lia.

Lemma str_eqb_eq (a b : str) : str_eqb a b = true <-> a = b.
Proof.
  unfold str_eqb. destruct (list_eq_dec ascii_dec a b); split; congruence.
Qed.

Lemma str_eqb_refl (a : str) : str_eqb a a = true.
Proof. now apply str_eqb_eq. Qed.

Lemma str_eqb_neq (a b : str) : str_eqb a b = false <-> a <> b.
Proof.
  unfold str_eqb. destruct (list_eq_dec ascii_dec a b); split; congruence.
Qed.

Lemma In_firstn {A} (x : A) (n : nat) (l : list A) :
  In x (firstn n l) -> In x l.
Proof.
  intros H. rewrite <- (firstn_skipn n l). apply in_or_app. now left.
Qed.

Lemma In_skipn {A} (x : A) (n : nat) (l : list A) :
  In x (skipn n l) -> In x l.
Proof.
  intros H. rewrite <- (firstn_skipn n l). apply in_or_app. now right.
Qed.

Lemma slice_app_exact {A} (pre mid post : list A) :
  slice (pre ++ mid ++ post) (len pre) (len pre + len mid) = mid.
Proof.
  unfold slice, len.
  rewrite skipn_app, skipn_all, Nat.sub_diag. simpl.
  replace (List.length pre + List.length mid - List.length pre)
    with (List.length mid + 0) by lia.
  rewrite firstn_app_2. simpl. apply app_nil_r.
Qed.

Lemma slice_len {A} (s : list A) (i j : nat) :
  j <= len s -> len (slice s i j) = j - i.
Proof.
  unfold slice, len. intros H.
  rewrite length_firstn, length_skipn. lia.
Qed.

Lemma slice_glue {A} (s : list A) (a b c : nat) :
  a <= b -> b <= c -> slice s a b ++ slice s b c = slice s a c.
Proof.
  unfold slice. intros Hab Hbc.
  replace (c - a) with ((b - a) + (c - b)) by lia.
  rewrite <- (firstn_skipn (b - a) (firstn (b - a + (c - b)) (skipn a s))).
  rewrite firstn_firstn, Nat.min_l by lia.
  f_equal.
  rewrite skipn_firstn_comm, skipn_skipn.
  replace (b - a + (c - b) - (b - a)) with (c - b) by lia.
  now replace (b - a + a) with b by lia.
Qed.

Lemma py_range_exact (n step : nat) :
  0 < step -> py_range (n * step) step = map (fun k => k * step) (seq 0 n).
Proof.
  intros H. unfold py_range. do 2 f_equal.
  replace (n * step + step - 1) with ((step - 1) + n * step) by lia.
  rewrite Nat.div_add by lia. rewrite Nat.div_small; lia.
Qed.

(** ** C5: the symbol table *)

Lemma REVERSE_TABLE_swap :
  REVERSE_TABLE = map (fun kv => (snd kv, fst kv)) BAUDOT_TABLE.
Proof. reflexivity. Qed.

Lemma dict_get_In {K V} (keq : K -> K -> bool) (d : list (K * V)) k v :
  dict_get keq d k = Some v -> exists k', In (k', v) d /\ keq k' k = true.
Proof.
  induction d as [|[k0 v0] d IH]; simpl; [discriminate|].
  destruct (keq k0 k) eqn:E.
  - intros [= <-]. exists k0. auto.
  - intros H. destruct (IH H) as (k' & Hin & Hk). exists k'. auto.
Qed.

Lemma table_entry_checked :
  forallb (fun kv =>
             Nat.eqb (len (snd kv)) 5 && is_bitstring (snd kv)
             && match dict_get Ascii.eqb BAUDOT_TABLE (fst kv) with
                | Some code => str_eqb code (snd kv)
                | None => false
                end
             && match dict_get str_eqb REVERSE_TABLE (snd kv) with
                | Some c => Ascii.eqb c (fst kv)
                | None => false
                end) BAUDOT_TABLE = true.
Proof. vm_compute. reflexivity. Qed.

Lemma table_entry (c : ascii) (code : str) :
  In (c, code) BAUDOT_TABLE ->
  len code = 5 /\ is_bitstring code = true
  /\ dict_get Ascii.eqb BAUDOT_TABLE c = Some code
  /\ dict_get str_eqb REVERSE_TABLE code = Some c.
Proof.
  intros Hin.
  pose proof table_entry_checked as H.
  rewrite forallb_forall in H. specialize (H _ Hin).
  cbv beta in H. cbn [fst snd] in H.
  apply andb_prop in H. destruct H as [H Hrev].
  apply andb_prop in H. destruct H as [H Hget].
  apply andb_prop in H. destruct H as [Hlen Hbits].
  apply Nat.eqb_eq in Hlen.
  destruct (dict_get Ascii.eqb BAUDOT_TABLE c) as [code'|]; [|discriminate].
  destruct (dict_get str_eqb REVERSE_TABLE code) as [c'|]; [|discriminate].
  apply str_eqb_eq in Hget. apply Ascii.eqb_eq in Hrev. subst.
  repeat split; auto.
Qed.

Lemma table_get_In (c : ascii) (code : str) :
  dict_get Ascii.eqb BAUDOT_TABLE c = Some code -> In (c, code) BAUDOT_TABLE.
Proof.
  intros H. destruct (dict_get_In _ _ _ _ H) as (k' & Hin & Hk).
  apply Ascii.eqb_eq in Hk. now subst.
Qed.

Lemma reverse_get_In (c : ascii) (code : str) :
  dict_get str_eqb REVERSE_TABLE code = Some c -> In (c, code) BAUDOT_TABLE.
Proof.
  intros H. destruct (dict_get_In _ _ _ _ H) as (k' & Hin & Hk).
  apply str_eqb_eq in Hk. subst k'.
  rewrite REVERSE_TABLE_swap in Hin. apply in_map_iff in Hin.
  destruct Hin as ([c0 code0] & [= <- <-] & Hin). exact Hin.
Qed.

Lemma distinctb_NoDup {A} (eqb : A -> A -> bool) (l : list A) :
  (forall x y, x = y -> eqb x y = true) ->
  distinctb eqb l = true -> NoDup l.
Proof.
  intros Heq. induction l as [|x l IH]; simpl; intros H; constructor.
  - apply andb_prop in H. destruct H as [H _].
    intros Hin. apply negb_true_iff in H.
    assert (existsb (eqb x) l = true) as E; [|congruence].
    apply existsb_exists. exists x. auto.
  - apply IH. apply andb_prop in H. tauto.
Qed.

(** C5, as the code has it: the symbol table has 30 entries (26 letters,
    the space and the digits 1, 2, 3).  Its characters are pairwise
    distinct, its codes are pairwise distinct strings of five binary
    digits, and [REVERSE_TABLE] is its exact inverse. *)
Theorem symbol_table_bijection :
  len BAUDOT_TABLE = 30
  /\ NoDup (dict_keys BAUDOT_TABLE)
  /\ NoDup (dict_values BAUDOT_TABLE)
  /\ (forall c code, In (c, code) BAUDOT_TABLE ->
        len code = 5 /\ is_bitstring code = true)
  /\ (forall c code,
        dict_get Ascii.eqb BAUDOT_TABLE c = Some code
        <-> dict_get str_eqb REVERSE_TABLE code = Some c).
Proof.
  split; [reflexivity|].
  split.
  { apply (distinctb_NoDup Ascii.eqb).
    - intros x y ->. apply Ascii.eqb_refl.
    - vm_compute. reflexivity. }
  split.
  { apply (distinctb_NoDup str_eqb).
    - intros x y ->. apply str_eqb_refl.
    - vm_compute. reflexivity. }
  split.
  { intros c code Hin. destruct (table_entry _ _ Hin) as (? & ? & _). auto. }
  intros c code. split; intros H.
  - apply table_get_In in H. now apply table_entry in H.
  - apply reverse_get_In in H. now apply table_entry in H.
Qed.

(** C5, counterexample: the table does not have 27 entries. *)
Lemma symbol_table_not_27 :
  ~ (len BAUDOT_TABLE = 27 /\ NoDup (dict_keys BAUDOT_TABLE)).
Proof. intros [H _]. vm_compute in H. discriminate. Qed.

(** ** C9: the bit packer *)

Lemma padding_spec (n : nat) :
  padding n <= 7 /\ (n + padding n) mod 8 = 0
  /\ forall k, (n + k) mod 8 = 0 -> padding n <= k.
Proof. unfold padding. repeat split; intros; zmod. Qed.

Lemma pad_loop_closed (fuel : nat) (b : str) :
  padding (len b) <= fuel ->
  pad_loop fuel b = b ++ repeat "0"%char (padding (len b)).
Proof.
  revert b. induction fuel as [|fuel IH]; intros b Hk; cbn [pad_loop].
  - replace (padding (len b)) with 0 by lia. simpl. now rewrite app_nil_r.
  - destruct (Nat.eqb_spec (len b mod 8) 0) as [E|E].
    + replace (padding (len b)) with 0 by (unfold padding; zmod).
      simpl. now rewrite app_nil_r.
    + assert (len (b ++ ["0"%char]) = len b + 1) as L
          by (unfold len; rewrite length_app; reflexivity).
      assert (padding (len b) = S (padding (len b + 1))) as P
          by (unfold padding; zmod).
      rewrite IH by (rewrite L; lia).
      rewrite L, P. simpl. now rewrite <- app_assoc.
Qed.

Lemma is_bit_cases (c : ascii) :
  is_bit c = true -> c = "0"%char \/ c = "1"%char.
Proof.
  unfold is_bit. intros H. apply orb_prop in H.
  destruct H as [H|H]; apply Ascii.eqb_eq in H; auto.
Qed.

Lemma is_bitstring_app (a b : str) :
  is_bitstring (a ++ b) = is_bitstring a && is_bitstring b.
Proof. apply forallb_app. Qed.

Lemma is_bitstring_zeros (k : nat) : is_bitstring (repeat "0"%char k) = true.
Proof. induction k; simpl; auto. Qed.

Lemma is_bitstring_slice (s : str) (i j : nat) :
  is_bitstring s = true -> is_bitstring (slice s i j) = true.
Proof.
  unfold is_bitstring, slice. rewrite !forallb_forall.
  intros H x Hx. apply H.
  apply In_firstn in Hx. now apply In_skipn in Hx.
Qed.

(** A chunk of eight binary digits is the [08b] rendering of the byte that
    [int(chunk, 2)] yields. *)
Lemma chunk_byte (c : str) :
  len c = 8 -> is_bitstring c = true ->
  exists b, int2 c = Ok (Byte.to_N b)
            /\ Byte.of_N (Byte.to_N b) = Some b
            /\ format_08b (Byte.to_N b) = c.
Proof.
  intros L B.
  assert (match int2 c with
          | Ok n => match Byte.of_N n with
                    | Some b => N.eqb (Byte.to_N b) n
                                && str_eqb (format_08b (Byte.to_N b)) c
                    | None => false
                    end
          | Raise _ => false
          end = true) as H.
  { do 9 (destruct c as [|? c]; try discriminate L).
    unfold is_bitstring in B. simpl in B.
    repeat (apply andb_prop in B; destruct B as [? B]).
    repeat match goal with
           | H : is_bit _ = true |- _ =>
               apply is_bit_cases in H; destruct H; subst
           end; vm_compute; reflexivity. }
  destruct (int2 c) as [n|]; [|discriminate].
  destruct (Byte.of_N n) as [b|] eqn:E; [|discriminate].
  apply andb_prop in H. destruct H as [H1 H2].
  apply N.eqb_eq in H1. apply str_eqb_eq in H2.
  exists b. subst n. auto.
Qed.

Lemma pack_loop_spec (s : str) (n j : nat) (acc : bytes) :
  is_bitstring s = true -> 8 * (j + n) <= len s ->
  exists bs,
    pack_loop s (map (fun k => k * 8) (seq j n)) acc = Ok (acc ++ bs)
    /\ bytes_to_bits bs = slice s (8 * j) (8 * (j + n))
    /\ len bs = n.
Proof.
  intros B. revert j acc. induction n as [|n IH]; intros j acc Hlen.
  - exists []. cbn [seq map pack_loop]. rewrite app_nil_r. repeat split.
    unfold slice. now replace (8 * (j + 0) - 8 * j) with 0 by lia.
  - cbn [seq map pack_loop].
    destruct (chunk_byte (slice s (j * 8) (j * 8 + 8))) as (b & Hi & Ho & Hf).
    { rewrite slice_len; lia. }
    { now apply is_bitstring_slice. }
    rewrite Hi. cbn [bind]. unfold bytearray_append. rewrite Ho. cbn [bind].
    destruct (IH (S j) (acc ++ [b])) as (bs & Hp & Hb & Hl); [lia|].
    exists (b :: bs). rewrite Hp, <- app_assoc. repeat split.
    + unfold bytes_to_bits in *. cbn [map List.concat]. rewrite Hb, Hf.
      replace (j * 8) with (8 * j) by lia.
      replace (8 * j + 8) with (8 * S j) by lia.
      replace (8 * (j + S n)) with (8 * (S j + n)) by lia.
      apply slice_glue; lia.
    + unfold len in *. cbn [List.length]. now rewrite Hl.
Qed.

Lemma bits_to_bytes_spec (b : str) :
  is_bitstring b = true ->
  exists byte_data,
    bits_to_bytes b = Ok byte_data
    /\ bytes_to_bits byte_data = b ++ repeat "0"%char (padding (len b))
    /\ len byte_data * 8 = len b + padding (len b).
Proof.
  intros B. unfold bits_to_bytes.
  destruct (padding_spec (len b)) as (P7 & Pm & _).
  rewrite pad_loop_closed by lia.
  set (s := b ++ repeat "0"%char (padding (len b))).
  assert (len s = len b + padding (len b)) as Ls.
  { unfold s, len. now rewrite length_app, repeat_length. }
  assert (exists n, len s = n * 8) as [n Hn].
  { exists (len s / 8). rewrite Ls. zmod. }
  rewrite Hn, py_range_exact by lia.
  destruct (pack_loop_spec s n 0 []) as (bs & Hp & Hb & Hl).
  { unfold s. now rewrite is_bitstring_app, B, is_bitstring_zeros. }
  { lia. }
  exists bs. rewrite Hp. cbn [app]. repeat split.
  - rewrite Hb. unfold slice. rewrite Nat.mul_0_r, Nat.sub_0_r, skipn_0.
    replace (8 * (0 + n)) with (len s) by lia.
    apply firstn_all.
  - lia.
Qed.

Lemma byte_format_len (b : byte) : len (format_08b (Byte.to_N b)) = 8.
Proof. destruct b; reflexivity. Qed.

Lemma byte_format_msb (b : byte) (i : nat) :
  i < 8 ->
  N.testbit (Byte.to_N b) (N.of_nat (7 - i))
  = Ascii.eqb (nth i (format_08b (Byte.to_N b)) "0"%char) "1"%char.
Proof.
  intros H. do 8 (destruct i as [|i]; [destruct b; reflexivity|]). lia.
Qed.

Lemma bytes_to_bits_nth (byte_data : bytes) (j i : nat) :
  j < len byte_data -> i < 8 ->
  nth (8 * j + i) (bytes_to_bits byte_data) "0"%char
  = nth i (format_08b (Byte.to_N (nth j byte_data x00))) "0"%char.
Proof.
  revert j. induction byte_data as [|b bd IH]; intros j Hj Hi.
  - simpl in Hj. lia.
  - unfold bytes_to_bits in *. cbn [map List.concat].
    destruct j as [|j].
    + rewrite app_nth1 by (pose proof (byte_format_len b); unfold len in *; lia).
      reflexivity.
    + rewrite app_nth2 by (pose proof (byte_format_len b); unfold len in *; lia).
      pose proof (byte_format_len b) as L. unfold len in L. rewrite L.
      replace (8 * S j + i - 8) with (8 * j + i) by lia.
      cbn [nth]. apply IH; [simpl in Hj; unfold len in *; simpl in *; lia | lia].
Qed.

(** C9: for every string [b] of binary digits, packing succeeds and
    unpacking the packed bytes gives [b] followed by [k] zero digits, where
    [k] is between 0 and 7 and is the least number that brings the length
    to a multiple of 8.  Each byte holds eight consecutive digits, most
    significant bit first. *)
Theorem unpack_pack (b : str) :
  is_bitstring b = true ->
  exists (byte_data : bytes) (k : nat),
    bits_to_bytes b = Ok byte_data
    /\ bytes_to_bits byte_data = b ++ repeat "0"%char k
    /\ k <= 7
    /\ (len b + k) mod 8 = 0
    /\ (forall k', (len b + k') mod 8 = 0 -> k <= k')
    /\ len byte_data * 8 = len b + k
    /\ (forall j i, j < len byte_data -> i < 8 ->
          N.testbit (Byte.to_N (nth j byte_data x00)) (N.of_nat (7 - i))
          = Ascii.eqb (nth (8 * j + i) (b ++ repeat "0"%char k) "0"%char)
              "1"%char).
Proof.
  intros B.
  destruct (bits_to_bytes_spec b B) as (bd & Hp & Hu & Hl).
  destruct (padding_spec (len b)) as (P7 & Pm & Pmin).
  exists bd, (padding (len b)). repeat split; auto.
  intros j i Hj Hi.
  rewrite <- Hu, bytes_to_bits_nth by assumption.
  now apply byte_format_msb.
Qed.

Lemma unpack_pack_witness :
  is_bitstring (pystr "0010110000110") = true
  /\ exists (byte_data : bytes) (k : nat),
       bits_to_bytes (pystr "0010110000110") = Ok byte_data
       /\ bytes_to_bits byte_data = pystr "0010110000110" ++ repeat "0"%char k
       /\ k <= 7.
Proof.
  split; [reflexivity|].
  destruct (unpack_pack (pystr "0010110000110") eq_refl)
    as (bd & k & H1 & H2 & H3 & _).
  exists bd, k. auto.
Defined.

(** ** The decoding loop as a sliding-window match over decoded characters *)

Lemma scan_loop_feed (bitstring : str) (idxs : list nat) (decoded buf : str) :
  scan_loop bitstring idxs decoded buf
  = feed (stream_loop bitstring idxs) decoded buf.
Proof.
  revert decoded buf. induction idxs as [|i rest IH]; intros decoded buf.
  - reflexivity.
  - cbn [scan_loop stream_loop].
    destruct (len (slice bitstring i (i + 5)) <? 5); [reflexivity|].
    destruct (dict_get str_eqb REVERSE_TABLE (slice bitstring i (i + 5)));
      [|apply IH].
    cbn [feed]. rewrite IH. reflexivity.
Qed.

Lemma scan_feed (bitstring : str) :
  scan bitstring = feed (decoded_stream bitstring) [] [].
Proof. apply scan_loop_feed. Qed.

(** *** Occurrences *)

Lemma starts_with_spec (w s : str) :
  starts_with w s = true <-> exists post, s = w ++ post.
Proof.
  revert s. induction w as [|x w IH]; intros s.
  - simpl. split; [intros _; now exists s | auto].
  - destruct s as [|y s]; simpl.
    + split; [discriminate | intros [post H]; discriminate].
    + rewrite andb_true_iff, Ascii.eqb_eq, IH. split.
      * intros [-> [post ->]]. now exists post.
      * intros [post [= -> ->]]. split; [auto | now exists post].
Qed.

Lemma contains_spec (w s : str) : contains w s = true <-> occurs w s.
Proof.
  unfold occurs. induction s as [|y s IH].
  - simpl. rewrite orb_false_r, starts_with_spec. split.
    + intros [post H]. now exists [], post.
    + intros (pre & post & H). destruct pre; [now exists post|discriminate].
  - cbn [contains]. rewrite orb_true_iff, starts_with_spec, IH. split.
    + intros [[post H] | (pre & post & H)].
      * now exists [], post.
      * exists (y :: pre), post. simpl. now rewrite H.
    + intros (pre & post & H). destruct pre as [|z pre].
      * left. now exists post.
      * right. injection H as _ H. now exists pre, post.
Qed.

Lemma contains_false (w s : str) : contains w s = false <-> ~ occurs w s.
Proof.
  rewrite <- contains_spec. destruct (contains w s); split; congruence.
Qed.

Lemma occurs_app_l (w a b : str) : occurs w a -> occurs w (a ++ b).
Proof.
  intros (pre & post & ->). exists pre, (post ++ b).
  now rewrite <- !app_assoc.
Qed.

Lemma occurs_firstn (w s : str) (n : nat) :
  occurs w (firstn n s) -> occurs w s.
Proof.
  intros H. rewrite <- (firstn_skipn n s). now apply occurs_app_l.
Qed.

(** *** The window *)

Lemma window_step (d : str) (c : ascii) :
  (let buf := slice_last d (len STOP_WORD) ++ [c] in
   if len STOP_WORD <? len buf then slice_last buf (len STOP_WORD) else buf)
  = slice_last (d ++ [c]) (len STOP_WORD).
Proof.
  unfold slice_last, len. cbn zeta.
  change (List.length STOP_WORD) with 4.
  rewrite !length_app, length_skipn. cbn [List.length].
  destruct (Nat.ltb_spec 4 (List.length d - (List.length d - 4) + 1)).
  - rewrite !skipn_app, length_skipn.
    rewrite skipn_skipn.
    replace (List.length d - (List.length d - 4) + 1 - 4
             + (List.length d - 4)) with (List.length d + 1 - 4) by lia.
    f_equal.
    replace (List.length d - (List.length d - 4) + 1 - 4
             - (List.length d - (List.length d - 4))) with 0 by lia.
    replace (List.length d + 1 - 4 - List.length d) with 0 by lia.
    reflexivity.
  - replace (List.length d - 4) with 0 by lia.
    replace (List.length d + 1 - 4) with 0 by lia.
    reflexivity.
Qed.

Lemma feed_step (d rest : str) (c : ascii) :
  feed (c :: rest) d (slice_last d (len STOP_WORD))
  = if str_eqb (slice_last (d ++ [c]) (len STOP_WORD)) STOP_WORD
    then Some (slice_drop_last (d ++ [c]) (len STOP_WORD))
    else feed rest (d ++ [c]) (slice_last (d ++ [c]) (len STOP_WORD)).
Proof.
  cbn [feed]. pose proof (window_step d c) as W. cbn zeta in W.
  rewrite W. reflexivity.
Qed.

Lemma window_occurs (d : str) :
  slice_last d (len STOP_WORD) = STOP_WORD -> occurs STOP_WORD d.
Proof.
  intros H. exists (slice_drop_last d (len STOP_WORD)), [].
  assert (d = slice_drop_last d (len STOP_WORD)
              ++ slice_last d (len STOP_WORD)) as E
    by (symmetry; apply firstn_skipn).
  rewrite H in E. now rewrite app_nil_r.
Qed.

Lemma occurs_snoc (d : str) (c : ascii) :
  occurs STOP_WORD (d ++ [c]) -> ~ occurs STOP_WORD d ->
  slice_last (d ++ [c]) (len STOP_WORD) = STOP_WORD.
Proof.
  intros (pre & post & H) N.
  induction post as [|c' post' _] using rev_ind.
  - rewrite app_nil_r in H. rewrite H. unfold slice_last, len.
    rewrite length_app, Nat.add_sub.
    rewrite skipn_app, skipn_all, Nat.sub_diag. reflexivity.
  - exfalso. apply N.
    rewrite !app_assoc in H. apply app_inj_tail in H. destruct H as [H _].
    exists pre, post'. now rewrite app_assoc.
Qed.

Lemma drop_last_snoc (d : str) (c : ascii) :
  slice_drop_last (d ++ [c]) (len STOP_WORD) = firstn (len d - 3) d.
Proof.
  unfold slice_drop_last, len. change (List.length STOP_WORD) with 4.
  rewrite length_app. cbn [List.length].
  replace (List.length d + 1 - 4) with (List.length d - 3) by lia.
  rewrite firstn_app.
  replace (List.length d - 3 - List.length d) with 0 by lia.
  cbn [firstn]. apply app_nil_r.
Qed.

(** What the loop returns never contains the stop word. *)
Lemma feed_result_clean (chars d r : str) :
  ~ occurs STOP_WORD d ->
  feed chars d (slice_last d (len STOP_WORD)) = Some r ->
  ~ occurs STOP_WORD r.
Proof.
  revert d. induction chars as [|c rest IH]; intros d N H.
  - discriminate.
  - rewrite feed_step in H.
    destruct (str_eqb (slice_last (d ++ [c]) (len STOP_WORD)) STOP_WORD) eqn:E.
    + injection H as <-. rewrite drop_last_snoc.
      intros O. apply N. now apply occurs_firstn in O.
    + apply (IH (d ++ [c])); [|exact H].
      intros O. apply str_eqb_neq in E. apply E. now apply occurs_snoc.
Qed.

(** Without an occurrence of the stop word the loop runs to its end. *)
Lemma feed_none (chars d : str) :
  ~ occurs STOP_WORD (d ++ chars) ->
  feed chars d (slice_last d (len STOP_WORD)) = None.
Proof.
  revert d. induction chars as [|c rest IH]; intros d N.
  - reflexivity.
  - rewrite feed_step.
    assert (~ occurs STOP_WORD (d ++ [c])) as N1.
    { intros O. apply N. replace (d ++ c :: rest) with ((d ++ [c]) ++ rest)
        by (now rewrite <- app_assoc). now apply occurs_app_l. }
    destruct (str_eqb (slice_last (d ++ [c]) (len STOP_WORD)) STOP_WORD) eqn:E.
    + apply str_eqb_eq in E. apply window_occurs in E. contradiction.
    + apply IH. now rewrite <- app_assoc.
Qed.

(** With an occurrence of the stop word the loop returns. *)
Lemma feed_some (chars d : str) :
  ~ occurs STOP_WORD d -> occurs STOP_WORD (d ++ chars) ->
  exists r, feed chars d (slice_last d (len STOP_WORD)) = Some r.
Proof.
  revert d. induction chars as [|c rest IH]; intros d N O.
  - rewrite app_nil_r in O. contradiction.
  - rewrite feed_step.
    destruct (str_eqb (slice_last (d ++ [c]) (len STOP_WORD)) STOP_WORD) eqn:E.
    + eauto.
    + apply IH.
      * intros O1. apply str_eqb_neq in E. apply E. now apply occurs_snoc.
      * now rewrite <- app_assoc.
Qed.

Lemma feed_app (pre rest d : str) :
  ~ occurs STOP_WORD (d ++ pre) ->
  feed (pre ++ rest) d (slice_last d (len STOP_WORD))
  = feed rest (d ++ pre) (slice_last (d ++ pre) (len STOP_WORD)).
Proof.
  revert d. induction pre as [|c pre IH]; intros d N.
  - now rewrite app_nil_r.
  - cbn [app]. rewrite feed_step.
    assert (~ occurs STOP_WORD (d ++ [c])) as N1.
    { intros O. apply N. replace (d ++ c :: pre) with ((d ++ [c]) ++ pre)
        by (now rewrite <- app_assoc). now apply occurs_app_l. }
    destruct (str_eqb (slice_last (d ++ [c]) (len STOP_WORD)) STOP_WORD) eqn:E.
    + apply str_eqb_eq in E. apply window_occurs in E. contradiction.
    + rewrite IH by (now rewrite <- app_assoc).
      now rewrite <- app_assoc.
Qed.

(** The stop word has no border: appended to a string it does not occur
    in, its first three letters complete no occurrence. *)
Lemma no_border (m : str) :
  ~ occurs STOP_WORD m -> ~ occurs STOP_WORD (m ++ pystr "sto").
Proof.
  intros N (pre & post & H). apply N.
  apply (f_equal (@rev ascii)) in H.
  rewrite !rev_app_distr in H.
  change (rev (pystr "sto")) with (pystr "ots") in H.
  change (rev STOP_WORD) with (pystr "pots") in H.
  destruct (rev post) as [|a [|b [|c p]]] eqn:E;
    cbn [pystr list_ascii_of_string app] in H; try discriminate H.
  injection H as _ _ _ H.
  exists pre, (rev p).
  apply (f_equal (@rev ascii)) in H. rewrite rev_involutive in H.
  rewrite H, !rev_app_distr, rev_involutive. reflexivity.
Qed.

(** A message without the stop word, followed by the stop word, is
    returned whole. *)
Lemma feed_message (m tail : str) :
  ~ occurs STOP_WORD m ->
  feed (m ++ STOP_WORD ++ tail) [] [] = Some m.
Proof.
  intros N.
  assert (m ++ STOP_WORD ++ tail
          = (m ++ pystr "sto") ++ "p"%char :: tail) as E
    by (now rewrite <- app_assoc).
  rewrite E.
  change (feed ((m ++ pystr "sto") ++ "p"%char :: tail) []
            (slice_last [] (len STOP_WORD)) = Some m).
  rewrite feed_app by (now apply no_border).
  cbn [app]. rewrite feed_step.
  assert ((m ++ pystr "sto") ++ ["p"%char] = m ++ STOP_WORD) as E1
    by (now rewrite <- app_assoc).
  rewrite E1.
  assert (slice_last (m ++ STOP_WORD) (len STOP_WORD) = STOP_WORD) as W.
  { unfold slice_last, len. rewrite length_app, Nat.add_sub.
    rewrite skipn_app, skipn_all, Nat.sub_diag. reflexivity. }
  rewrite W, str_eqb_refl. f_equal.
  unfold slice_drop_last, len. rewrite length_app, Nat.add_sub.
  rewrite firstn_app, firstn_all, Nat.sub_diag. cbn [firstn].
  apply app_nil_r.
Qed.

(** ** Encoding, and what the decoder reads back *)

Lemma code_of_spec (c : ascii) :
  dict_mem Ascii.eqb BAUDOT_TABLE c = true ->
  table_code c = Ok (code_of c)
  /\ len (code_of c) = 5
  /\ is_bitstring (code_of c) = true
  /\ dict_get str_eqb REVERSE_TABLE (code_of c) = Some c.
Proof.
  unfold dict_mem, table_code, code_of.
  destruct (dict_get Ascii.eqb BAUDOT_TABLE c) as [code|] eqn:E;
    [intros _ | discriminate].
  apply table_get_In in E. apply table_entry in E.
  destruct E as (? & ? & _ & ?). auto.
Qed.

Lemma in_table_cons (c : ascii) (s : str) :
  in_table (c :: s) = true ->
  dict_mem Ascii.eqb BAUDOT_TABLE c = true /\ in_table s = true.
Proof. unfold in_table. cbn [forallb]. apply andb_prop. Qed.

Lemma in_table_app (a b : str) :
  in_table (a ++ b) = in_table a && in_table b.
Proof. apply forallb_app. Qed.

Lemma append_codes_spec (chars acc : str) :
  in_table chars = true ->
  append_codes chars acc = Ok (acc ++ codes_of chars).
Proof.
  revert acc. induction chars as [|c rest IH]; intros acc T.
  - cbn. now rewrite app_nil_r.
  - apply in_table_cons in T. destruct T as [Tc Tr].
    destruct (code_of_spec c Tc) as (E & _).
    cbn [append_codes]. rewrite E. cbn [bind].
    rewrite IH by assumption. unfold codes_of. cbn [flat_map].
    now rewrite <- app_assoc.
Qed.

Lemma encode_message_spec (message acc : str) :
  in_table message = true ->
  Main.encode_message message acc = Ok (acc ++ codes_of message).
Proof.
  revert acc. induction message as [|c rest IH]; intros acc T.
  - cbn. now rewrite app_nil_r.
  - apply in_table_cons in T. destruct T as [Tc Tr].
    destruct (code_of_spec c Tc) as (E & _).
    cbn [Main.encode_message]. rewrite Tc, E. cbn [negb bind].
    rewrite IH by assumption. unfold codes_of. cbn [flat_map].
    now rewrite <- app_assoc.
Qed.

Lemma codes_of_app (a b : str) : codes_of (a ++ b) = codes_of a ++ codes_of b.
Proof. apply flat_map_app. Qed.

Lemma codes_of_bits (chars : str) :
  in_table chars = true -> is_bitstring (codes_of chars) = true.
Proof.
  induction chars as [|c rest IH]; intros T; [reflexivity|].
  apply in_table_cons in T. destruct T as [Tc Tr].
  destruct (code_of_spec c Tc) as (_ & _ & B & _).
  unfold codes_of. cbn [flat_map]. rewrite is_bitstring_app, B.
  now apply IH.
Qed.

Lemma codes_of_len (chars : str) :
  in_table chars = true -> len (codes_of chars) = 5 * len chars.
Proof.
  induction chars as [|c rest IH]; intros T; [reflexivity|].
  apply in_table_cons in T. destruct T as [Tc Tr].
  destruct (code_of_spec c Tc) as (_ & L & _).
  specialize (IH Tr).
  change (codes_of (c :: rest)) with (code_of c ++ codes_of rest).
  unfold len in *. rewrite length_app, L, IH. cbn [List.length]. lia.
Qed.

Lemma stream_codes (chars : str) :
  in_table chars = true ->
  forall (pre tail : str) (j n : nat),
    len pre = 5 * j ->
    stream_loop (pre ++ codes_of chars ++ tail)
      (map (fun k => k * 5) (seq j (len chars + n)))
    = chars
      ++ stream_loop (pre ++ codes_of chars ++ tail)
           (map (fun k => k * 5) (seq (j + len chars) n)).
Proof.
  induction chars as [|c rest IH]; intros T pre tail j n Lp.
  - cbn [len List.length app]. now rewrite Nat.add_0_r.
  - apply in_table_cons in T. destruct T as [Tc Tr].
    destruct (code_of_spec c Tc) as (_ & L & _ & R).
    unfold len. cbn [List.length plus seq map stream_loop].
    assert (pre ++ codes_of (c :: rest) ++ tail
            = pre ++ code_of c ++ (codes_of rest ++ tail)) as E.
    { unfold codes_of. cbn [flat_map]. now rewrite <- app_assoc. }
    assert (slice (pre ++ codes_of (c :: rest) ++ tail) (j * 5) (j * 5 + 5)
            = code_of c) as Sl.
    { rewrite E. replace (j * 5) with (len pre) by lia.
      rewrite <- L. apply slice_app_exact. }
    rewrite Sl, R.
    replace (len (code_of c) <? 5) with false
      by (symmetry; apply Nat.ltb_ge; lia).
    cbn [app]. f_equal.
    rewrite E, app_assoc.
    specialize (IH Tr (pre ++ code_of c) tail (S j) n).
    unfold len in IH. rewrite IH.
    + replace (j + S (List.length rest)) with (S j + List.length rest)
        by lia.
      reflexivity.
    + rewrite length_app. unfold len in *. lia.
Qed.

Lemma decoded_stream_codes (chars tail : str) :
  in_table chars = true ->
  exists t, decoded_stream (codes_of chars ++ tail) = chars ++ t.
Proof.
  intros T. unfold decoded_stream, py_range.
  set (s := codes_of chars ++ tail).
  assert (len s = 5 * len chars + len tail) as Ls.
  { unfold s, len. rewrite length_app. fold (len (codes_of chars)).
    now rewrite codes_of_len. }
  assert (exists n, (len s + 5 - 1) / 5 = len chars + n) as [n Hn].
  { exists ((len s + 5 - 1) / 5 - len chars). zmod. }
  rewrite Hn.
  pose proof (stream_codes chars T [] tail 0 n eq_refl) as H.
  cbn [app] in H. fold s in H. rewrite H. eauto.
Qed.

(** The packed bytes of a message over the symbol table, read back as
    bits, are the codes of the message and of the stop word followed by
    the padding. *)
Lemma build_encoded_bytes_spec (message : str) :
  in_table message = true ->
  exists raw,
    V153.build_encoded_bytes message = Ok raw
    /\ Main.encode_to_file message = Ok raw
    /\ exists k, bytes_to_bits raw
                 = codes_of (message ++ STOP_WORD) ++ repeat "0"%char k.
Proof.
  intros T.
  assert (in_table STOP_WORD = true) as Ts by reflexivity.
  unfold V153.build_encoded_bytes, Main.encode_to_file.
  rewrite encode_message_spec, !append_codes_spec by assumption.
  cbn [bind app]. rewrite append_codes_spec by assumption. cbn [bind].
  destruct (bits_to_bytes_spec (codes_of message ++ codes_of STOP_WORD))
    as (raw & E & B & _).
  { rewrite is_bitstring_app, !codes_of_bits; auto. }
  exists raw. rewrite E. repeat split.
  rewrite codes_of_app. eauto.
Qed.

Lemma scan_packed (message : str) (raw : bytes) :
  V153.build_encoded_bytes message = Ok raw ->
  in_table message = true
  /\ Main.encode_to_file message = Ok raw
  /\ exists t, decoded_stream (bytes_to_bits raw) = (message ++ STOP_WORD) ++ t.
Proof.
  intros H.
  assert (in_table message = true) as T.
  { unfold V153.build_encoded_bytes in H.
    destruct (append_codes message []) as [bits|] eqn:E; [|discriminate].
    clear H. revert E. generalize (@nil ascii) as acc.
    induction message as [|c rest IH]; intros acc E; [reflexivity|].
    cbn [append_codes] in E. unfold in_table. cbn [forallb].
    unfold table_code, dict_mem in *.
    destruct (dict_get Ascii.eqb BAUDOT_TABLE c); [|discriminate].
    cbn [bind] in E. apply IH in E. exact E. }
  destruct (build_encoded_bytes_spec message T) as (raw' & E1 & E2 & k & B).
  rewrite H in E1. injection E1 as <-.
  repeat split; auto.
  rewrite B. apply decoded_stream_codes.
  now rewrite in_table_app, T.
Qed.

(** ** C10: the decoded message holds no stop word *)

(** C10: whenever the decoding loop returns (the terminated state), the
    message it returns, [decoded[:-len(STOP_WORD)]] before any abbreviation
    reversal, does not contain the stop word; this is the message that
    [decode_from_file] of [main.py] prints. *)
Theorem decoded_message_has_no_stop_word (byte_data : bytes) (message : str) :
  scan (bytes_to_bits byte_data) = Some message ->
  ~ occurs STOP_WORD message
  /\ contains STOP_WORD message = false
  /\ Main.decode_from_file byte_data = [pystr "Decoded message:"; message].
Proof.
  intros H.
  assert (~ occurs STOP_WORD message) as N.
  { rewrite scan_feed in H.
    apply (feed_result_clean (decoded_stream (bytes_to_bits byte_data))
             [] message); [|exact H].
    intros (pre & post & E). destruct pre; discriminate E. }
  repeat split; [exact N | now apply contains_false |].
  unfold Main.decode_from_file. now rewrite H.
Qed.

Lemma decoded_message_has_no_stop_word_witness :
  scan (bytes_to_bits [xa0; x65; x2c; x10; xb0; xc5; x8b; x0c; x58])
  = Some (pystr "hello ")
  /\ ~ occurs STOP_WORD (pystr "hello ").
Proof.
  split; [reflexivity|].
  apply (decoded_message_has_no_stop_word
           [xa0; x65; x2c; x10; xb0; xc5; x8b; x0c; x58] (pystr "hello ")).
  reflexivity.
Defined.

(** ** C7: all-or-nothing decoding *)

Lemma scan_not_found (bitstring : str) :
  contains STOP_WORD (decoded_stream bitstring) = false ->
  scan bitstring = None.
Proof.
  intros H. rewrite scan_feed. apply contains_false in H.
  now apply (feed_none _ []).
Qed.

(** C7: an empty artifact makes [decode_from_file] print that the stop
    word was not found and nothing else, in [main.py] and, zlib raising on
    empty input, in [1.5/1.53.py]; no exception is modelled or needed.
    More generally, whenever the decoded symbol stream of the input holds
    no stop word, that line is all that is printed: no part of the decoded
    characters is shown. *)
Theorem decode_all_or_nothing :
  Main.decode_from_file [] = [pystr "Stop word not found."]
  /\ (forall abv zd,
        zd [] = None ->
        V153.decode_from_file abv zd (Some [])
        = [pystr "Stop word not found."])
  /\ (forall byte_data,
        contains STOP_WORD (decoded_stream (bytes_to_bits byte_data)) = false ->
        Main.decode_from_file byte_data = [pystr "Stop word not found."])
  /\ (forall abv zd byte_data,
        contains STOP_WORD
          (decoded_stream (bytes_to_bits (V153.try_decompress zd byte_data)))
        = false ->
        V153.decode_from_file abv zd (Some byte_data)
        = [pystr "Stop word not found."]).
Proof.
  split; [reflexivity|]. split; [|split].
  - intros abv zd H. unfold V153.decode_from_file, V153.try_decompress.
    rewrite H. reflexivity.
  - intros byte_data H. unfold Main.decode_from_file.
    now rewrite scan_not_found.
  - intros abv zd byte_data H. unfold V153.decode_from_file.
    now rewrite scan_not_found.
Qed.

Lemma decode_all_or_nothing_witness :
  Zlib.decompress [] = None
  /\ V153.decode_from_file ABV_DISPOSE Zlib.decompress (Some [])
     = [pystr "Stop word not found."]
  /\ contains STOP_WORD (decoded_stream (bytes_to_bits [xa0; x65; x2c; x10]))
     = false
  /\ Main.decode_from_file [xa0; x65; x2c; x10]
     = [pystr "Stop word not found."]
  /\ V153.decode_from_file ABV_DISPOSE Zlib.decompress
       (Some [xa0; x65; x2c; x10])
     = [pystr "Stop word not found."].
Proof.
  destruct decode_all_or_nothing as (_ & H1 & H2 & H3).
  split; [reflexivity|].
  split; [apply H1; reflexivity|].
  split; [reflexivity|].
  split; [apply H2; reflexivity|].
  apply H3; reflexivity.
Defined.

(** ** C6: the validator reports every uppercase letter where it stands *)

Lemma validate_loop_acc (message : str) (line column : nat)
    (errors : list error_record) :
  validate_loop message line column errors
  = errors ++ validate_loop message line column [].
Proof.
  revert line column errors.
  induction message as [|x rest IH]; intros line column errors.
  - cbn. now rewrite app_nil_r.
  - cbn [validate_loop]. destruct (Ascii.eqb x NL); [apply IH|].
    destruct (isupper x).
    + rewrite IH. rewrite (IH _ _ ([] ++ _)). now rewrite <- !app_assoc.
    + destruct (negb (dict_mem Ascii.eqb BAUDOT_TABLE x)).
      * rewrite IH. rewrite (IH _ _ ([] ++ _)). now rewrite <- !app_assoc.
      * apply IH.
Qed.

Lemma line_at_snoc (pre : str) (x : ascii) :
  line_at (pre ++ [x])
  = if Ascii.eqb x NL then line_at pre + 1 else line_at pre.
Proof.
  unfold line_at. rewrite count_occ_app. cbn [count_occ].
  destruct (Ascii.eqb_spec x NL) as [->|N].
  - destruct (ascii_dec NL NL); [lia | contradiction].
  - destruct (ascii_dec x NL); [contradiction | lia].
Qed.

Lemma column_at_snoc (pre : str) (x : ascii) :
  column_at (pre ++ [x])
  = if Ascii.eqb x NL then 1 else column_at pre + 1.
Proof.
  unfold column_at. rewrite rev_app_distr. cbn [rev app takewhile].
  destruct (Ascii.eqb x NL); cbn [negb len List.length]; unfold len; lia.
Qed.

Lemma validate_loop_step (x : ascii) (rest pre : str)
    (errors : list error_record) :
  exists errors',
    validate_loop (x :: rest) (line_at pre) (column_at pre) errors
    = validate_loop rest (line_at (pre ++ [x])) (column_at (pre ++ [x]))
        errors'
    /\ (isupper x = true ->
        In (line_at pre, column_at pre, x, UPPERCASE_NOT_ALLOWED) errors').
Proof.
  cbn [validate_loop]. rewrite line_at_snoc, column_at_snoc.
  destruct (Ascii.eqb_spec x NL) as [->|N].
  - exists errors. split; [reflexivity | discriminate].
  - destruct (isupper x).
    + eexists. split; [reflexivity|]. intros _.
      apply in_or_app. right. now left.
    + eexists. split; [reflexivity | discriminate].
Qed.

Lemma validate_loop_reports (rest pre : str) (errors : list error_record)
    (i : nat) (c : ascii) :
  nth_error rest i = Some c -> isupper c = true ->
  In (line_at (pre ++ firstn i rest), column_at (pre ++ firstn i rest), c,
      UPPERCASE_NOT_ALLOWED)
     (validate_loop rest (line_at pre) (column_at pre) errors).
Proof.
  revert pre errors i. induction rest as [|x rest IH]; intros pre errors i H U.
  - destruct i; discriminate.
  - destruct (validate_loop_step x rest pre errors) as (errors' & E & R).
    rewrite E. destruct i as [|i].
    + injection H as ->. cbn [firstn]. rewrite app_nil_r.
      rewrite validate_loop_acc. apply in_or_app. left. auto.
    + cbn [firstn nth_error] in *.
      replace (pre ++ x :: firstn i rest) with ((pre ++ [x]) ++ firstn i rest)
        by (now rewrite <- app_assoc).
      now apply IH.
Qed.

Lemma validate_loop_no_newline (message : str) (line column : nat)
    (errors : list error_record) (r : error_record) :
  In r (validate_loop message line column errors) ->
  In r errors \/ snd (fst r) <> NL.
Proof.
  revert line column errors.
  induction message as [|x rest IH]; intros line column errors H.
  - now left.
  - cbn [validate_loop] in H.
    destruct (Ascii.eqb_spec x NL) as [->|N]; [now apply IH in H|].
    apply IH in H. destruct H as [H|H]; [|now right].
    destruct (isupper x);
      [|destruct (negb (dict_mem Ascii.eqb BAUDOT_TABLE x)); [|now left]];
      (apply in_app_or in H; destruct H as [H|[<-|[]]];
       [now left | now right]).
Qed.

(** C6: for every text and every position [i] holding an uppercase
    letter [c], the list that [validate_message] returns is not empty and
    holds the record "Uppercase character not allowed" for [c] at the
    1-based line and column of position [i]: the line is one more than the
    number of newlines before [i], the column one more than the number of
    characters between the last of them and [i].  No record is about a
    newline. *)
Theorem validate_reports_uppercase (text : str) (i : nat) (c : ascii) :
  nth_error text i = Some c -> isupper c = true ->
  validate_message text <> []
  /\ In (line_of text i, column_of text i, c, UPPERCASE_NOT_ALLOWED)
        (validate_message text)
  /\ (forall r, In r (validate_message text) -> snd (fst r) <> NL).
Proof.
  intros H U.
  assert (In (line_of text i, column_of text i, c, UPPERCASE_NOT_ALLOWED)
             (validate_message text)) as R.
  { apply (validate_loop_reports text [] [] i c H U). }
  repeat split.
  - intros E. rewrite E in R. exact R.
  - exact R.
  - intros r Hr. apply validate_loop_no_newline in Hr.
    destruct Hr as [[]|Hr]. exact Hr.
Qed.

Lemma validate_reports_uppercase_witness :
  In (2, 3, "Q"%char, UPPERCASE_NOT_ALLOWED)
     (validate_message (pystr "ab" ++ [NL] ++ pystr "cdQ e")).
Proof.
  apply (validate_reports_uppercase (pystr "ab" ++ [NL] ++ pystr "cdQ e")
           5 "Q"%char); reflexivity.
Defined.

(** ** C8: loading the abbreviation dictionary *)

Lemma split_first_spec (s before : str) :
  contains_char "="%char s = true ->
  split_first "="%char s before
  = [before ++ takewhile not_equals s; tl (dropwhile not_equals s)].
Proof.
  revert before. induction s as [|x s IH]; intros before H; [discriminate|].
  cbn [split_first takewhile dropwhile]. unfold not_equals at 1 3.
  cbn [contains_char existsb] in H.
  destruct (Ascii.eqb x "="%char); cbn [negb].
  - cbn [tl]. now rewrite app_nil_r.
  - cbn [orb] in H. rewrite IH by exact H. now rewrite <- app_assoc.
Qed.

(** [load_line], by cases on the line. *)
Lemma load_line_eq (d : list (str * str)) (n : nat) (line : str) :
  V153.load_line d n line =
  if blank_or_comment line then Ok (d, [])
  else if negb (contains_char "="%char (cleaned line))
  then Ok (d, [V153.InvalidFormat n (cleaned line)])
  else if negb (str_islower (full_of line))
          || negb (str_islower (short_of line))
  then Ok (d, [V153.OnlyLowercase n])
  else if negb (forallb V153.allowed (full_of line))
  then Ok (d, [V153.InvalidFullWord n])
  else if negb (forallb V153.allowed (short_of line))
  then Ok (d, [V153.InvalidShortcut n])
  else if dict_mem str_eqb d (full_of line)
  then Ok (d, [V153.DuplicateFullWord n])
  else if existsb (str_eqb (short_of line)) (dict_values d)
  then Ok (d, [V153.DuplicateShortcut n])
  else Ok (dict_set str_eqb d (full_of line) (short_of line), []).
Proof.
  unfold V153.load_line, blank_or_comment, full_of, short_of, side.
  fold (cleaned line).
  destruct (cleaned line) as [|c l] eqn:E; [reflexivity|].
  cbn [startswith_char orb].
  destruct (Ascii.eqb c "#"%char); [reflexivity|].
  destruct (contains_char "="%char (c :: l)) eqn:C; [|reflexivity].
  cbn [negb]. rewrite split_first_spec by exact C. reflexivity.
Qed.

Lemma dict_mem_keys (d : list (str * str)) (k : str) :
  dict_mem str_eqb d k = true <-> In k (dict_keys d).
Proof.
  unfold dict_mem, dict_keys. induction d as [|[k0 v0] d IH]; cbn.
  - split; [discriminate | tauto].
  - destruct (str_eqb k0 k) eqn:E.
    + apply str_eqb_eq in E. tauto.
    + apply str_eqb_neq in E. rewrite IH. split; [tauto|].
      intros [H|H]; [contradiction | exact H].
Qed.

Lemma existsb_str (l : list str) (w : str) :
  existsb (str_eqb w) l = true <-> In w l.
Proof.
  rewrite existsb_exists. split.
  - intros (x & Hin & E). apply str_eqb_eq in E. now subst.
  - intros H. exists w. split; [exact H | apply str_eqb_refl].
Qed.

Lemma dict_set_new (d : list (str * str)) (k v : str) :
  dict_mem str_eqb d k = false -> dict_set str_eqb d k v = d ++ [(k, v)].
Proof.
  unfold dict_mem. induction d as [|[k0 v0] d IH]; cbn; [reflexivity|].
  destruct (str_eqb k0 k); [discriminate|].
  intros H. now rewrite IH.
Qed.

Lemma contains_char_count (c : ascii) (s : str) :
  contains_char c s = true <-> count_occ ascii_dec s c >= 1.
Proof.
  unfold contains_char. rewrite existsb_exists. split.
  - intros (x & Hin & E). apply Ascii.eqb_eq in E. subst.
    now apply (count_occ_In ascii_dec).
  - intros H. exists c. split; [|apply Ascii.eqb_refl].
    now apply (count_occ_In ascii_dec).
Qed.

Lemma load_line_outcome (d : list (str * str)) (n : nat) (line : str) :
  exists r, V153.load_line d n line = Ok r /\ line_outcome d n line r.
Proof.
  rewrite load_line_eq.
  destruct (blank_or_comment line) eqn:B.
  { eexists. split; [reflexivity|]. now constructor. }
  destruct (contains_char "="%char (cleaned line)) eqn:C; cbn [negb].
  2:{ eexists. split; [reflexivity|]. now econstructor. }
  destruct (str_islower (full_of line)) eqn:Lf; cbn [negb orb].
  2:{ eexists. split; [reflexivity|]. now econstructor. }
  destruct (str_islower (short_of line)) eqn:Ls; cbn [negb].
  2:{ eexists. split; [reflexivity|]. now econstructor. }
  destruct (forallb V153.allowed (full_of line)) eqn:Af; cbn [negb].
  2:{ eexists. split; [reflexivity|]. now econstructor. }
  destruct (forallb V153.allowed (short_of line)) eqn:As; cbn [negb].
  2:{ eexists. split; [reflexivity|]. now econstructor. }
  destruct (dict_mem str_eqb d (full_of line)) eqn:Df.
  { eexists. split; [reflexivity|]. now econstructor. }
  destruct (existsb (str_eqb (short_of line)) (dict_values d)) eqn:Ds.
  { eexists. split; [reflexivity|]. now econstructor. }
  eexists. split; [reflexivity|].
  rewrite dict_set_new by exact Df.
  apply Accepted; auto.
  - now apply contains_char_count.
  - rewrite <- dict_mem_keys. congruence.
  - rewrite <- existsb_str. congruence.
Qed.

Lemma In_dropwhile (p : ascii -> bool) (x : ascii) (s : str) :
  In x s -> p x = false -> In x (dropwhile p s).
Proof.
  intros H P. induction s as [|y s IH]; [contradiction|].
  cbn [dropwhile]. destruct (p y) eqn:E; [|exact H].
  destruct H as [->|H]; [congruence | now apply IH].
Qed.

Lemma In_py_strip (x : ascii) (s : str) :
  In x s -> isspace x = false -> In x (py_strip s).
Proof.
  intros H P. unfold py_strip, rstrip_by, lstrip_by.
  rewrite <- in_rev. apply In_dropwhile; [|exact P].
  rewrite <- in_rev. now apply In_dropwhile.
Qed.

Lemma In_side (x : ascii) (s : str) :
  In x s -> isspace x = false -> In x (side s).
Proof.
  intros H P. unfold side, remove_char. apply filter_In. split.
  - now apply In_py_strip.
  - destruct (Ascii.eqb_spec x " "%char) as [->|]; [discriminate P | reflexivity].
Qed.

Lemma count_after_first (s : str) :
  count_occ ascii_dec (tl (dropwhile not_equals s)) "="%char
  = count_occ ascii_dec s "="%char - 1.
Proof.
  induction s as [|x s IH]; [reflexivity|].
  cbn [dropwhile count_occ]. unfold not_equals at 1.
  destruct (Ascii.eqb_spec x "="%char) as [->|N]; cbn [negb].
  - cbn [tl]. destruct (ascii_dec "="%char "="%char); [lia | contradiction].
  - destruct (ascii_dec x "="%char); [contradiction | exact IH].
Qed.

(** A second "=" ends up in the shortcut, where it is not allowed. *)
Lemma second_equals_rejected (line : str) :
  count_occ ascii_dec (cleaned line) "="%char >= 2 ->
  forallb V153.allowed (short_of line) = false.
Proof.
  intros H.
  assert (In "="%char (short_of line)) as I.
  { unfold short_of. apply In_side; [|reflexivity].
    apply (count_occ_In ascii_dec). rewrite count_after_first. lia. }
  destruct (forallb V153.allowed (short_of line)) eqn:E; [|reflexivity].
  rewrite forallb_forall in E. specialize (E _ I). discriminate E.
Qed.

Lemma defective_not_accepted (d : list (str * str)) (n : nat) (line : str)
    (r : list (str * str) * list V153.diagnostic) :
  line_outcome d n line r -> blank_or_comment line = false ->
  defective d line ->
  exists diag, r = (d, [diag]) /\ V153.diagnostic_line diag = Some n.
Proof.
  intros O B D. destruct O as [B' | diag _ L | _ C Lf Ls Af As Kf Vs].
  - congruence.
  - eauto.
  - exfalso. destruct D as [D|[D|[D|[D|[D|[D|D]]]]]]; try congruence; auto.
    assert (count_occ ascii_dec (cleaned line) "="%char >= 2) as C2 by lia.
    apply second_equals_rejected in C2. congruence.
Qed.

Lemma NoDup_snoc {A} (l : list A) (x : A) :
  NoDup l -> ~ In x l -> NoDup (l ++ [x]).
Proof.
  intros N I. apply NoDup_rev in N. rewrite <- (rev_involutive (l ++ [x])).
  apply NoDup_rev. rewrite rev_app_distr. cbn. constructor; [|exact N].
  now rewrite <- in_rev.
Qed.

Lemma line_outcome_well_formed (d : list (str * str)) (n : nat) (line : str)
    (r : list (str * str) * list V153.diagnostic) :
  line_outcome d n line r -> well_formed d -> well_formed (fst r).
Proof.
  intros O (Nk & Nv & W).
  destruct O as [B' | diag _ L | _ C Lf Ls Af As Kf Vs]; cbn [fst].
  - repeat split; auto; apply W; auto.
  - repeat split; auto; apply W; auto.
  - unfold well_formed, dict_keys, dict_values in *.
    rewrite !map_app. cbn [map fst snd].
    split; [now apply NoDup_snoc|]. split; [now apply NoDup_snoc|].
    intros w [H|H]; apply in_app_or in H; destruct H as [H|[<-|[]]]; auto.
Qed.

Lemma line_outcome_numbered (d : list (str * str)) (n : nat) (line : str)
    (r : list (str * str) * list V153.diagnostic) :
  line_outcome d n line r -> Forall (numbered n (n + 1)) (snd r).
Proof.
  intros O. destruct O; cbn [snd]; repeat constructor.
  exists n. split; [assumption | lia].
Qed.

Lemma load_loop_spec (lines : list str) (n : nat) (d : list (str * str))
    (printed : list V153.diagnostic) :
  well_formed d ->
  exists d' new,
    V153.load_loop lines n d printed = Ok (d', printed ++ new)
    /\ well_formed d'
    /\ Forall (numbered n (n + len lines)) new.
Proof.
  revert n d printed. induction lines as [|line rest IH]; intros n d printed W.
  - exists d, []. cbn. rewrite app_nil_r. auto.
  - cbn [V153.load_loop].
    destruct (load_line_outcome d n line) as (r & E & O).
    rewrite E. cbn [bind].
    destruct (IH (n + 1) (fst r) (printed ++ snd r)) as (d' & new & E' & W' & F).
    { now apply (line_outcome_well_formed d n line). }
    exists d', (snd r ++ new). rewrite E', <- app_assoc.
    split; [reflexivity|]. split; [exact W'|].
    apply Forall_app. split.
    + apply line_outcome_numbered in O.
      eapply Forall_impl; [|exact O].
      intros a (m & ? & ?). exists m. unfold len. cbn [List.length].
      split; [assumption | lia].
    + eapply Forall_impl; [|exact F].
      intros a (m & ? & ?). exists m. unfold len in *. cbn [List.length].
      split; [assumption | lia].
Qed.

Lemma load_loop_app (l1 l2 : list str) (n : nat) (d : list (str * str))
    (printed : list V153.diagnostic) :
  V153.load_loop (l1 ++ l2) n d printed
  = (r <- V153.load_loop l1 n d printed ;;
     V153.load_loop l2 (n + len l1) (fst r) (snd r)).
Proof.
  revert n d printed. induction l1 as [|line rest IH]; intros n d printed.
  - cbn. now rewrite Nat.add_0_r.
  - cbn [app V153.load_loop].
    destruct (V153.load_line d n line) as [r|e]; cbn [bind]; [|reflexivity].
    rewrite IH. unfold len. cbn [List.length].
    now replace (n + 1 + List.length rest) with (n + S (List.length rest))
      by lia.
Qed.

Lemma load_line_renumber (d d' : list (str * str)) (n n' : nat) (line : str)
    (out : list V153.diagnostic) :
  V153.load_line d n line = Ok (d', out) ->
  exists out', V153.load_line d n' line = Ok (d', out').
Proof.
  rewrite !load_line_eq.
  repeat match goal with
         | |- context [if ?b then _ else _] => destruct b
         end; intros [= <- <-]; eauto.
Qed.

Lemma load_loop_renumber (lines : list str) (n n' : nat)
    (d d' : list (str * str)) (printed printed' log : list V153.diagnostic) :
  V153.load_loop lines n d printed = Ok (d', log) ->
  exists log', V153.load_loop lines n' d printed' = Ok (d', log').
Proof.
  revert n n' d printed printed'.
  induction lines as [|line rest IH]; intros n n' d printed printed' H.
  - cbn in *. injection H as <- <-. eauto.
  - cbn [V153.load_loop] in *.
    destruct (V153.load_line d n line) as [[d1 out]|e] eqn:E;
      [|discriminate H].
    destruct (load_line_renumber _ _ _ n' _ _ E) as (out' & E').
    rewrite E'. cbn [bind fst snd] in *. eapply IH. exact H.
Qed.

Lemma count_line_app (n : nat) (a b : list V153.diagnostic) :
  count_line n (a ++ b) = count_line n a + count_line n b.
Proof. unfold count_line, len. now rewrite filter_app, length_app. Qed.

Lemma count_line_outside (n lo hi : nat) (l : list V153.diagnostic) :
  Forall (numbered lo hi) l -> n < lo \/ hi <= n -> count_line n l = 0.
Proof.
  intros F H. unfold count_line. induction F as [|x l (m & E & R) F IH].
  - reflexivity.
  - cbn [filter]. rewrite E.
    destruct (Nat.eqb_spec m n); [lia | exact IH].
Qed.

Lemma well_formed_nil : well_formed [].
Proof.
  split; [constructor|]. split; [constructor|].
  intros w [[]|[]].
Qed.

Lemma load_shortcuts_split (pre post : list str) (line : str) :
  exists d0 log0 r d new,
    V153.load_loop pre 1 [] [] = Ok (d0, log0)
    /\ well_formed d0
    /\ Forall (numbered 1 (len pre + 1)) log0
    /\ V153.load_line d0 (len pre + 1) line = Ok r
    /\ line_outcome d0 (len pre + 1) line r
    /\ V153.load_loop post (len pre + 2) (fst r) (log0 ++ snd r)
       = Ok (d, (log0 ++ snd r) ++ new)
    /\ well_formed d
    /\ Forall (numbered (len pre + 2) (len pre + 2 + len post)) new
    /\ V153.load_loop (pre ++ line :: post) 1 [] []
       = Ok (d, (log0 ++ snd r) ++ new).
Proof.
  destruct (load_loop_spec pre 1 [] [] well_formed_nil)
    as (d0 & log0 & E0 & W0 & F0).
  cbn [app] in E0. replace (1 + len pre) with (len pre + 1) in * by lia.
  destruct (load_line_outcome d0 (len pre + 1) line) as (r & El & O).
  destruct (load_loop_spec post (len pre + 2) (fst r) (log0 ++ snd r))
    as (d & new & E1 & W1 & F1).
  { now apply (line_outcome_well_formed d0 (len pre + 1) line). }
  exists d0, log0, r, d, new.
  split; [exact E0|]. split; [exact W0|]. split; [exact F0|].
  split; [exact El|]. split; [exact O|]. split; [exact E1|].
  split; [exact W1|]. split; [exact F1|].
  rewrite load_loop_app, E0. cbn [bind fst snd V153.load_loop].
  replace (1 + len pre) with (len pre + 1) by lia.
  rewrite El. cbn [bind].
  now replace (len pre + 1 + 1) with (len pre + 2) by lia.
Qed.

Lemma load_shortcuts_skip (pre post : list str) (d0 d : list (str * str))
    (log0 printed log : list V153.diagnostic) (n : nat) :
  V153.load_loop pre 1 [] [] = Ok (d0, log0) ->
  V153.load_loop post n d0 printed = Ok (d, log) ->
  V153.WORD_SHORTCUTS (Some (pre ++ post)) = d.
Proof.
  intros E0 E1. unfold V153.WORD_SHORTCUTS, V153.load_shortcuts.
  rewrite load_loop_app, E0. cbn [bind fst snd].
  destruct (load_loop_renumber post n (1 + len pre) d0 d printed log0 log E1)
    as (log' & E). now rewrite E.
Qed.

(** C8, as the code has it.  A missing file gives the empty dictionary.
    A file whose bytes are not valid UTF-8 makes the load fail as a whole:
    it raises [UnicodeDecodeError].  For a file that is read, with the
    lines [pre], then [line], then [post], loading returns, the dictionary
    has unique keys and unique values, each made of symbol-table
    characters and lowercase, and [line], whose number is [len pre + 1],
    is treated as follows.  Blank or "#"-prefixed: it is
    skipped and no diagnostic carries its number.  Otherwise, if it is
    defective (not exactly one "=", a side not lowercase, a character
    outside the symbol table, a full word or a shortcut already entered
    by the lines before it): it is skipped and exactly one diagnostic
    carries its number.  In both cases the dictionary is the one loaded
    from [pre ++ post].  Otherwise the line is entered and nothing is
    printed for it. *)
Theorem load_shortcuts_skips_bad_lines :
  V153.load_shortcuts Missing = Ok ([], [V153.FileNotFound])
  /\ V153.load_shortcuts Undecodable = Raise UnicodeDecodeError
  /\ forall (pre post : list str) (line : str),
     exists d0 log0 d log,
       V153.load_shortcuts (Text pre) = Ok (d0, log0)
       /\ V153.load_shortcuts (Text (pre ++ line :: post)) = Ok (d, log)
       /\ NoDup (dict_keys d)
       /\ NoDup (dict_values d)
       /\ (forall w, In w (dict_keys d) \/ In w (dict_values d) ->
                     forallb V153.allowed w = true /\ str_islower w = true)
       /\ (blank_or_comment line = true ->
           count_line (len pre + 1) log = 0
           /\ d = V153.WORD_SHORTCUTS (Some (pre ++ post)))
       /\ (blank_or_comment line = false -> defective d0 line ->
           count_line (len pre + 1) log = 1
           /\ d = V153.WORD_SHORTCUTS (Some (pre ++ post)))
       /\ (blank_or_comment line = false -> ~ defective d0 line ->
           count_line (len pre + 1) log = 0
           /\ V153.WORD_SHORTCUTS (Some (pre ++ [line]))
              = d0 ++ [(full_of line, short_of line)]).
Proof.
  split; [reflexivity|]. split; [reflexivity|]. intros pre post line.
  destruct (load_shortcuts_split pre post line)
    as (d0 & log0 & r & d & new & E0 & W0 & F0 & El & O & E1 & W1 & F1 & E).
  exists d0, log0, d, ((log0 ++ snd r) ++ new).
  assert (forall l, count_line (len pre + 1) ((log0 ++ l) ++ new)
                    = count_line (len pre + 1) l) as C.
  { intros l. rewrite !count_line_app.
    rewrite (count_line_outside _ _ _ _ F0) by lia.
    rewrite (count_line_outside _ _ _ _ F1) by lia. lia. }
  destruct W1 as (Nk & Nv & Wc).
  split; [exact E0|]. split; [exact E|].
  split; [exact Nk|]. split; [exact Nv|]. split; [exact Wc|].
  rewrite C. split; [|split].
  - intros B. destruct O as [_ | diag B' _ | B' _ _ _ _ _ _ _];
      [| rewrite B in B'; discriminate B' ..].
    split; [reflexivity|]. symmetry.
    eapply load_shortcuts_skip; [exact E0 | exact E1].
  - intros B D.
    destruct (defective_not_accepted _ _ _ _ O B D) as (diag & -> & L).
    split.
    + unfold count_line. cbn [filter snd]. rewrite L, Nat.eqb_refl.
      reflexivity.
    + symmetry. eapply load_shortcuts_skip; [exact E0 | exact E1].
  - intros B D.
    destruct O as [B' | diag _ L | _ Cn Lf Ls Af As Kf Vs];
      [congruence | | ].
    + exfalso. clear E E1 C. revert El. rewrite load_line_eq, B.
      assert (contains_char "="%char (cleaned line) = true) as Hc.
      { apply contains_char_count.
        destruct (count_occ ascii_dec (cleaned line) "="%char) eqn:Q; [|lia].
        exfalso. apply D. left. lia. }
      rewrite Hc. cbn [negb].
      destruct (str_islower (full_of line)) eqn:Q1;
        [|exfalso; apply D; unfold defective; tauto].
      destruct (str_islower (short_of line)) eqn:Q2;
        [|exfalso; apply D; unfold defective; tauto].
      destruct (forallb V153.allowed (full_of line)) eqn:Q3;
        [|exfalso; apply D; unfold defective; tauto].
      destruct (forallb V153.allowed (short_of line)) eqn:Q4;
        [|exfalso; apply D; unfold defective; tauto].
      destruct (dict_mem str_eqb d0 (full_of line)) eqn:Q5;
        [exfalso; apply D; apply dict_mem_keys in Q5;
         unfold defective; tauto|].
      destruct (existsb (str_eqb (short_of line)) (dict_values d0)) eqn:Q6;
        [exfalso; apply D; apply existsb_str in Q6;
         unfold defective; tauto|].
      cbn [negb orb]. intros [=].
    + split; [reflexivity|].
      unfold V153.WORD_SHORTCUTS, V153.load_shortcuts.
      rewrite load_loop_app, E0. cbn [bind fst snd V153.load_loop].
      replace (1 + len pre) with (len pre + 1) by lia.
      rewrite El. reflexivity.
Qed.

Lemma load_shortcuts_skips_bad_lines_witness :
  exists d log,
    V153.load_shortcuts (Text ([pystr "dispose=dpo" ++ [NL]]
             ++ (pystr "dispose = bin" ++ [NL]) :: [pystr "now=nw" ++ [NL]]))
    = Ok (d, log)
    /\ count_line 2 log = 1
    /\ d = V153.WORD_SHORTCUTS
             (Some ([pystr "dispose=dpo" ++ [NL]] ++ [pystr "now=nw" ++ [NL]])).
Proof.
  destruct load_shortcuts_skips_bad_lines as (_ & _ & H).
  destruct (H [pystr "dispose=dpo" ++ [NL]] [pystr "now=nw" ++ [NL]]
              (pystr "dispose = bin" ++ [NL]))
    as (d0 & log0 & d & log & E0 & E & _ & _ & _ & _ & Hd & _).
  exists d, log. split; [exact E|].
  apply Hd; [reflexivity|].
  injection E0 as <- _.
  do 5 right. left. cbn. now left.
Defined.

(** C8, counterexample: a line that starts with "#" is skipped and no
    diagnostic is printed for it; and on a file that is not valid UTF-8
    the load fails as a whole. *)
Lemma comment_line_not_reported :
  blank_or_comment (pystr "# abbreviations" ++ [NL]) = true
  /\ V153.load_shortcuts (Text [pystr "# abbreviations" ++ [NL]])
     = Ok ([], [])
  /\ V153.load_shortcuts Undecodable = Raise UnicodeDecodeError.
Proof. repeat split. Qed.

(** ** The pipelines of [main.py] and [1.5/1.53.py] *)

Lemma table_chars_checked :
  forallb (fun c => negb (Ascii.eqb c NL) && negb (isupper c)
                    && negb ((127 <? nat_of_ascii c) || is_category_C c)
                    && Bool.eqb (isspace c) (Ascii.eqb c " "%char))
    (dict_keys BAUDOT_TABLE) = true.
Proof. vm_compute. reflexivity. Qed.

Lemma dict_mem_table (c : ascii) :
  dict_mem Ascii.eqb BAUDOT_TABLE c = true -> In c (dict_keys BAUDOT_TABLE).
Proof.
  unfold dict_mem.
  destruct (dict_get Ascii.eqb BAUDOT_TABLE c) as [code|] eqn:E;
    [intros _ | discriminate].
  apply table_get_In in E. unfold dict_keys.
  apply in_map_iff. now exists (c, code).
Qed.

Lemma table_char (c : ascii) :
  dict_mem Ascii.eqb BAUDOT_TABLE c = true ->
  Ascii.eqb c NL = false /\ isupper c = false
  /\ (127 <? nat_of_ascii c) || is_category_C c = false
  /\ isspace c = Ascii.eqb c " "%char.
Proof.
  intros H. apply dict_mem_table in H.
  pose proof table_chars_checked as T. rewrite forallb_forall in T.
  specialize (T c H).
  repeat (apply andb_prop in T; destruct T as [T ?]).
  rewrite negb_true_iff in *. apply Bool.eqb_prop in H0.
  repeat split; assumption.
Qed.

Lemma read_text_file_table (s : str) :
  in_table s = true -> V153.read_text_file (Text s) = Ok (Some s).
Proof.
  intros T. unfold V153.read_text_file.
  assert (forall line column, V153.unicode_loop s line column [] = []) as E.
  { induction s as [|c s IH]; intros line column; [reflexivity|].
    apply in_table_cons in T. destruct T as [Tc Ts].
    destruct (table_char c Tc) as (N & _ & U & _).
    cbn [V153.unicode_loop]. rewrite N, U. now apply IH. }
  now rewrite E.
Qed.

Lemma rstrip_newlines_table (s : str) :
  in_table s = true -> rstrip_newlines s = s.
Proof.
  intros T. unfold rstrip_newlines, rstrip_by.
  destruct (rev s) as [|c r] eqn:E.
  - cbn. apply (f_equal (@rev ascii)) in E. now rewrite rev_involutive in E.
  - assert (dict_mem Ascii.eqb BAUDOT_TABLE c = true) as Tc.
    { unfold in_table in T. rewrite forallb_forall in T. apply T.
      apply in_rev. rewrite E. now left. }
    destruct (table_char c Tc) as (N & _).
    cbn [dropwhile]. rewrite Ascii.eqb_sym, N.
    rewrite <- E. apply rev_involutive.
Qed.

Lemma validate_message_table (s : str) :
  in_table s = true -> validate_message s = [].
Proof.
  intros T. unfold validate_message. generalize 1 at 1. generalize 1.
  induction s as [|c s IH]; intros column line; [reflexivity|].
  apply in_table_cons in T. destruct T as [Tc Ts].
  destruct (table_char c Tc) as (N & U & _).
  cbn [validate_loop]. rewrite N, U, Tc. cbn [negb]. now apply IH.
Qed.

Lemma map_get_or_self (d : list (str * str)) (words : list str) :
  (forall w, In w words -> dict_mem str_eqb d w = false) ->
  map (get_or_self d) words = words.
Proof.
  intros H. rewrite <- (map_id words) at 2. apply map_ext_in.
  intros w Hw. specialize (H w Hw). unfold get_or_self, dict_mem in *.
  now destruct (dict_get str_eqb d w).
Qed.

Lemma encode_message_in_table (message acc bits : str) :
  Main.encode_message message acc = Ok bits -> in_table message = true.
Proof.
  revert acc. induction message as [|c rest IH]; intros acc H; [reflexivity|].
  cbn [Main.encode_message] in H. unfold in_table. cbn [forallb].
  destruct (dict_mem Ascii.eqb BAUDOT_TABLE c); [|discriminate H].
  cbn [negb] in H. destruct (table_code c); [|discriminate H].
  cbn [bind andb] in *. now apply IH in H.
Qed.

(** The loop on the packed bytes of a message returns; if the message
    holds no stop word, it returns the message. *)
Lemma scan_found (message : str) (raw : bytes) :
  V153.build_encoded_bytes message = Ok raw ->
  exists r, scan (bytes_to_bits raw) = Some r.
Proof.
  intros H. destruct (scan_packed _ _ H) as (_ & _ & t & E).
  rewrite scan_feed, E.
  apply (feed_some _ []).
  - intros (pre & post & Q). destruct pre; discriminate Q.
  - exists message, t. cbn [app]. now rewrite <- app_assoc.
Qed.

Lemma scan_message (message : str) (raw : bytes) :
  V153.build_encoded_bytes message = Ok raw ->
  contains STOP_WORD message = false ->
  scan (bytes_to_bits raw) = Some message.
Proof.
  intros H N. destruct (scan_packed _ _ H) as (_ & _ & t & E).
  rewrite scan_feed, E, <- app_assoc.
  apply feed_message. now apply contains_false.
Qed.

(** ** C1: the stop word cuts the message *)

(** C1, counterexample: a message over the symbol table that holds the
    stop word is cut at it. *)
Lemma round_trip_fails_on_stop_word :
  in_table (pystr "nonstop flight") = true
  /\ exists raw,
       Main.encode_to_file (pystr "nonstop flight") = Ok raw
       /\ Main.decode_from_file raw = [pystr "Decoded message:"; pystr "non"].
Proof. split; [reflexivity|]. eexists. split; reflexivity. Qed.

(** ** C2: the encoder's own output decodes *)

(** C2, as the code has it.  Whatever bytes [main.py] writes for a
    message, its decoder finds the stop word in them.  For [1.5/1.53.py]:
    whenever [encode_to_file_from_text] writes an artifact, the decoder
    finds the stop word in it, provided decompress-or-fallback gives back
    the packed bytes from the artifact, as it does for a compressed
    artifact, and for an uncompressed one that zlib refuses. *)
Theorem encoded_artifact_decodes :
  (forall message raw,
     Main.encode_to_file message = Ok raw ->
     exists decoded,
       Main.decode_from_file raw = [pystr "Decoded message:"; decoded])
  /\ (forall abv zc zd text uc cmp ch data,
        V153.encode_to_file_from_text abv zc (Text text) uc cmp ch
        = Ok (Some data) ->
        (forall raw,
           V153.build_encoded_bytes
             (apply_shortcuts_encode (V153.WORD_SHORTCUTS abv)
                (rstrip_newlines text)) = Ok raw ->
           V153.try_decompress zd data = raw) ->
        exists decoded_message,
          V153.decode_from_file abv zd (Some data)
          = [NL :: pystr "Decoded message:"; decoded_message]).
Proof.
  split.
  - intros message raw H.
    assert (in_table message = true) as T.
    { unfold Main.encode_to_file in H.
      destruct (Main.encode_message message []) as [bits|] eqn:E;
        [|discriminate H].
      now apply encode_message_in_table in E. }
    destruct (build_encoded_bytes_spec message T) as (raw' & B & M & _).
    rewrite H in M. injection M as <-.
    destruct (scan_found _ _ B) as (r & Sc).
    exists r. unfold Main.decode_from_file. now rewrite Sc.
  - intros abv zc zd text uc cmp ch data H Z.
    unfold V153.encode_to_file_from_text in H.
    unfold V153.read_text_file in H.
    destruct (V153.unicode_loop text 1 1 []); [|discriminate H].
    cbn [bind] in H.
    destruct (validate_message _); [|discriminate H].
    destruct (V153.build_encoded_bytes _) as [raw|] eqn:B; [|discriminate H].
    cbn [bind] in H. injection H as <-.
    specialize (Z raw eq_refl).
    destruct (scan_found _ _ B) as (r & Sc).
    eexists. unfold V153.decode_from_file. rewrite Z, Sc. reflexivity.
Qed.

Lemma encoded_artifact_decodes_witness :
  exists data decoded_message,
    V153.encode_to_file_from_text ABV_DISPOSE Zlib.compress_stored
      (Text (pystr "please dispose   now" ++ [NL]))
      (pystr "y") (pystr "n") (pystr "")
    = Ok (Some data)
    /\ V153.decode_from_file ABV_DISPOSE Zlib.decompress (Some data)
       = [NL :: pystr "Decoded message:"; decoded_message].
Proof.
  destruct encoded_artifact_decodes as (_ & H).
  eexists.
  destruct (H ABV_DISPOSE Zlib.compress_stored Zlib.decompress
              (pystr "please dispose   now" ++ [NL])
              (pystr "y") (pystr "n") (pystr "") _ eq_refl) as (m & D).
  - intros raw B. vm_compute in B. injection B as <-. reflexivity.
  - exists m. split; [reflexivity | exact D].
Defined.

(** C2, counterexample: the packed bytes of [CRAFTED_MESSAGE] are a zlib
    stream followed by more bytes; stored uncompressed, they are
    decompressed by the decoder, which then finds no stop word. *)
Lemma crafted_artifact_not_decoded :
  exists data,
    V153.encode_to_file_from_text ABV_DISPOSE Zlib.compress_stored
      (Text CRAFTED_MESSAGE) (pystr "n") (pystr "") (pystr "")
    = Ok (Some data)
    /\ V153.decode_from_file ABV_DISPOSE Zlib.decompress (Some data)
       = [pystr "Stop word not found."].
Proof.
  exists (match V153.build_encoded_bytes CRAFTED_MESSAGE with
          | Ok raw => raw
          | Raise _ => []
          end).
  split; vm_compute; reflexivity.
Qed.

(** ** C4: compressed and uncompressed artifacts *)

(** C4, as the code has it.  When zlib restores the packed bytes from
    their compressed form and refuses the packed bytes themselves, the
    decoder prints the same lines for the artifact whatever was answered
    at the prompts of [handle_compression], compressed or not; they are
    the lines of the packed bytes decoded as they are.  The decoder never
    raises: a failed decompression leaves the bytes as read. *)
Theorem compressed_and_raw_decode_alike abv zc zd (byte_data : bytes)
    (uc cmp ch uc' cmp' ch' : str) :
  zd (zc byte_data) = Some byte_data ->
  zd byte_data = None ->
  V153.decode_from_file abv zd
    (Some (V153.handle_compression zc byte_data uc cmp ch))
  = V153.decode_from_file abv zd
      (Some (V153.handle_compression zc byte_data uc' cmp' ch'))
  /\ V153.decode_from_file abv zd (Some (zc byte_data))
     = V153.decode_from_file abv zd (Some byte_data).
Proof.
  intros Hc Hr.
  assert (forall a b c,
            V153.try_decompress zd (V153.handle_compression zc byte_data a b c)
            = byte_data) as T.
  { intros a b c. unfold V153.handle_compression, V153.try_decompress.
    repeat match goal with
           | |- context [if ?x then _ else _] => destruct x
           end; now rewrite ?Hc, ?Hr. }
  split.
  - unfold V153.decode_from_file. now rewrite !T.
  - unfold V153.decode_from_file, V153.try_decompress. now rewrite Hc, Hr.
Qed.

Lemma compressed_and_raw_decode_alike_witness :
  V153.decode_from_file ABV_DISPOSE Zlib.decompress
    (Some (Zlib.compress_stored [xa0; x65; x2c; x10; xb0; xc5; x8b; x0c; x58]))
  = V153.decode_from_file ABV_DISPOSE Zlib.decompress
      (Some [xa0; x65; x2c; x10; xb0; xc5; x8b; x0c; x58]).
Proof.
  apply (compressed_and_raw_decode_alike ABV_DISPOSE Zlib.compress_stored
           Zlib.decompress [xa0; x65; x2c; x10; xb0; xc5; x8b; x0c; x58]
           [] [] [] [] [] []); reflexivity.
Defined.

(** C4, counterexample: for [CRAFTED_MESSAGE] the compressed artifact
    decodes to the message and the uncompressed one does not decode. *)
Lemma crafted_artifacts_decode_differently :
  exists raw,
    V153.build_encoded_bytes CRAFTED_MESSAGE = Ok raw
    /\ Zlib.decompress (Zlib.compress_stored raw) = Some raw
    /\ V153.decode_from_file ABV_DISPOSE Zlib.decompress
         (Some (V153.handle_compression Zlib.compress_stored raw
                  (pystr "y") (pystr "n") (pystr "")))
       = [NL :: pystr "Decoded message:"; CRAFTED_MESSAGE]
    /\ V153.decode_from_file ABV_DISPOSE Zlib.decompress
         (Some (V153.handle_compression Zlib.compress_stored raw
                  (pystr "n") (pystr "") (pystr "")))
       = [pystr "Stop word not found."].
Proof.
  exists (match V153.build_encoded_bytes CRAFTED_MESSAGE with
          | Ok raw => raw
          | Raise _ => []
          end).
  repeat split; vm_compute; reflexivity.
Qed.

(** ** Further properties of the bit packer *)

Lemma byte_chunk (b : byte) :
  is_bitstring (format_08b (Byte.to_N b)) = true
  /\ int2 (format_08b (Byte.to_N b)) = Ok (Byte.to_N b).
Proof. destruct b; split; reflexivity. Qed.

Lemma bytes_to_bits_app (a b : bytes) :
  bytes_to_bits (a ++ b) = bytes_to_bits a ++ bytes_to_bits b.
Proof. unfold bytes_to_bits. now rewrite map_app, concat_app. Qed.

Lemma bytes_to_bits_len (byte_data : bytes) :
  len (bytes_to_bits byte_data) = 8 * len byte_data.
Proof.
  induction byte_data as [|b bd IH]; [reflexivity|].
  change (bytes_to_bits (b :: bd))
    with (format_08b (Byte.to_N b) ++ bytes_to_bits bd).
  unfold len in *. rewrite length_app, IH.
  pose proof (byte_format_len b) as L. unfold len in L. rewrite L.
  cbn [List.length]. lia.
Qed.

Lemma bytes_to_bits_bits (byte_data : bytes) :
  is_bitstring (bytes_to_bits byte_data) = true.
Proof.
  induction byte_data as [|b bd IH]; [reflexivity|].
  change (bytes_to_bits (b :: bd))
    with (format_08b (Byte.to_N b) ++ bytes_to_bits bd).
  rewrite is_bitstring_app, IH. now destruct (byte_chunk b) as [-> _].
Qed.


Lemma app_eq_len {A} (a b c d : list A) :
  List.length a = List.length c -> a ++ b = c ++ d -> a = c /\ b = d.
Proof.
  revert c. induction a as [|x a IH]; intros [|y c] L H;
    try discriminate L.
  - auto.
  - injection H as -> H. injection L as L.
    destruct (IH c L H) as [-> ->]. auto.
Qed.

Lemma bytes_to_bits_inj (a b : bytes) :
  bytes_to_bits a = bytes_to_bits b -> a = b.
Proof.
  revert b. induction a as [|x a IH]; intros [|y b] H.
  - reflexivity.
  - apply (f_equal len) in H. rewrite !bytes_to_bits_len in H.
    unfold len in H. cbn in H. lia.
  - apply (f_equal len) in H. rewrite !bytes_to_bits_len in H.
    unfold len in H. cbn in H. lia.
  - change (format_08b (Byte.to_N x) ++ bytes_to_bits a
            = format_08b (Byte.to_N y) ++ bytes_to_bits b) in H.
    apply app_eq_len in H.
    + destruct H as [Hx Hr]. f_equal; [|now apply IH].
      pose proof (proj2 (byte_chunk x)) as Ex.
      pose proof (proj2 (byte_chunk y)) as Ey.
      rewrite Hx, Ey in Ex. injection Ex as Ex.
      apply (f_equal Byte.of_N) in Ex. rewrite !Byte.of_to_N in Ex.
      now injection Ex.
    + pose proof (byte_format_len x) as Lx.
      pose proof (byte_format_len y) as Ly. unfold len in *. congruence.
Qed.

(** Packing the bits of a byte sequence gives the byte sequence back: the
    bit string has a multiple of eight digits and nothing is padded. *)
Theorem pack_unpack (byte_data : bytes) :
  bits_to_bytes (bytes_to_bits byte_data) = Ok byte_data.
Proof.
  destruct (bits_to_bytes_spec (bytes_to_bits byte_data)
              (bytes_to_bits_bits byte_data)) as (bd & E & B & _).
  rewrite E. f_equal. apply bytes_to_bits_inj.
  rewrite B, bytes_to_bits_len.
  replace (padding (8 * len byte_data)) with 0 by (unfold padding; zmod).
  apply app_nil_r.
Qed.

(** ** Further properties of the decoding loop *)

(** Of the 32 chunks of five binary digits, exactly ["00000"] and
    ["01000"] have no character: these are the chunks the loop skips. *)
Theorem unknown_chunks (chunk : str) :
  len chunk = 5 -> is_bitstring chunk = true ->
  (dict_get str_eqb REVERSE_TABLE chunk = None
   <-> chunk = pystr "00000" \/ chunk = pystr "01000").
Proof.
  intros L B.
  do 6 (destruct chunk as [|? chunk]; try discriminate L).
  unfold is_bitstring in B. cbn [forallb] in B.
  repeat (apply andb_prop in B; destruct B as [? B]).
  repeat match goal with
         | H : is_bit _ = true |- _ =>
             apply is_bit_cases in H; destruct H; subst
         end;
    (split; [first [ discriminate | intros _; auto ]
            | first [ reflexivity | intros [H|H]; discriminate H ]]).
Qed.

Lemma unknown_chunks_witness :
  dict_get str_eqb REVERSE_TABLE (pystr "01000") = None.
Proof.
  apply (unknown_chunks (pystr "01000")); [reflexivity | reflexivity |].
  now right.
Defined.

Lemma slice_shift {A} (c rest : list A) (i j : nat) :
  slice (c ++ rest) (len c + i) (len c + j) = slice rest i j.
Proof.
  unfold slice, len. rewrite skipn_app.
  rewrite skipn_all2 by lia.
  replace (List.length c + i - List.length c) with i by lia.
  replace (List.length c + j - (List.length c + i)) with (j - i) by lia.
  reflexivity.
Qed.

Lemma stream_loop_shift (c rest : str) (j n : nat) :
  len c = 5 ->
  stream_loop (c ++ rest) (map (fun k => k * 5) (seq (S j) n))
  = stream_loop rest (map (fun k => k * 5) (seq j n)).
Proof.
  intros L. revert j. induction n as [|n IH]; intros j; [reflexivity|].
  cbn [seq map stream_loop].
  replace (S j * 5) with (len c + j * 5) by lia.
  replace (len c + j * 5 + 5) with (len c + (j * 5 + 5)) by lia.
  rewrite slice_shift, IH. reflexivity.
Qed.

(** The decoded stream, chunk by chunk. *)
Lemma decoded_stream_cons (c rest : str) :
  len c = 5 ->
  decoded_stream (c ++ rest)
  = match dict_get str_eqb REVERSE_TABLE c with
    | Some char => char :: decoded_stream rest
    | None => decoded_stream rest
    end.
Proof.
  intros L. unfold decoded_stream, py_range.
  assert (len (c ++ rest) = 5 + len rest) as La
    by (unfold len in *; rewrite length_app; lia).
  replace ((len (c ++ rest) + 5 - 1) / 5) with (S ((len rest + 5 - 1) / 5))
    by (rewrite La; zmod).
  cbn [seq map stream_loop].
  assert (slice (c ++ rest) (0 * 5) (0 * 5 + 5) = c) as Sl.
  { replace (slice (c ++ rest) (0 * 5) (0 * 5 + 5))
      with (slice ([] ++ c ++ rest) (len (@nil ascii))
              (len (@nil ascii) + len c))
      by (rewrite L; reflexivity).
    apply slice_app_exact. }
  rewrite Sl, L. cbn [Nat.ltb Nat.leb].
  rewrite stream_loop_shift by exact L. reflexivity.
Qed.

Lemma decoded_stream_short (s : str) : len s < 5 -> decoded_stream s = [].
Proof.
  intros L. unfold decoded_stream, py_range.
  destruct s as [|x s]; [reflexivity|].
  replace ((len (x :: s) + 5 - 1) / 5) with 1
    by (unfold len in *; cbn [List.length] in *; zmod).
  cbn [seq map stream_loop].
  assert (slice (x :: s) (0 * 5) (0 * 5 + 5) = x :: s) as Sl.
  { unfold slice. cbn [Nat.mul Nat.add Nat.sub skipn].
    apply firstn_all2. unfold len in L. lia. }
  rewrite Sl. now apply Nat.ltb_lt in L as ->.
Qed.

Lemma split_chunk (s : str) :
  5 <= len s -> exists c rest, s = c ++ rest /\ len c = 5.
Proof.
  intros L. exists (firstn 5 s), (skipn 5 s). split.
  - symmetry. apply firstn_skipn.
  - unfold len in *. rewrite length_firstn. lia.
Qed.

Lemma decoded_stream_prefix (s extra : str) :
  exists t, decoded_stream (s ++ extra) = decoded_stream s ++ t.
Proof.
  remember (len s) as n eqn:E. revert s E.
  induction n as [n IH] using lt_wf_ind. intros s E.
  destruct (Nat.lt_ge_cases (len s) 5) as [L|L].
  - rewrite (decoded_stream_short s L). cbn [app]. eexists. reflexivity.
  - destruct (split_chunk s L) as (c & rest & -> & Lc).
    rewrite <- app_assoc, (decoded_stream_cons c (rest ++ extra) Lc),
      (decoded_stream_cons c rest Lc).
    assert (len rest < n) as Lt
      by (subst n; unfold len in *; rewrite length_app; lia).
    destruct (IH (len rest) Lt rest eq_refl) as (t & Ht).
    rewrite Ht.
    destruct (dict_get str_eqb REVERSE_TABLE c); cbn [app];
      eexists; reflexivity.
Qed.

Lemma feed_prefix (chars t d buf r : str) :
  feed chars d buf = Some r -> feed (chars ++ t) d buf = Some r.
Proof.
  revert d buf. induction chars as [|c rest IH]; intros d buf H;
    [discriminate H|].
  cbn [app feed] in *.
  destruct (str_eqb _ STOP_WORD); [exact H | now apply IH].
Qed.

(** Whatever follows the bytes in which the stop word was found does not
    change what the loop returns. *)
Theorem trailing_bytes_ignored (byte_data extra : bytes) (message : str) :
  scan (bytes_to_bits byte_data) = Some message ->
  scan (bytes_to_bits (byte_data ++ extra)) = Some message.
Proof.
  rewrite !scan_feed, bytes_to_bits_app. intros H.
  destruct (decoded_stream_prefix (bytes_to_bits byte_data)
              (bytes_to_bits extra)) as (t & ->).
  now apply feed_prefix.
Qed.

Lemma trailing_bytes_ignored_witness :
  scan (bytes_to_bits ([xa0; x65; x2c; x10; xb0; xc5; x8b; x0c; x58]
                       ++ [x2c; x31; x62; xc3; x16]))
  = Some (pystr "hello ").
Proof.
  apply (trailing_bytes_ignored
           [xa0; x65; x2c; x10; xb0; xc5; x8b; x0c; x58]
           [x2c; x31; x62; xc3; x16] (pystr "hello ")).
  reflexivity.
Defined.

Lemma decoded_stream_skip (pre u post : str) (j : nat) :
  len pre = 5 * j -> len u = 5 ->
  dict_get str_eqb REVERSE_TABLE u = None ->
  decoded_stream (pre ++ u ++ post) = decoded_stream (pre ++ post).
Proof.
  intros Lp Lu U. revert pre Lp. induction j as [|j IH]; intros pre Lp.
  - destruct pre; [|discriminate Lp]. cbn [app].
    now rewrite decoded_stream_cons, U.
  - destruct (split_chunk pre) as (c & rest & -> & Lc); [lia|].
    rewrite <- !app_assoc, (decoded_stream_cons c (rest ++ u ++ post) Lc),
      (decoded_stream_cons c (rest ++ post) Lc).
    rewrite IH; [reflexivity|].
    unfold len in *. rewrite length_app in Lp. lia.
Qed.

(** A chunk without a character, standing at a chunk boundary, is
    skipped: the loop returns what it returns without it. *)
Theorem unknown_chunk_skipped (pre u post : str) (j : nat) :
  len pre = 5 * j -> len u = 5 ->
  dict_get str_eqb REVERSE_TABLE u = None ->
  scan (pre ++ u ++ post) = scan (pre ++ post).
Proof.
  intros Lp Lu U. rewrite !scan_feed.
  now rewrite (decoded_stream_skip pre u post j).
Qed.

Lemma unknown_chunk_skipped_witness :
  scan (codes_of (pystr "hi") ++ pystr "00000"
        ++ codes_of (pystr " stop"))
  = scan (codes_of (pystr "hi") ++ codes_of (pystr " stop")).
Proof.
  apply (unknown_chunk_skipped (codes_of (pystr "hi")) (pystr "00000")
           (codes_of (pystr " stop")) 2); reflexivity.
Defined.

(** *** The message is what precedes the first stop word *)

Lemma not_occurs_nil : ~ occurs STOP_WORD [].
Proof. intros (pre & post & E). destruct pre; discriminate E. Qed.

Lemma feed_some_inv (chars d r : str) :
  ~ occurs STOP_WORD d ->
  feed chars d (slice_last d (len STOP_WORD)) = Some r ->
  exists pre c t,
    chars = pre ++ c :: t
    /\ ~ occurs STOP_WORD (d ++ pre)
    /\ slice_last (d ++ pre ++ [c]) (len STOP_WORD) = STOP_WORD
    /\ r = slice_drop_last (d ++ pre ++ [c]) (len STOP_WORD).
Proof.
  revert d. induction chars as [|c rest IH]; intros d N H;
    [discriminate H|].
  rewrite feed_step in H.
  destruct (str_eqb (slice_last (d ++ [c]) (len STOP_WORD)) STOP_WORD) eqn:E.
  - injection H as <-. apply str_eqb_eq in E.
    exists [], c, rest. cbn [app]. rewrite app_nil_r. auto.
  - assert (~ occurs STOP_WORD (d ++ [c])) as N1.
    { intros O. apply str_eqb_neq in E. apply E. now apply occurs_snoc. }
    destruct (IH _ N1 H) as (pre & c' & t & -> & N2 & W & R).
    exists (c :: pre), c', t. rewrite <- !app_assoc in *. cbn [app] in *.
    auto.
Qed.

Lemma feed_first (m tail : str) :
  ~ occurs STOP_WORD (m ++ pystr "sto") ->
  feed (m ++ STOP_WORD ++ tail) [] [] = Some m.
Proof.
  intros N.
  assert (m ++ STOP_WORD ++ tail
          = (m ++ pystr "sto") ++ "p"%char :: tail) as E
    by (now rewrite <- app_assoc).
  rewrite E.
  change (feed ((m ++ pystr "sto") ++ "p"%char :: tail) []
            (slice_last [] (len STOP_WORD)) = Some m).
  rewrite feed_app by exact N.
  cbn [app]. rewrite feed_step.
  assert ((m ++ pystr "sto") ++ ["p"%char] = m ++ STOP_WORD) as E1
    by (now rewrite <- app_assoc).
  rewrite E1.
  assert (slice_last (m ++ STOP_WORD) (len STOP_WORD) = STOP_WORD) as W.
  { unfold slice_last, len. rewrite length_app, Nat.add_sub.
    rewrite skipn_app, skipn_all, Nat.sub_diag. reflexivity. }
  rewrite W, str_eqb_refl. f_equal.
  unfold slice_drop_last, len. rewrite length_app, Nat.add_sub.
  rewrite firstn_app, firstn_all, Nat.sub_diag. cbn [firstn].
  apply app_nil_r.
Qed.

(** The loop returns [message] exactly when the decoded symbol stream is
    [message], the stop word, and a rest, and the stop word does not occur
    earlier, that is not in [message] followed by "sto". *)
Theorem scan_first_occurrence (bitstring message : str) :
  scan bitstring = Some message
  <-> exists rest,
        decoded_stream bitstring = message ++ STOP_WORD ++ rest
        /\ ~ occurs STOP_WORD (message ++ pystr "sto").
Proof.
  rewrite scan_feed. split.
  - intros H.
    destruct (feed_some_inv _ [] _ not_occurs_nil H)
      as (pre & c & t & E & N & W & R).
    cbn [app] in *.
    assert (pre ++ [c] = message ++ STOP_WORD) as P.
    { rewrite <- (firstn_skipn (len (pre ++ [c]) - len STOP_WORD)
                    (pre ++ [c])).
      unfold slice_last, slice_drop_last in *. now rewrite W, <- R. }
    change STOP_WORD with (pystr "sto" ++ ["p"%char]) in P.
    rewrite app_assoc in P. apply app_inj_tail in P. destruct P as [-> ->].
    exists t. split; [|exact N].
    rewrite E, <- !app_assoc. reflexivity.
  - intros (rest & -> & N). now apply feed_first.
Qed.

(** ** Errors and size of the encoders *)

Lemma encode_message_raise (message acc : str) :
  in_table message = false ->
  Main.encode_message message acc = Raise ValueError.
Proof.
  revert acc. induction message as [|c rest IH]; intros acc T;
    [discriminate T|].
  unfold in_table in T. cbn [forallb] in T. cbn [Main.encode_message].
  destruct (dict_mem Ascii.eqb BAUDOT_TABLE c) eqn:Tc; [|reflexivity].
  cbn [negb andb] in *. destruct (code_of_spec c Tc) as (-> & _).
  cbn [bind]. now apply IH.
Qed.

Lemma append_codes_raise (chars acc : str) :
  in_table chars = false -> append_codes chars acc = Raise KeyError.
Proof.
  revert acc. induction chars as [|c rest IH]; intros acc T;
    [discriminate T|].
  unfold in_table in T. cbn [forallb] in T. cbn [append_codes].
  destruct (dict_mem Ascii.eqb BAUDOT_TABLE c) eqn:Tc.
  - cbn [andb] in T. destruct (code_of_spec c Tc) as (-> & _).
    cbn [bind]. now apply IH.
  - unfold table_code, dict_mem in *.
    now destruct (dict_get Ascii.eqb BAUDOT_TABLE c).
Qed.

Lemma packed_length (message : str) (raw : bytes) :
  V153.build_encoded_bytes message = Ok raw ->
  len raw = (5 * (len message + 4) + 7) / 8.
Proof.
  intros H. destruct (scan_packed _ _ H) as (T & _).
  unfold V153.build_encoded_bytes in H.
  rewrite append_codes_spec in H by exact T. cbn [bind app] in H.
  rewrite append_codes_spec in H by reflexivity. cbn [bind] in H.
  destruct (bits_to_bytes_spec (codes_of message ++ codes_of STOP_WORD))
    as (raw' & E & _ & L).
  { rewrite is_bitstring_app, !codes_of_bits; auto. }
  rewrite H in E. injection E as <-.
  assert (len (codes_of message ++ codes_of STOP_WORD)
          = 5 * (len message + 4)) as Lb.
  { pose proof (codes_of_len message T) as L1.
    pose proof (codes_of_len STOP_WORD eq_refl) as L2.
    change (len STOP_WORD) with 4 in L2.
    unfold len in *. rewrite length_app. lia. }
  rewrite Lb in L. unfold padding in L. zmod.
Qed.

(** [encode_to_file] of [main.py] writes the packed bytes, five bits for
    each character and for the four of the stop word, rounded up to whole
    bytes, when every character of the message is in the symbol table, and
    raises [ValueError] otherwise. *)
Theorem encode_to_file_outcome (message : str) :
  (in_table message = true ->
   exists raw, Main.encode_to_file message = Ok raw
               /\ len raw = (5 * (len message + 4) + 7) / 8)
  /\ (in_table message = false ->
      Main.encode_to_file message = Raise ValueError).
Proof.
  split; intros T.
  - destruct (build_encoded_bytes_spec message T) as (raw & B & M & _).
    exists raw. split; [exact M | now apply packed_length].
  - unfold Main.encode_to_file. now rewrite encode_message_raise.
Qed.

Lemma encode_to_file_outcome_witness :
  (exists raw, Main.encode_to_file (pystr "hello") = Ok raw /\ len raw = 6)
  /\ Main.encode_to_file (pystr "Hello") = Raise ValueError.
Proof.
  split.
  - destruct (proj1 (encode_to_file_outcome (pystr "hello")) eq_refl)
      as (raw & E & L).
    exists raw. split; [exact E | exact L].
  - apply (proj2 (encode_to_file_outcome (pystr "Hello"))). reflexivity.
Defined.

(** [build_encoded_bytes] of [1.5/1.53.py] checks nothing itself: on a
    message over the symbol table it gives the bytes that [main.py]
    writes, and on any other message the table lookup raises
    [KeyError]. *)
Theorem build_encoded_bytes_outcome (message : str) :
  (in_table message = true ->
   V153.build_encoded_bytes message = Main.encode_to_file message
   /\ exists raw, V153.build_encoded_bytes message = Ok raw)
  /\ (in_table message = false ->
      V153.build_encoded_bytes message = Raise KeyError).
Proof.
  split; intros T.
  - destruct (build_encoded_bytes_spec message T) as (raw & B & M & _).
    rewrite B, M. eauto.
  - unfold V153.build_encoded_bytes. now rewrite append_codes_raise.
Qed.

Lemma build_encoded_bytes_outcome_witness :
  V153.build_encoded_bytes (pystr "two lines") = Main.encode_to_file (pystr "two lines")
  /\ V153.build_encoded_bytes (pystr "two" ++ [NL] ++ pystr "lines")
     = Raise KeyError.
Proof.
  split.
  - apply (proj1 (build_encoded_bytes_outcome (pystr "two lines"))).
    reflexivity.
  - apply (proj2 (build_encoded_bytes_outcome
                    (pystr "two" ++ [NL] ++ pystr "lines"))).
    reflexivity.
Defined.

(** ** The validator, record by record *)

Lemma validate_loop_In (rest pre : str) (errors : list error_record)
    (r : error_record) :
  In r (validate_loop rest (line_at pre) (column_at pre) errors)
  <-> In r errors
      \/ exists i ch,
           nth_error rest i = Some ch /\ ch <> NL
           /\ (isupper ch = true
               \/ dict_mem Ascii.eqb BAUDOT_TABLE ch = false)
           /\ r = (line_at (pre ++ firstn i rest),
                   column_at (pre ++ firstn i rest), ch,
                   if isupper ch then UPPERCASE_NOT_ALLOWED
                   else INVALID_CHARACTER).
Proof.
  revert pre errors. induction rest as [|x rest IH]; intros pre errors.
  - cbn [validate_loop]. split; [auto|].
    intros [H|(i & ch & H & _)]; [exact H|]. destruct i; discriminate H.
  - assert (pre ++ x :: nil = pre ++ [x]) as _ by reflexivity.
    assert (forall i, pre ++ firstn (S i) (x :: rest)
                      = (pre ++ [x]) ++ firstn i rest) as Shift.
    { intros i. cbn [firstn]. now rewrite <- app_assoc. }
    cbn [validate_loop].
    destruct (Ascii.eqb_spec x NL) as [->|N].
    + replace (line_at pre + 1) with (line_at (pre ++ [NL]))
        by (rewrite line_at_snoc; reflexivity).
      replace 1 with (column_at (pre ++ [NL])) at 1
        by (rewrite column_at_snoc; reflexivity).
      rewrite IH. split.
      * intros [H|(i & ch & H & Hn & Ho & Hr)]; [now left|].
        right. exists (S i), ch. rewrite Shift. auto.
      * intros [H|(i & ch & H & Hn & Ho & Hr)]; [now left|].
        destruct i as [|i]; [injection H as <-; contradiction|].
        right. exists i, ch. rewrite Shift in Hr. auto.
    + replace (column_at pre + 1) with (column_at (pre ++ [x]))
        by (rewrite column_at_snoc;
            now destruct (Ascii.eqb_spec x NL)).
      replace (line_at pre) with (line_at (pre ++ [x])) at 1
        by (rewrite line_at_snoc; now destruct (Ascii.eqb_spec x NL)).
      rewrite IH.
      assert (line_at (pre ++ [x]) = line_at pre) as Ll
        by (rewrite line_at_snoc; now destruct (Ascii.eqb_spec x NL)).
      split.
      * intros [H|(i & ch & H & Hn & Ho & Hr)].
        -- destruct (isupper x) eqn:U;
             [|destruct (dict_mem Ascii.eqb BAUDOT_TABLE x) eqn:D;
               cbn [negb] in H].
           ++ apply in_app_or in H. destruct H as [H|[<-|[]]]; [now left|].
              right. exists 0, x. cbn [firstn nth_error].
              rewrite app_nil_r, U. auto.
           ++ now left.
           ++ apply in_app_or in H. destruct H as [H|[<-|[]]]; [now left|].
              right. exists 0, x. cbn [firstn nth_error].
              rewrite app_nil_r, U. auto.
        -- right. exists (S i), ch. rewrite Shift. auto.
      * intros [H|(i & ch & H & Hn & Ho & Hr)].
        -- left. destruct (isupper x);
             [|destruct (negb (dict_mem Ascii.eqb BAUDOT_TABLE x))];
             try (apply in_or_app; left); exact H.
        -- destruct i as [|i].
           ++ injection H as <-. left.
              cbn [firstn] in Hr. rewrite app_nil_r in Hr. subst r.
              destruct (isupper x) eqn:U.
              ** apply in_or_app. right. now left.
              ** destruct Ho as [Ho|Ho]; [discriminate Ho|].
                 rewrite Ho. cbn [negb]. apply in_or_app. right. now left.
           ++ right. exists i, ch. rewrite Shift in Hr. auto.
Qed.

(** [validate_message] returns exactly one kind of record: a record is in
    the list if and only if it describes a character of the text that is
    not a newline and is uppercase or outside the symbol table, gives its
    line and column, and names the cause, uppercase taking precedence. *)
Theorem validate_message_records (text : str) (r : error_record) :
  In r (validate_message text)
  <-> exists i ch,
        nth_error text i = Some ch /\ ch <> NL
        /\ (isupper ch = true \/ dict_mem Ascii.eqb BAUDOT_TABLE ch = false)
        /\ r = (line_of text i, column_of text i, ch,
                if isupper ch then UPPERCASE_NOT_ALLOWED
                else INVALID_CHARACTER).
Proof.
  unfold validate_message.
  change 1 with (line_at []) at 1. change 1 with (column_at []).
  rewrite validate_loop_In. cbn [app]. split.
  - intros [[]|H]. exact H.
  - intros H. now right.
Qed.

(** [validate_message] returns the empty list exactly for the texts made
    of symbol-table characters and newlines: a newline is let through. *)
Theorem validate_message_accepts (text : str) :
  validate_message text = []
  <-> forall ch, In ch text ->
                 ch = NL \/ dict_mem Ascii.eqb BAUDOT_TABLE ch = true.
Proof.
  split.
  - intros E ch Hin.
    destruct (Ascii.eqb_spec ch NL) as [->|N]; [now left|]. right.
    destruct (dict_mem Ascii.eqb BAUDOT_TABLE ch) eqn:D; [reflexivity|].
    exfalso. apply In_nth_error in Hin. destruct Hin as (i & Hi).
    pose proof (proj2 (validate_loop_In text [] [] _)
                  (or_intror (ex_intro _ i (ex_intro _ ch
                     (conj Hi (conj N (conj (or_intror D) eq_refl)))))))
      as H.
    unfold validate_message in E.
    change (line_at []) with 1 in H. change (column_at []) with 1 in H.
    rewrite E in H. exact H.
  - intros H. destruct (validate_message text) as [|r l] eqn:E;
      [reflexivity|]. exfalso.
    assert (In r (validate_message text)) as Hr by (rewrite E; now left).
    unfold validate_message in Hr.
    change 1 with (line_at []) in Hr at 1.
    change 1 with (column_at []) in Hr.
    apply validate_loop_In in Hr.
    destruct Hr as [[]|(i & ch & Hi & N & O & _)].
    apply nth_error_In in Hi. destruct (H ch Hi) as [->|D]; [contradiction|].
    destruct O as [U|D']; [|congruence].
    destruct (table_char ch D) as (_ & U' & _). congruence.
Qed.

(** ** Words: [split] and [join] *)

Lemma split_words_app (w rest acc : str) :
  forallb (fun c => negb (isspace c)) w = true ->
  split_words (w ++ rest) acc = split_words rest (acc ++ w).
Proof.
  revert acc. induction w as [|c w IH]; intros acc H.
  - now rewrite app_nil_r.
  - cbn [forallb] in H. apply andb_prop in H. destruct H as [Hc Hw].
    cbn [app split_words]. apply negb_true_iff in Hc. rewrite Hc.
    rewrite IH by exact Hw. now rewrite <- app_assoc.
Qed.

Lemma split_join (words : list str) :
  Forall nonblank words -> py_split (py_join (pystr " ") words) = words.
Proof.
  unfold py_split. induction 1 as [|w ws [Hn Hb] Hws IH]; [reflexivity|].
  destruct ws as [|w' ws].
  - cbn [py_join]. rewrite <- (app_nil_r w) at 1.
    rewrite split_words_app by exact Hb. cbn [app split_words].
    now destruct w.
  - change (py_join (pystr " ") (w :: w' :: ws))
      with (w ++ " "%char :: py_join (pystr " ") (w' :: ws)).
    rewrite split_words_app by exact Hb. cbn [app split_words].
    change (isspace " "%char) with true. cbn match.
    rewrite IH. now destruct w.
Qed.

Lemma split_words_spec (s acc : str) :
  forallb (fun c => negb (isspace c)) acc = true ->
  forall w, In w (split_words s acc) ->
            nonblank w /\ forall c, In c w -> In c acc \/ In c s.
Proof.
  revert acc. induction s as [|x s IH]; intros acc Ha w Hw.
  - cbn [split_words] in Hw. destruct acc as [|a acc]; [contradiction|].
    destruct Hw as [<-|[]]. split; [split; [discriminate | exact Ha]|auto].
  - cbn [split_words] in Hw. destruct (isspace x) eqn:Sx.
    + assert (In w (split_words s []) ->
              nonblank w /\ forall c, In c w -> In c acc \/ In c (x :: s))
        as Rec.
      { intros H. destruct (IH [] eq_refl w H) as (Nb & Hc).
        split; [exact Nb|]. intros c Hcw.
        destruct (Hc c Hcw) as [[]|Hs]. right. now right. }
      destruct acc as [|a acc]; [now apply Rec|].
      destruct Hw as [<-|Hw]; [|now apply Rec].
      split; [split; [discriminate | exact Ha]|auto].
    + assert (forallb (fun c => negb (isspace c)) (acc ++ [x]) = true) as Ha'.
      { rewrite forallb_app, Ha. cbn [forallb]. now rewrite Sx. }
      destruct (IH (acc ++ [x]) Ha' w Hw) as (Nb & Hc).
      split; [exact Nb|]. intros c Hcw.
      destruct (Hc c Hcw) as [H|H]; [|right; now right].
      apply in_app_or in H. destruct H as [H|[<-|[]]]; [now left|].
      right. now left.
Qed.

Lemma py_split_spec (s w : str) :
  In w (py_split s) -> nonblank w /\ forall c, In c w -> In c s.
Proof.
  intros H. destruct (split_words_spec s [] eq_refl w H) as (Nb & Hc).
  split; [exact Nb|]. intros c Hcw. now destruct (Hc c Hcw) as [[]|].
Qed.

Lemma In_py_join (c : ascii) (sep : str) (words : list str) :
  In c (py_join sep words) ->
  In c sep \/ exists w, In w words /\ In c w.
Proof.
  induction words as [|w ws IH]; [contradiction|].
  destruct ws as [|w' ws].
  - cbn [py_join]. intros H. right. exists w. split; [now left | exact H].
  - change (py_join sep (w :: w' :: ws))
      with (w ++ sep ++ py_join sep (w' :: ws)).
    intros H. apply in_app_or in H. destruct H as [H|H].
    + right. exists w. split; [now left | exact H].
    + apply in_app_or in H. destruct H as [H|H]; [now left|].
      destruct (IH H) as [Hs|(w0 & Hw0 & Hc)]; [now left|].
      right. exists w0. split; [now right | exact Hc].
Qed.

(** ** The loaded dictionary and its inverse *)

Lemma dict_invert_spec (d : list (str * str)) :
  NoDup (dict_values d) ->
  dict_invert str_eqb d = map (fun kv => (snd kv, fst kv)) d.
Proof.
  unfold dict_invert.
  assert (forall acc,
            NoDup (dict_values d) ->
            (forall v, In v (dict_values d) -> ~ In v (dict_keys acc)) ->
            fold_left (fun acc kv => dict_set str_eqb acc (snd kv) (fst kv))
              d acc
            = acc ++ map (fun kv => (snd kv, fst kv)) d) as G.
  { induction d as [|[k v] d IH]; intros acc N D.
    - cbn. now rewrite app_nil_r.
    - cbn [fold_left map fst snd].
      unfold dict_values in *. cbn [map snd] in *.
      apply NoDup_cons_iff in N. destruct N as [Nv N].
      rewrite dict_set_new.
      + rewrite IH; [now rewrite <- app_assoc | exact N |].
        intros v' Hv' Hk. unfold dict_keys in Hk. rewrite map_app in Hk.
        apply in_app_or in Hk. destruct Hk as [Hk|[<-|[]]].
        * apply (D v'); [now right | exact Hk].
        * contradiction.
      + destruct (dict_mem str_eqb acc v) eqn:E; [|reflexivity].
        apply dict_mem_keys in E. exfalso. apply (D v); [now left | exact E]. }
  intros N. apply (G [] N). intros v _ [].
Qed.

Lemma dict_get_unique_key (d : list (str * str)) (k v : str) :
  NoDup (dict_keys d) -> In (k, v) d -> dict_get str_eqb d k = Some v.
Proof.
  induction d as [|[k0 v0] d IH]; intros N H; [contradiction|].
  unfold dict_keys in N. cbn [map fst] in N.
  apply NoDup_cons_iff in N. destruct N as [Nk N].
  cbn [dict_get]. destruct H as [[= -> ->]|H].
  - now rewrite str_eqb_refl.
  - destruct (str_eqb k0 k) eqn:E; [|now apply IH].
    apply str_eqb_eq in E. subst k0. exfalso. apply Nk.
    unfold dict_keys. apply in_map_iff. now exists (k, v).
Qed.

Lemma dict_get_In_str (d : list (str * str)) (k v : str) :
  dict_get str_eqb d k = Some v -> In (k, v) d.
Proof.
  intros H. destruct (dict_get_In _ _ _ _ H) as (k' & Hin & E).
  apply str_eqb_eq in E. now subst.
Qed.

Lemma reverse_get (d : list (str * str)) (k v : str) :
  NoDup (dict_values d) -> In (k, v) d ->
  dict_get str_eqb (REVERSE_SHORTCUTS d) v = Some k.
Proof.
  intros N H. unfold REVERSE_SHORTCUTS. rewrite dict_invert_spec by exact N.
  apply dict_get_unique_key.
  - unfold dict_keys. rewrite map_map. exact N.
  - apply in_map_iff. now exists (k, v).
Qed.

Lemma side_spaceless (s : str) : ~ In " "%char (side s).
Proof.
  unfold side, remove_char. rewrite filter_In. intros [_ H].
  discriminate H.
Qed.

Lemma load_loop_spaceless (lines : list str) (n : nat)
    (d d' : list (str * str)) (printed log : list V153.diagnostic) :
  spaceless d -> V153.load_loop lines n d printed = Ok (d', log) ->
  spaceless d'.
Proof.
  revert n d printed. induction lines as [|line rest IH];
    intros n d printed S H.
  - cbn in H. now injection H as <- _.
  - cbn [V153.load_loop] in H.
    destruct (load_line_outcome d n line) as (r & E & O).
    rewrite E in H. cbn [bind] in H. eapply IH; [|exact H].
    destruct O as [_ | diag _ _ | _ _ _ _ _ _ _ _]; cbn [fst];
      [exact S | exact S |].
    intros w. unfold dict_keys, dict_values. rewrite !map_app.
    cbn [map fst snd]. intros [Hw|Hw];
      apply in_app_or in Hw; destruct Hw as [Hw|[<-|[]]];
      try apply side_spaceless; apply S; auto.
Qed.

Lemma allowed_in_table (c : ascii) :
  V153.allowed c = true -> dict_mem Ascii.eqb BAUDOT_TABLE c = true.
Proof.
  unfold V153.allowed. rewrite existsb_exists.
  intros (x & Hin & E). apply Ascii.eqb_eq in E. subst x.
  assert (forallb (dict_mem Ascii.eqb BAUDOT_TABLE) V153.allowed_chars = true)
    as T by (vm_compute; reflexivity).
  rewrite forallb_forall in T. now apply T.
Qed.

(** The dictionary that [load_shortcuts] returns, when it returns: its
    shortcuts are pairwise distinct, and its full words and shortcuts are
    words over the symbol table. *)
Lemma loaded_dictionary (abv : option (list str)) :
  NoDup (dict_keys (V153.WORD_SHORTCUTS abv))
  /\ NoDup (dict_values (V153.WORD_SHORTCUTS abv))
  /\ forall w, In w (dict_keys (V153.WORD_SHORTCUTS abv))
               \/ In w (dict_values (V153.WORD_SHORTCUTS abv)) ->
               nonblank w /\ in_table w = true.
Proof.
  assert (well_formed (V153.WORD_SHORTCUTS abv)
          /\ spaceless (V153.WORD_SHORTCUTS abv)) as [(Nk & Nv & W) S].
  { unfold V153.WORD_SHORTCUTS, V153.load_shortcuts.
    destruct abv as [lines|].
    - destruct (load_loop_spec lines 1 [] [] well_formed_nil)
        as (d & new & E & Wd & _).
      rewrite E. cbn [fst]. split; [exact Wd|].
      eapply load_loop_spaceless; [|exact E]. intros w [[]|[]].
    - cbn. split; [exact well_formed_nil | intros w [[]|[]]]. }
  split; [exact Nk|]. split; [exact Nv|]. intros w Hw.
  destruct (W w Hw) as (A & L). specialize (S w Hw).
  assert (in_table w = true) as T.
  { unfold in_table. rewrite forallb_forall in *.
    intros c Hc. now apply allowed_in_table, A. }
  split; [|exact T]. split.
  - intros ->. discriminate L.
  - rewrite forallb_forall. intros c Hc.
    unfold in_table in T. rewrite forallb_forall in T.
    destruct (table_char c (T c Hc)) as (_ & _ & _ & ->).
    destruct (Ascii.eqb_spec c " "%char) as [->|]; [contradiction | reflexivity].
Qed.

(** ** The abbreviation layer on a loaded dictionary *)

Lemma py_split_word (w : str) : nonblank w -> py_split w = [w].
Proof.
  intros H. apply (split_join [w]). now constructor.
Qed.

(** Abbreviation symmetry.  For the dictionary loaded from any file and
    any of its entries [full = short]: encoding the single word [full]
    gives [short], decoding [short] gives [full] back. *)
Theorem abbreviation_symmetry (abv : option (list str)) (full short : str) :
  dict_get str_eqb (V153.WORD_SHORTCUTS abv) full = Some short ->
  apply_shortcuts_encode (V153.WORD_SHORTCUTS abv) full = short
  /\ apply_shortcuts_decode (V153.WORD_SHORTCUTS abv) short = full
  /\ apply_shortcuts_decode (V153.WORD_SHORTCUTS abv)
       (apply_shortcuts_encode (V153.WORD_SHORTCUTS abv) full) = full.
Proof.
  intros H. destruct (loaded_dictionary abv) as (Nk & Nv & W).
  pose proof (dict_get_In_str _ _ _ H) as Hin.
  assert (nonblank full) as Nf.
  { apply W. left. unfold dict_keys. apply in_map_iff.
    now exists (full, short). }
  assert (nonblank short) as Ns.
  { apply W. right. unfold dict_values. apply in_map_iff.
    now exists (full, short). }
  assert (apply_shortcuts_encode (V153.WORD_SHORTCUTS abv) full = short) as E.
  { unfold apply_shortcuts_encode. rewrite py_split_word by exact Nf.
    cbn [map py_join]. unfold get_or_self. now rewrite H. }
  assert (apply_shortcuts_decode (V153.WORD_SHORTCUTS abv) short = full) as D.
  { unfold apply_shortcuts_decode. rewrite py_split_word by exact Ns.
    cbn [map py_join]. unfold get_or_self.
    now rewrite (reverse_get _ full short Nv Hin). }
  split; [exact E|]. split; [exact D|]. now rewrite E.
Qed.

Lemma abbreviation_symmetry_witness :
  apply_shortcuts_decode (V153.WORD_SHORTCUTS ABV_DISPOSE)
    (apply_shortcuts_encode (V153.WORD_SHORTCUTS ABV_DISPOSE)
       (pystr "dispose"))
  = pystr "dispose".
Proof.
  apply (abbreviation_symmetry ABV_DISPOSE (pystr "dispose") (pystr "dpo")).
  reflexivity.
Defined.

(** ** When the encoder of [1.5/1.53.py] raises *)

Lemma not_space_not_NL (c : ascii) : isspace c = false -> c <> NL.
Proof. intros H ->. discriminate H. Qed.

Lemma encoded_word (abv : option (list str)) (w0 : str) :
  nonblank w0 ->
  nonblank (get_or_self (V153.WORD_SHORTCUTS abv) w0)
  /\ (in_table w0 = true ->
      in_table (get_or_self (V153.WORD_SHORTCUTS abv) w0) = true).
Proof.
  intros Nb. unfold get_or_self.
  destruct (dict_get str_eqb (V153.WORD_SHORTCUTS abv) w0) as [v|] eqn:E;
    [|auto].
  destruct (loaded_dictionary abv) as (_ & _ & W).
  destruct (W v) as (Nv & Tv); [|auto].
  right. apply dict_get_In_str in E. unfold dict_values.
  apply in_map_iff. now exists (w0, v).
Qed.





(** ** Round trip through the dictionary *)

Lemma map_decode_encode (abv : option (list str)) (words : list str) :
  (forall w, In w words ->
     dict_mem str_eqb (V153.WORD_SHORTCUTS abv) w = true
     \/ dict_mem str_eqb (REVERSE_SHORTCUTS (V153.WORD_SHORTCUTS abv)) w
        = false) ->
  map (get_or_self (REVERSE_SHORTCUTS (V153.WORD_SHORTCUTS abv)))
    (map (get_or_self (V153.WORD_SHORTCUTS abv)) words)
  = words.
Proof.
  intros H. rewrite map_map. rewrite <- (map_id words) at 2.
  apply map_ext_in. intros w Hw.
  destruct (loaded_dictionary abv) as (_ & Nv & _).
  unfold get_or_self at 2.
  destruct (dict_get str_eqb (V153.WORD_SHORTCUTS abv) w) as [v|] eqn:E.
  - apply dict_get_In_str in E. unfold get_or_self.
    now rewrite (reverse_get _ w v Nv E).
  - destruct (H w Hw) as [K|R].
    + unfold dict_mem in K. rewrite E in K. discriminate K.
    + unfold get_or_self, dict_mem in *.
      now destruct (dict_get str_eqb
                      (REVERSE_SHORTCUTS (V153.WORD_SHORTCUTS abv)) w).
Qed.

(** Round trip of [1.5/1.53.py] through the abbreviation layer.  Let [s]
    be a string over the symbol table, made of words joined by single
    spaces, each of which is a full word of the loaded dictionary or is
    not one of its shortcuts.  If the message put on the wire, [s] with
    the full words replaced, does not hold the stop word, and
    decompress-or-fallback gives back the packed bytes, then the decoder
    prints [s]. *)
Theorem round_trip_with_dictionary abv zc zd (uc cmp ch s : str) :
  in_table s = true ->
  py_join (pystr " ") (py_split s) = s ->
  (forall w, In w (py_split s) ->
     dict_mem str_eqb (V153.WORD_SHORTCUTS abv) w = true
     \/ dict_mem str_eqb (REVERSE_SHORTCUTS (V153.WORD_SHORTCUTS abv)) w
        = false) ->
  contains STOP_WORD (apply_shortcuts_encode (V153.WORD_SHORTCUTS abv) s)
  = false ->
  (forall raw,
     V153.build_encoded_bytes
       (apply_shortcuts_encode (V153.WORD_SHORTCUTS abv) s) = Ok raw ->
     V153.try_decompress zd (V153.handle_compression zc raw uc cmp ch) = raw) ->
  exists raw data,
    V153.build_encoded_bytes
      (apply_shortcuts_encode (V153.WORD_SHORTCUTS abv) s) = Ok raw
    /\ V153.encode_to_file_from_text abv zc (Text s) uc cmp ch
       = Ok (Some data)
    /\ V153.decode_from_file abv zd (Some data)
       = [NL :: pystr "Decoded message:"; s].
Proof.
  intros T J W N Z.
  set (wire := apply_shortcuts_encode (V153.WORD_SHORTCUTS abv) s) in *.
  assert (Forall nonblank (map (get_or_self (V153.WORD_SHORTCUTS abv))
                             (py_split s))) as Nb.
  { apply Forall_forall. intros w Hw. apply in_map_iff in Hw.
    destruct Hw as (w0 & <- & Hw0).
    destruct (py_split_spec _ _ Hw0) as (Nb0 & _).
    now apply encoded_word. }
  assert (in_table wire = true) as Tw.
  { unfold in_table. rewrite forallb_forall. intros c Hc.
    unfold wire, apply_shortcuts_encode in Hc. apply In_py_join in Hc.
    destruct Hc as [[<-|[]]|(w & Hw & Hc)]; [reflexivity|].
    apply in_map_iff in Hw. destruct Hw as (w0 & <- & Hw0).
    destruct (py_split_spec _ _ Hw0) as (Nb0 & Sub).
    destruct (encoded_word abv w0 Nb0) as (_ & Tw0).
    assert (in_table w0 = true) as T0.
    { unfold in_table in *. rewrite forallb_forall in *.
      intros x Hx. apply T. now apply Sub. }
    specialize (Tw0 T0). unfold in_table in Tw0.
    rewrite forallb_forall in Tw0. now apply Tw0. }
  destruct (build_encoded_bytes_spec wire Tw) as (raw & B & _).
  pose proof (scan_message wire raw B N) as Sc.
  specialize (Z raw B).
  exists raw, (V153.handle_compression zc raw uc cmp ch).
  split; [exact B|]. split.
  - unfold V153.encode_to_file_from_text.
    rewrite read_text_file_table by exact T. cbn [bind].
    rewrite rstrip_newlines_table by exact T.
    fold wire. rewrite validate_message_table, B by exact Tw. reflexivity.
  - unfold V153.decode_from_file. rewrite Z, Sc.
    unfold apply_shortcuts_decode, wire, apply_shortcuts_encode.
    rewrite split_join by exact Nb.
    rewrite map_decode_encode by exact W. now rewrite J.
Qed.

Lemma round_trip_with_dictionary_witness :
  exists raw data,
    V153.build_encoded_bytes (pystr "please dpo now") = Ok raw
    /\ V153.encode_to_file_from_text ABV_DISPOSE Zlib.compress_stored
         (Text (pystr "please dispose now")) (pystr "n") [] []
       = Ok (Some data)
    /\ V153.decode_from_file ABV_DISPOSE Zlib.decompress (Some data)
       = [NL :: pystr "Decoded message:"; pystr "please dispose now"].
Proof.
  apply (round_trip_with_dictionary ABV_DISPOSE Zlib.compress_stored
           Zlib.decompress (pystr "n") [] [] (pystr "please dispose now")).
  - reflexivity.
  - reflexivity.
  - intros w [<-|[<-|[<-|[]]]]; vm_compute; auto.
  - reflexivity.
  - intros raw B. vm_compute in B. injection B as <-. reflexivity.
Defined.

(** ** The compression prompt *)

(** [handle_compression] of [1.5/1.53.py] writes the packed bytes or
    their compressed form and nothing else.  It writes the packed bytes
    when compression is not asked for; and when the user asks to compare
    and does not confirm, what is written is never longer than the packed
    bytes. *)
Theorem handle_compression_choice (zc : bytes -> bytes) (byte_data : bytes)
    (uc cmp ch : str) :
  (V153.handle_compression zc byte_data uc cmp ch = byte_data
   \/ V153.handle_compression zc byte_data uc cmp ch = zc byte_data)
  /\ (uc <> pystr "y" ->
      V153.handle_compression zc byte_data uc cmp ch = byte_data)
  /\ (cmp = pystr "y" -> ch <> pystr "y" ->
      len (V153.handle_compression zc byte_data uc cmp ch) <= len byte_data).
Proof.
  unfold V153.handle_compression.
  destruct (str_eqb uc (pystr "y")) eqn:U; cbn [negb].
  - destruct (str_eqb cmp (pystr "y")) eqn:C; cbn [andb].
    + destruct (Nat.ltb_spec (len byte_data) (len (zc byte_data))) as [L|L].
      * destruct (str_eqb ch (pystr "y")) eqn:H.
        -- apply str_eqb_eq in H, U. split; [now right|].
           split; [congruence | intros _ N; contradiction].
        -- apply str_eqb_eq in U. split; [now left|].
           split; [congruence | intros _ _; lia].
      * apply str_eqb_eq in U. split; [now right|].
        split; [congruence | intros _ _; exact L].
    + apply str_eqb_eq in U. apply str_eqb_neq in C.
      split; [now right|]. split; [congruence | intros E; contradiction].
  - split; [now left|]. split; [reflexivity | intros _ _; lia].
Qed.

Lemma handle_compression_choice_witness :
  len (V153.handle_compression Zlib.compress_stored [xa0; x65; x2c]
         (pystr "y") (pystr "y") (pystr "n")) <= 3.
Proof.
  apply (handle_compression_choice Zlib.compress_stored [xa0; x65; x2c]
           (pystr "y") (pystr "y") (pystr "n")).
  - reflexivity.
  - discriminate.
Defined.

(** ** Output file names *)

Lemma filename_char_no_dot (name : str) :
  forallb filename_char name = true -> contains_char "."%char name = false.
Proof.
  intros H. unfold contains_char.
  destruct (existsb (fun x => Ascii.eqb x "."%char) name) eqn:E;
    [|reflexivity].
  apply existsb_exists in E. destruct E as (x & Hin & Hx).
  apply Ascii.eqb_eq in Hx. subst x.
  rewrite forallb_forall in H. specialize (H _ Hin). discriminate H.
Qed.

(** [validate_output_filename] returns [True] exactly for the non-empty
    names made of letters a-z and A-Z, digits, "_" and "-"; it prints
    nothing when it accepts and exactly one line when it refuses. *)
Theorem validate_output_filename_accepts (name : str) :
  (fst (validate_output_filename name) = true
   <-> name <> [] /\ forallb filename_char name = true)
  /\ (fst (validate_output_filename name) = true ->
      snd (validate_output_filename name) = [])
  /\ (fst (validate_output_filename name) = false ->
      exists line, snd (validate_output_filename name) = [line]).
Proof.
  destruct name as [|c name].
  - cbn. split; [|split]; [| discriminate | eauto].
    split; [discriminate | now intros [H _]].
  - unfold validate_output_filename, fullmatch_filename.
    destruct (forallb filename_char (c :: name)) eqn:F.
    + rewrite (filename_char_no_dot _ F). cbn [negb fst snd].
      split; [|split]; [| reflexivity | discriminate].
      split; [intros _; split; [discriminate | reflexivity] | reflexivity].
    + destruct (contains_char "."%char (c :: name)); cbn [negb fst snd];
        (split; [|split]; [| discriminate | eauto]);
        (split; [discriminate | intros [_ H]; discriminate H]).
Qed.

Lemma validate_output_filename_accepts_witness :
  snd (validate_output_filename (pystr "my-file_01")) = [].
Proof.
  apply (validate_output_filename_accepts (pystr "my-file_01")).
  reflexivity.
Defined.

(** ** The validator of [V1.2.py] *)

Lemma upper_not_in_table (c : ascii) :
  isupper c = true -> dict_mem Ascii.eqb BAUDOT_TABLE c = false.
Proof.
  intros U. destruct (dict_mem Ascii.eqb BAUDOT_TABLE c) eqn:D;
    [|reflexivity].
  destruct (table_char c D) as (_ & U' & _). congruence.
Qed.

Lemma v12_validate_loop_In (message : str) (index : nat)
    (errors : list V12.error_record) (r : V12.error_record) :
  In r (V12.validate_loop message index errors)
  <-> In r errors
      \/ exists i ch,
           nth_error message i = Some ch
           /\ dict_mem Ascii.eqb BAUDOT_TABLE ch = false
           /\ r = (index + i, ch,
                   if isalpha ch && isupper ch then UPPERCASE_NOT_ALLOWED
                   else INVALID_CHARACTER).
Proof.
  revert index errors. induction message as [|x rest IH]; intros index errors.
  - cbn [V12.validate_loop]. split; [auto|].
    intros [H|(i & ch & H & _)]; [exact H|]. destruct i; discriminate H.
  - cbn [V12.validate_loop]. rewrite IH. split.
    + intros [H|(i & ch & H & D & ->)].
      * destruct (isalpha x && isupper x) eqn:A.
        -- apply in_app_or in H. destruct H as [H|[<-|[]]]; [now left|].
           right. exists 0, x. rewrite A, Nat.add_0_r.
           apply andb_prop in A. destruct A as [_ U].
           split; [reflexivity|]. split; [now apply upper_not_in_table|].
           reflexivity.
        -- destruct (dict_mem Ascii.eqb BAUDOT_TABLE x) eqn:D;
             cbn [negb] in H; [now left|].
           apply in_app_or in H. destruct H as [H|[<-|[]]]; [now left|].
           right. exists 0, x. rewrite A, Nat.add_0_r. auto.
      * right. exists (S i), ch.
        replace (index + S i) with (index + 1 + i) by lia. auto.
    + intros [H|(i & ch & H & D & ->)].
      * left. destruct (isalpha x && isupper x);
          [|destruct (negb (dict_mem Ascii.eqb BAUDOT_TABLE x))];
          try (apply in_or_app; left); exact H.
      * destruct i as [|i].
        -- injection H as <-. left. rewrite Nat.add_0_r.
           destruct (isalpha x && isupper x).
           ++ apply in_or_app. right. now left.
           ++ rewrite D. cbn [negb]. apply in_or_app. right. now left.
        -- right. exists i, ch.
           replace (index + S i) with (index + 1 + i) by lia. auto.
Qed.

Lemma v12_validate_message_In (message : str) (r : V12.error_record) :
  In r (V12.validate_message message)
  <-> exists i ch,
        nth_error message i = Some ch
        /\ dict_mem Ascii.eqb BAUDOT_TABLE ch = false
        /\ r = (i, ch,
                if isalpha ch && isupper ch then UPPERCASE_NOT_ALLOWED
                else INVALID_CHARACTER).
Proof.
  unfold V12.validate_message. rewrite v12_validate_loop_In.
  cbn [Nat.add]. split; [intros [[]|H]; exact H | intros H; now right].
Qed.

Lemma v12_validate_message_nil (message : str) :
  V12.validate_message message = [] <-> in_table message = true.
Proof.
  split.
  - intros E. unfold in_table. rewrite forallb_forall. intros ch Hin.
    destruct (dict_mem Ascii.eqb BAUDOT_TABLE ch) eqn:D; [reflexivity|].
    exfalso. apply In_nth_error in Hin. destruct Hin as (i & Hi).
    assert (In (i, ch, if isalpha ch && isupper ch
                       then UPPERCASE_NOT_ALLOWED else INVALID_CHARACTER)
              (V12.validate_message message)) as H
      by (apply v12_validate_message_In; eauto).
    rewrite E in H. exact H.
  - intros T.
    pose proof (v12_validate_message_In message) as R.
    destruct (V12.validate_message message) as [|r l];
      [reflexivity|]. exfalso.
    destruct (proj1 (R r) (or_introl eq_refl)) as (i & ch & Hi & D & _).
    apply nth_error_In in Hi. unfold in_table in T.
    rewrite forallb_forall in T. specialize (T ch Hi). congruence.
Qed.

(** [validate_message] of [V1.2.py] reports exactly the characters that
    are outside the symbol table, each at its 0-based index, as uppercase
    when it is an uppercase letter and as invalid otherwise; so it returns
    the empty list exactly for the strings over the symbol table, and a
    newline is reported like any other character. *)
Theorem v12_validate_message_records (message : str) :
  (forall r,
     In r (V12.validate_message message)
     <-> exists i ch,
           nth_error message i = Some ch
           /\ dict_mem Ascii.eqb BAUDOT_TABLE ch = false
           /\ r = (i, ch,
                   if isalpha ch && isupper ch then UPPERCASE_NOT_ALLOWED
                   else INVALID_CHARACTER))
  /\ (V12.validate_message message = [] <-> in_table message = true).
Proof.
  split.
  - intros r. apply v12_validate_message_In.
  - apply v12_validate_message_nil.
Qed.

(** ** The text file readers *)

Lemma printable_spec (c : ascii) :
  (127 <? nat_of_ascii c) || is_category_C c = negb (printable c).
Proof.
  destruct c as [[] [] [] [] [] [] [] []]; reflexivity.
Qed.

Lemma unicode_loop_nil (text : str) (line column : nat)
    (errors : list (nat * nat * ascii)) :
  V153.unicode_loop text line column errors = []
  <-> errors = []
      /\ forall ch, In ch text -> ch = NL \/ printable ch = true.
Proof.
  revert line column errors.
  induction text as [|x rest IH]; intros line column errors.
  - cbn. split; [intros ->; split; [reflexivity | intros ch []] | tauto].
  - cbn [V153.unicode_loop].
    destruct (Ascii.eqb_spec x NL) as [->|N].
    + rewrite IH. split; intros [E H]; (split; [exact E|]).
      * intros ch [<-|Hc]; [now left | now apply H].
      * intros ch Hc. apply H. now right.
    + rewrite printable_spec. rewrite IH.
      destruct (printable x) eqn:P; cbn [negb].
      * split; intros [E H]; (split; [exact E|]).
        -- intros ch [<-|Hc]; [now right | now apply H].
        -- intros ch Hc. apply H. now right.
      * split.
        -- intros [E _]. destruct errors; discriminate E.
        -- intros [_ H]. destruct (H x (or_introl eq_refl)) as [E|E];
             [contradiction | congruence].
Qed.

(** [read_text_file] of [1.5/1.53.py] returns the text as it is when
    every character is a newline or a printable ASCII character (code
    point 32 to 126), and [None] for every other text and for a missing
    file; on a file that is not valid UTF-8 it raises. *)
Theorem read_text_file_accepts (text : str) :
  ((forall ch, In ch text -> ch = NL \/ printable ch = true) ->
   V153.read_text_file (Text text) = Ok (Some text))
  /\ ((exists ch, In ch text /\ ch <> NL /\ printable ch = false) ->
      V153.read_text_file (Text text) = Ok None)
  /\ V153.read_text_file Missing = Ok None
  /\ V153.read_text_file Undecodable = Raise UnicodeDecodeError.
Proof.
  unfold V153.read_text_file. split; [|split; [|split; reflexivity]].
  - intros H.
    assert (V153.unicode_loop text 1 1 [] = []) as E
      by (apply unicode_loop_nil; auto).
    now rewrite E.
  - intros (ch & Hin & N & P).
    destruct (V153.unicode_loop text 1 1 []) eqn:E; [|reflexivity].
    apply unicode_loop_nil in E. destruct E as [_ H].
    destruct (H ch Hin) as [->|P']; [contradiction | congruence].
Qed.

Lemma read_text_file_accepts_witness :
  V153.read_text_file (Text (pystr "Hello, World" ++ [NL]))
  = Ok (Some (pystr "Hello, World" ++ [NL]))
  /\ V153.read_text_file (Text (pystr "caf" ++ [ascii_of_nat 233]))
     = Ok None.
Proof.
  split.
  - apply (proj1 (read_text_file_accepts (pystr "Hello, World" ++ [NL]))).
    intros ch Hin.
    repeat (destruct Hin as [<-|Hin]; [auto|]). destruct Hin.
  - apply (proj1 (proj2 (read_text_file_accepts
                           (pystr "caf" ++ [ascii_of_nat 233])))).
    exists (ascii_of_nat 233). repeat split.
    + do 3 right. now left.
    + discriminate.
Defined.

Lemma classify_none (c : ascii) :
  V154.classify c = None <-> dict_mem Ascii.eqb BAUDOT_TABLE c = true.
Proof.
  unfold V154.classify. split.
  - destruct (127 <? nat_of_ascii c); [discriminate|].
    destruct (is_category_C c); [discriminate|].
    destruct (isupper c); [discriminate|].
    now destruct (dict_mem Ascii.eqb BAUDOT_TABLE c).
  - intros D. destruct (table_char c D) as (_ & U & P & _).
    apply orb_false_elim in P. destruct P as [-> ->]. now rewrite U, D.
Qed.

Lemma column_loop_nil (chars : str) (line_number column : nat)
    (printed : list (nat * nat * ascii * V154.issue)) :
  V154.column_loop chars line_number column printed = []
  <-> printed = [] /\ in_table chars = true.
Proof.
  revert column printed. induction chars as [|x rest IH];
    intros column printed.
  - cbn. tauto.
  - cbn [V154.column_loop]. rewrite IH. unfold in_table. cbn [forallb].
    destruct (V154.classify x) as [i|] eqn:C.
    + assert (dict_mem Ascii.eqb BAUDOT_TABLE x = false) as D.
      { destruct (dict_mem Ascii.eqb BAUDOT_TABLE x) eqn:D; [|reflexivity].
        apply classify_none in D. congruence. }
      rewrite D. cbn [andb]. split.
      * intros [E _]. destruct printed; discriminate E.
      * intros [_ E]. discriminate E.
    + apply classify_none in C. rewrite C. cbn [andb]. tauto.
Qed.

Lemma line_loop_nil (lines : list str) (line_number : nat)
    (printed : list (nat * nat * ascii * V154.issue)) :
  V154.line_loop lines line_number printed = []
  <-> printed = []
      /\ forall line, In line lines -> in_table (rstrip_newlines line) = true.
Proof.
  revert line_number printed. induction lines as [|l rest IH];
    intros line_number printed.
  - cbn. split; [intros ->; split; [reflexivity | intros line []] | tauto].
  - cbn [V154.line_loop]. rewrite IH, column_loop_nil. split.
    + intros [[E T] H]. split; [exact E|].
      intros line [<-|Hl]; [exact T | now apply H].
    + intros [E H]. split; [split; [exact E | apply H; now left]|].
      intros line Hl. apply H. now right.
Qed.

Lemma In_rstrip_by (p : ascii -> bool) (c : ascii) (s : str) :
  In c s -> In c (rstrip_by p s) \/ p c = true.
Proof.
  unfold rstrip_by. intros H. apply in_rev in H.
  assert (forall l, In c l -> In c (dropwhile p l) \/ p c = true) as G.
  { induction l as [|y l IH]; intros Hl; [contradiction|].
    cbn [dropwhile]. destruct (p y) eqn:E; [|now left].
    destruct Hl as [->|Hl]; [now right | now apply IH]. }
  destruct (G _ H) as [Hd|Hp]; [|now right].
  left. now apply in_rev in Hd.
Qed.

Lemma In_rstrip_sub (p : ascii -> bool) (c : ascii) (s : str) :
  In c (rstrip_by p s) -> In c s.
Proof.
  unfold rstrip_by. intros H. apply in_rev in H. apply in_rev.
  induction (rev s) as [|y l IH]; [contradiction|].
  cbn [dropwhile] in H. destruct (p y); [right; now apply IH | exact H].
Qed.

(** [read_text_file_with_diagnostics] of [1.5/1.54.py] returns a text
    exactly when every line, its trailing newlines apart, is over the
    symbol table; the text is then all lines joined, trailing newlines
    removed.  The newlines between lines stay in it: the text of a file of
    several lines makes [build_encoded_bytes] raise [KeyError], and the
    text of a one-line file is encoded. *)
Theorem read_text_file_with_diagnostics_accepts (lines : list str) :
  (V154.read_text_file_with_diagnostics (Some lines)
   = Some (rstrip_newlines (List.concat lines))
   <-> forall line, In line lines ->
                    in_table (rstrip_newlines line) = true)
  /\ (forall message,
        V154.read_text_file_with_diagnostics (Some lines) = Some message ->
        (forall ch, In ch message ->
                    ch = NL \/ dict_mem Ascii.eqb BAUDOT_TABLE ch = true)
        /\ (In NL message ->
            V153.build_encoded_bytes message = Raise KeyError)
        /\ (~ In NL message ->
            exists raw, V153.build_encoded_bytes message = Ok raw)).
Proof.
  unfold V154.read_text_file_with_diagnostics. split.
  - split.
    + intros H. destruct (V154.line_loop lines 1 []) eqn:E;
        [|discriminate H]. now apply line_loop_nil in E.
    + intros H.
      assert (V154.line_loop lines 1 [] = []) as E
        by (apply line_loop_nil; auto).
      now rewrite E.
  - intros message H.
    destruct (V154.line_loop lines 1 []) eqn:E; [|discriminate H].
    injection H as <-. apply line_loop_nil in E. destruct E as [_ T].
    assert (forall ch, In ch (rstrip_newlines (List.concat lines)) ->
                       ch = NL \/ dict_mem Ascii.eqb BAUDOT_TABLE ch = true)
      as Chars.
    { intros ch Hc. apply In_rstrip_sub in Hc. apply in_concat in Hc.
      destruct Hc as (line & Hl & Hc).
      destruct (In_rstrip_by (Ascii.eqb NL) ch line Hc) as [Hr|Hn].
      - right. specialize (T line Hl). unfold in_table in T.
        rewrite forallb_forall in T. now apply T.
      - left. apply Ascii.eqb_eq in Hn. now subst. }
    split; [exact Chars|]. split.
    + intros Hn. unfold V153.build_encoded_bytes.
      rewrite append_codes_raise; [reflexivity|].
      destruct (in_table (rstrip_newlines (List.concat lines))) eqn:Q;
        [|reflexivity].
      unfold in_table in Q. rewrite forallb_forall in Q.
      specialize (Q NL Hn). discriminate Q.
    + intros Hn.
      assert (in_table (rstrip_newlines (List.concat lines)) = true) as Q.
      { unfold in_table. rewrite forallb_forall. intros ch Hc.
        destruct (Chars ch Hc) as [->|D]; [contradiction | exact D]. }
      destruct (build_encoded_bytes_spec _ Q) as (raw & B & _). eauto.
Qed.

Lemma read_text_file_with_diagnostics_accepts_witness :
  V154.read_text_file_with_diagnostics
    (Some [pystr "two" ++ [NL]; pystr "lines" ++ [NL]])
  = Some (pystr "two" ++ [NL] ++ pystr "lines")
  /\ V153.build_encoded_bytes (pystr "two" ++ [NL] ++ pystr "lines")
     = Raise KeyError.
Proof.
  destruct (read_text_file_with_diagnostics_accepts
              [pystr "two" ++ [NL]; pystr "lines" ++ [NL]]) as (H1 & H2).
  assert (V154.read_text_file_with_diagnostics
            (Some [pystr "two" ++ [NL]; pystr "lines" ++ [NL]])
          = Some (pystr "two" ++ [NL] ++ pystr "lines")) as E.
  { apply H1. intros line [<-|[<-|[]]]; reflexivity. }
  split; [exact E|].
  destruct (H2 _ E) as (_ & R & _). apply R.
  do 3 right. now left.
Defined.

(** ** The encoder and decoder of [V1.2.py] *)

Lemma v12_reenter_loop_first (message : str) (inputs : list str) :
  in_table message = true -> V12.reenter_loop message inputs = Some message.
Proof.
  intros T. apply v12_validate_message_nil in T.
  destruct inputs; cbn [V12.reenter_loop]; now rewrite T.
Qed.

Lemma v12_reenter_loop_next (message entered : str) (inputs : list str) :
  in_table message = false ->
  V12.reenter_loop message (entered :: inputs)
  = V12.reenter_loop (apply_shortcuts_encode V12.WORD_SHORTCUTS entered)
      inputs.
Proof.
  intros T. cbn [V12.reenter_loop].
  destruct (V12.validate_message message) eqn:E; [|reflexivity].
  apply v12_validate_message_nil in E. congruence.
Qed.

Lemma v12_reenter_loop_spec (inputs : list str) (message : str) :
  match V12.reenter_loop message inputs with
  | None =>
      forall m, In m (message
                      :: map (apply_shortcuts_encode V12.WORD_SHORTCUTS)
                           inputs) ->
                in_table m = false
  | Some sent =>
      in_table sent = true
      /\ exists k,
           nth_error (message
                      :: map (apply_shortcuts_encode V12.WORD_SHORTCUTS)
                           inputs) k = Some sent
           /\ forall j m, j < k ->
                nth_error (message
                           :: map (apply_shortcuts_encode V12.WORD_SHORTCUTS)
                                inputs) j = Some m ->
                in_table m = false
  end.
Proof.
  revert message. induction inputs as [|entered inputs IH]; intros message.
  - destruct (in_table message) eqn:T.
    + rewrite v12_reenter_loop_first by exact T. split; [exact T|].
      exists 0. split; [reflexivity | intros j m Hj; lia].
    + cbn [V12.reenter_loop].
      destruct (V12.validate_message message) eqn:E.
      * apply v12_validate_message_nil in E. congruence.
      * intros m [<-|[]]. exact T.
  - destruct (in_table message) eqn:T.
    + rewrite v12_reenter_loop_first by exact T. split; [exact T|].
      exists 0. split; [reflexivity | intros j m Hj; lia].
    + rewrite v12_reenter_loop_next by exact T.
      specialize (IH (apply_shortcuts_encode V12.WORD_SHORTCUTS entered)).
      cbn [map].
      destruct (V12.reenter_loop
                  (apply_shortcuts_encode V12.WORD_SHORTCUTS entered) inputs)
        as [sent|].
      * destruct IH as (Ts & k & Hk & Hlt). split; [exact Ts|].
        exists (S k). split; [exact Hk|].
        intros [|j] m Hj Hm.
        -- injection Hm as <-. exact T.
        -- apply (Hlt j m); [lia | exact Hm].
      * intros m [<-|Hm]; [exact T | now apply IH].
Qed.

(** [encode_to_file] of [V1.2.py] never fails on a table lookup.  It
    writes the packed bytes of the first text, among the one given and
    those typed at the prompt, whose abbreviated form is over the symbol
    table; when there is none, it is still asking when the input ends. *)
Theorem v12_encode_to_file_outcome (message : str) (inputs : list str) :
  (V12.encode_to_file message inputs = None
   <-> forall m, In m (message :: inputs) ->
         in_table (apply_shortcuts_encode V12.WORD_SHORTCUTS m) = false)
  /\ (forall r, V12.encode_to_file message inputs = Some r ->
      exists k m raw,
        nth_error (message :: inputs) k = Some m
        /\ (forall j m', j < k ->
              nth_error (message :: inputs) j = Some m' ->
              in_table (apply_shortcuts_encode V12.WORD_SHORTCUTS m')
              = false)
        /\ in_table (apply_shortcuts_encode V12.WORD_SHORTCUTS m) = true
        /\ r = Ok raw
        /\ Main.encode_to_file (apply_shortcuts_encode V12.WORD_SHORTCUTS m)
           = Ok raw).
Proof.
  unfold V12.encode_to_file.
  pose proof (v12_reenter_loop_spec inputs
                (apply_shortcuts_encode V12.WORD_SHORTCUTS message)) as S0.
  change (apply_shortcuts_encode V12.WORD_SHORTCUTS message
          :: map (apply_shortcuts_encode V12.WORD_SHORTCUTS) inputs)
    with (map (apply_shortcuts_encode V12.WORD_SHORTCUTS) (message :: inputs))
    in S0.
  destruct (V12.reenter_loop
              (apply_shortcuts_encode V12.WORD_SHORTCUTS message) inputs)
    as [sent|].
  - destruct S0 as (Ts & k & Hk & Hlt).
    rewrite nth_error_map in Hk.
    destruct (nth_error (message :: inputs) k) as [m|] eqn:Hm;
      [|discriminate Hk].
    injection Hk as <-.
    split.
    + split; [discriminate|]. intros H. apply nth_error_In in Hm.
      specialize (H m Hm). congruence.
    + intros r [= <-].
      destruct (build_encoded_bytes_spec _ Ts) as (raw & B & M & _).
      exists k, m, raw. split; [exact Hm|]. split.
      * intros j m' Hj Hm'. apply (Hlt j); [exact Hj|].
        rewrite nth_error_map, Hm'. reflexivity.
      * split; [exact Ts|]. split; [exact B | exact M].
  - split; [|discriminate]. split; [|reflexivity].
    intros _ m Hm. apply S0. now apply in_map.
Qed.

Lemma v12_encode_to_file_outcome_witness :
  exists k m raw,
    nth_error [pystr "Hello"; pystr "hello"] k = Some m
    /\ (forall j m', j < k ->
          nth_error [pystr "Hello"; pystr "hello"] j = Some m' ->
          in_table (apply_shortcuts_encode V12.WORD_SHORTCUTS m') = false)
    /\ in_table (apply_shortcuts_encode V12.WORD_SHORTCUTS m) = true
    /\ Ok [xa0; x65; x2c; x16; x18; xb0] = Ok raw
    /\ Main.encode_to_file (apply_shortcuts_encode V12.WORD_SHORTCUTS m)
       = Ok raw.
Proof.
  apply (proj2 (v12_encode_to_file_outcome (pystr "Hello") [pystr "hello"])).
  reflexivity.
Defined.

Lemma v12_decode_encode_word (w : str) :
  get_or_self (REVERSE_SHORTCUTS V12.WORD_SHORTCUTS)
    (get_or_self V12.WORD_SHORTCUTS w)
  = dpo_expanded w.
Proof.
  unfold dpo_expanded, get_or_self, REVERSE_SHORTCUTS, V12.WORD_SHORTCUTS.
  cbn [dict_get].
  destruct (str_eqb (pystr "dispose") w) eqn:E.
  - apply str_eqb_eq in E. subst w. reflexivity.
  - change (dict_invert str_eqb [(pystr "dispose", pystr "dpo")])
      with [(pystr "dpo", pystr "dispose")].
    cbn [dict_get].
    destruct (str_eqb (pystr "dpo") w) eqn:F.
    + apply str_eqb_eq in F. subst w. reflexivity.
    + destruct (str_eqb w (pystr "dpo")) eqn:G; [|reflexivity].
      apply str_eqb_eq in G. subst w. discriminate F.
Qed.

Lemma v12_encoded_word (w : str) :
  nonblank w -> nonblank (get_or_self V12.WORD_SHORTCUTS w).
Proof.
  intros Nb. unfold get_or_self, V12.WORD_SHORTCUTS. cbn [dict_get].
  destruct (str_eqb (pystr "dispose") w); [|exact Nb].
  split; [discriminate | reflexivity].
Qed.

(** Round trip of [V1.2.py].  When the abbreviated form of the text typed
    is over the symbol table and does not hold the stop word, the text is
    encoded at once, and the decoder prints the words of the text joined
    by single spaces, with every word "dpo" turned into "dispose". *)
Theorem v12_round_trip (s : str) (inputs : list str) :
  in_table (apply_shortcuts_encode V12.WORD_SHORTCUTS s) = true ->
  contains STOP_WORD (apply_shortcuts_encode V12.WORD_SHORTCUTS s) = false ->
  exists raw,
    V12.encode_to_file s inputs = Some (Ok raw)
    /\ V12.decode_from_file (Some raw)
       = [NL :: pystr "Decoded message:";
          py_join (pystr " ") (map dpo_expanded (py_split s))].
Proof.
  intros T N.
  destruct (build_encoded_bytes_spec _ T) as (raw & B & _).
  exists raw. split.
  - unfold V12.encode_to_file. rewrite v12_reenter_loop_first by exact T.
    unfold V153.build_encoded_bytes in B. now rewrite B.
  - unfold V12.decode_from_file. rewrite (scan_message _ raw B N).
    unfold apply_shortcuts_decode, apply_shortcuts_encode.
    rewrite split_join.
    + rewrite map_map.
      now rewrite (map_ext _ _ v12_decode_encode_word).
    + apply Forall_forall. intros w Hw. apply in_map_iff in Hw.
      destruct Hw as (w0 & <- & Hw0). apply v12_encoded_word.
      now destruct (py_split_spec _ _ Hw0).
Qed.

Lemma v12_round_trip_witness :
  exists raw,
    V12.encode_to_file (pystr "please  dpo now") [] = Some (Ok raw)
    /\ V12.decode_from_file (Some raw)
       = [NL :: pystr "Decoded message:"; pystr "please dispose now"].
Proof.
  apply (v12_round_trip (pystr "please  dpo now") []); reflexivity.
Defined.

(** ** The encoder and decoder of [1.5/1.54.py] *)

Lemma packed_nonempty (message : str) (raw : bytes) :
  V153.build_encoded_bytes message = Ok raw -> 3 <= len raw.
Proof.
  intros B. rewrite (packed_length _ _ B).
  assert (5 * (len message + 4) + 7 = (5 * len message + 3) + 3 * 8) as ->
    by lia.
  rewrite Nat.div_add by discriminate. lia.
Qed.

(** [handle_compression] of [1.5/1.54.py] divides by the size of the
    packed bytes when compression is asked for, and so raises
    [ZeroDivisionError] exactly on empty data; the bytes that
    [build_encoded_bytes] returns are never empty (the stop word alone
    takes three bytes), and what is written is then the packed bytes or
    their compressed form. *)
Theorem v154_handle_compression_outcome (zc : bytes -> bytes)
    (byte_data : bytes) (uc cmp : str) :
  (V154.handle_compression zc byte_data uc cmp = V154.ZeroDivisionError
   <-> uc = pystr "y" /\ byte_data = [])
  /\ (forall message,
        V153.build_encoded_bytes message = Ok byte_data ->
        3 <= len byte_data
        /\ exists data,
             V154.handle_compression zc byte_data uc cmp = V154.Written data
             /\ (data = byte_data \/ data = zc byte_data)).
Proof.
  unfold V154.handle_compression. split.
  - destruct (str_eqb uc (pystr "y")) eqn:U; cbn [negb].
    + apply str_eqb_eq in U.
      destruct byte_data as [|b rest]; cbn [len length Nat.eqb].
      * split; auto.
      * split; [discriminate | intros [_ H]; discriminate H].
    + apply str_eqb_neq in U.
      split; [discriminate | intros [H _]; contradiction].
  - intros message B. pose proof (packed_nonempty _ _ B) as L.
    split; [exact L|].
    destruct (negb (str_eqb uc (pystr "y"))); [eauto|].
    destruct (Nat.eqb_spec (len byte_data) 0) as [Z|_]; [lia|].
    destruct (str_eqb cmp (pystr "y")); eauto.
Qed.

Lemma v154_handle_compression_outcome_witness :
  3 <= len [xa0; x65; x2c; x16; x18; xb0]
  /\ exists data,
       V154.handle_compression Zlib.compress_stored
         [xa0; x65; x2c; x16; x18; xb0] (pystr "y") (pystr "n")
       = V154.Written data
       /\ (data = [xa0; x65; x2c; x16; x18; xb0]
           \/ data = Zlib.compress_stored [xa0; x65; x2c; x16; x18; xb0]).
Proof.
  apply (proj2 (v154_handle_compression_outcome Zlib.compress_stored
                  [xa0; x65; x2c; x16; x18; xb0] (pystr "y") (pystr "n"))
           (pystr "hello")).
  reflexivity.
Defined.

(** Round trip of [1.5/1.54.py] from a text file.  When every line of the
    file is over the symbol table, the text read holds no newline and no
    stop word, and decompress-or-fallback gives back the packed bytes from
    what was written, the decoder prints the text of the file, its
    trailing newlines removed. *)
Theorem v154_file_round_trip zc zd (lines : list str) (uc cmp : str) :
  (forall line, In line lines -> in_table (rstrip_newlines line) = true) ->
  ~ In NL (rstrip_newlines (List.concat lines)) ->
  contains STOP_WORD (rstrip_newlines (List.concat lines)) = false ->
  (forall raw data,
     V153.build_encoded_bytes (rstrip_newlines (List.concat lines)) = Ok raw ->
     V154.handle_compression zc raw uc cmp = V154.Written data ->
     V153.try_decompress zd data = raw) ->
  exists raw data,
    V154.read_text_file_with_diagnostics (Some lines)
    = Some (rstrip_newlines (List.concat lines))
    /\ V153.build_encoded_bytes (rstrip_newlines (List.concat lines)) = Ok raw
    /\ V154.handle_compression zc raw uc cmp = V154.Written data
    /\ V154.decode_from_file zd (Some data)
       = [NL :: pystr "Decoded message:";
          rstrip_newlines (List.concat lines)].
Proof.
  intros T Nn Ns Z.
  set (message := rstrip_newlines (List.concat lines)) in *.
  assert (in_table message = true) as Tm.
  { unfold in_table. rewrite forallb_forall. intros ch Hc.
    assert (ch <> NL) as Hn by (intros ->; contradiction).
    unfold message in Hc. apply In_rstrip_sub in Hc.
    apply in_concat in Hc. destruct Hc as (line & Hl & Hc).
    destruct (In_rstrip_by (Ascii.eqb NL) ch line Hc) as [Hr|He].
    - specialize (T line Hl). unfold in_table in T.
      rewrite forallb_forall in T. now apply T.
    - apply Ascii.eqb_eq in He. congruence. }
  destruct (build_encoded_bytes_spec message Tm) as (raw & B & _).
  assert (exists data, V154.handle_compression zc raw uc cmp
                       = V154.Written data) as (data & W).
  { pose proof (packed_nonempty _ _ B) as L. unfold V154.handle_compression.
    destruct (negb (str_eqb uc (pystr "y"))); [eauto|].
    destruct (Nat.eqb_spec (len raw) 0) as [Q|_]; [lia | eauto]. }
  exists raw, data. split; [|split; [exact B|split; [exact W|]]].
  - unfold V154.read_text_file_with_diagnostics.
    assert (V154.line_loop lines 1 [] = []) as E
      by (apply line_loop_nil; auto).
    now rewrite E.
  - unfold V154.decode_from_file. rewrite (Z raw data B W).
    now rewrite (scan_message message raw B Ns).
Qed.

Lemma v154_file_round_trip_witness :
  exists raw data,
    V154.read_text_file_with_diagnostics (Some [pystr "hello" ++ [NL]])
    = Some (pystr "hello")
    /\ V153.build_encoded_bytes (pystr "hello") = Ok raw
    /\ V154.handle_compression Zlib.compress_stored raw (pystr "y")
         (pystr "y")
       = V154.Written data
    /\ V154.decode_from_file Zlib.decompress (Some data)
       = [NL :: pystr "Decoded message:"; pystr "hello"].
Proof.
  apply (v154_file_round_trip Zlib.compress_stored Zlib.decompress
           [pystr "hello" ++ [NL]] (pystr "y") (pystr "y")).
  - intros line [<-|[]]. reflexivity.
  - intros H. vm_compute in H. intuition discriminate.
  - reflexivity.
  - intros raw data B W. vm_compute in B. injection B as <-.
    vm_compute in W. injection W as <-. reflexivity.
Defined.

Lemma scan_first_occurrence_witness :
  exists rest,
    decoded_stream (bytes_to_bits [xa0; x65; x2c; x16; x18; xb0])
    = pystr "hello" ++ STOP_WORD ++ rest
    /\ ~ occurs STOP_WORD (pystr "hello" ++ pystr "sto").
Proof.
  apply (proj1 (scan_first_occurrence
                  (bytes_to_bits [xa0; x65; x2c; x16; x18; xb0])
                  (pystr "hello"))).
  reflexivity.
Defined.

Lemma validate_message_records_witness :
  In (1, 2, "B"%char, UPPERCASE_NOT_ALLOWED) (validate_message (pystr "aB")).
Proof.
  apply (proj2 (validate_message_records (pystr "aB")
                  (1, 2, "B"%char, UPPERCASE_NOT_ALLOWED))).
  exists 1, "B"%char. repeat split.
  - discriminate.
  - now left.
Defined.

Lemma validate_message_accepts_witness :
  validate_message (pystr "a" ++ [NL] ++ pystr "b") = [].
Proof.
  apply (proj2 (validate_message_accepts (pystr "a" ++ [NL] ++ pystr "b"))).
  intros ch [<-|[<-|[<-|[]]]]; auto.
Defined.

Lemma v12_validate_message_records_witness :
  in_table (pystr "a" ++ [NL] ++ pystr "b") = false
  /\ In (1, NL, INVALID_CHARACTER)
       (V12.validate_message (pystr "a" ++ [NL] ++ pystr "b")).
Proof.
  split; [reflexivity|].
  apply (proj2 (proj1 (v12_validate_message_records
                         (pystr "a" ++ [NL] ++ pystr "b"))
                  (1, NL, INVALID_CHARACTER))).
  exists 1, NL. repeat split.
Defined.

(** ** C1: round trip *)

(** C1, as the code has it.  Let [s] be a string over the symbol table.
    If the stop word does not occur in [s], [main.py] encodes [s] and
    decodes the result to [s].  [1.5/1.53.py] encodes the text [s] and
    prints [s] back when [s] is made of words joined by single spaces,
    each word of [s] is a full word of the dictionary or is not one of its
    shortcuts, the stop word does not occur in the abbreviated form of
    [s], which is what is put in the artifact, and decompress-or-fallback
    gives back the packed bytes from the stored artifact. *)
Theorem round_trip (s : str) :
  in_table s = true ->
  (contains STOP_WORD s = false ->
   exists raw,
     Main.encode_to_file s = Ok raw
     /\ Main.decode_from_file raw = [pystr "Decoded message:"; s])
  /\ (forall abv zc zd uc cmp ch,
        py_join (pystr " ") (py_split s) = s ->
        (forall w, In w (py_split s) ->
           dict_mem str_eqb (V153.WORD_SHORTCUTS abv) w = true
           \/ dict_mem str_eqb
                (REVERSE_SHORTCUTS (V153.WORD_SHORTCUTS abv)) w = false) ->
        contains STOP_WORD
          (apply_shortcuts_encode (V153.WORD_SHORTCUTS abv) s) = false ->
        (forall raw,
           V153.build_encoded_bytes
             (apply_shortcuts_encode (V153.WORD_SHORTCUTS abv) s) = Ok raw ->
           V153.try_decompress zd (V153.handle_compression zc raw uc cmp ch)
           = raw) ->
        exists data,
          V153.encode_to_file_from_text abv zc (Text s) uc cmp ch
          = Ok (Some data)
          /\ V153.decode_from_file abv zd (Some data)
             = [NL :: pystr "Decoded message:"; s]).
Proof.
  intros T. split.
  - intros N.
    destruct (build_encoded_bytes_spec s T) as (raw & B & M & _).
    exists raw. split; [exact M|].
    unfold Main.decode_from_file. now rewrite (scan_message s raw B N).
  - intros abv zc zd uc cmp ch J W N Z.
    set (wire := apply_shortcuts_encode (V153.WORD_SHORTCUTS abv) s) in *.
    assert (Forall nonblank (map (get_or_self (V153.WORD_SHORTCUTS abv))
                               (py_split s))) as Nb.
    { apply Forall_forall. intros w Hw. apply in_map_iff in Hw.
      destruct Hw as (w0 & <- & Hw0).
      destruct (py_split_spec _ _ Hw0) as (Nb0 & _).
      now apply encoded_word. }
    assert (in_table wire = true) as Tw.
    { unfold in_table. rewrite forallb_forall. intros c Hc.
      unfold wire, apply_shortcuts_encode in Hc. apply In_py_join in Hc.
      destruct Hc as [[<-|[]]|(w & Hw & Hc)]; [reflexivity|].
      apply in_map_iff in Hw. destruct Hw as (w0 & <- & Hw0).
      destruct (py_split_spec _ _ Hw0) as (Nb0 & Sub).
      destruct (encoded_word abv w0 Nb0) as (_ & Tw0).
      assert (in_table w0 = true) as T0.
      { unfold in_table in *. rewrite forallb_forall in *.
        intros x Hx. apply T. now apply Sub. }
      specialize (Tw0 T0). unfold in_table in Tw0.
      rewrite forallb_forall in Tw0. now apply Tw0. }
    destruct (build_encoded_bytes_spec wire Tw) as (raw & B & _).
    pose proof (scan_message wire raw B N) as Sc.
    specialize (Z raw B).
    exists (V153.handle_compression zc raw uc cmp ch). split.
    + unfold V153.encode_to_file_from_text.
      rewrite read_text_file_table by exact T. cbn [bind].
      rewrite rstrip_newlines_table by exact T.
      fold wire. rewrite validate_message_table, B by exact Tw.
      reflexivity.
    + unfold V153.decode_from_file. rewrite Z, Sc.
      unfold apply_shortcuts_decode, wire, apply_shortcuts_encode.
      rewrite split_join by exact Nb.
      rewrite map_decode_encode by exact W. now rewrite J.
Qed.

Lemma round_trip_witness :
  (exists raw,
     Main.encode_to_file (pystr "please dispose 2 now") = Ok raw
     /\ Main.decode_from_file raw
        = [pystr "Decoded message:"; pystr "please dispose 2 now"])
  /\ exists data,
       V153.encode_to_file_from_text ABV_DISPOSE Zlib.compress_stored
         (Text (pystr "please dispose 2 now")) (pystr "y") (pystr "n") []
       = Ok (Some data)
       /\ V153.decode_from_file ABV_DISPOSE Zlib.decompress (Some data)
          = [NL :: pystr "Decoded message:"; pystr "please dispose 2 now"].
Proof.
  destruct (round_trip (pystr "please dispose 2 now") eq_refl) as (M & H).
  split; [apply M; reflexivity|].
  apply (H ABV_DISPOSE Zlib.compress_stored Zlib.decompress
           (pystr "y") (pystr "n") []).
  - reflexivity.
  - intros w [<-|[<-|[<-|[<-|[]]]]]; vm_compute; auto.
  - reflexivity.
  - intros raw B. vm_compute in B. injection B as <-. reflexivity.
Defined.

(** The conditions on [1.5/1.53.py] are needed: with the dictionary
    [dispose=dpo], a doubled space comes back as one, and the shortcut
    typed as a word comes back as its full word; with [stop=sp] the
    stop word of the text is itself restored. *)
Lemma round_trip_fails_in_1_53 :
  (exists data,
     V153.encode_to_file_from_text ABV_DISPOSE Zlib.compress_stored
       (Text (pystr "please  dispose")) (pystr "n") [] [] = Ok (Some data)
     /\ V153.decode_from_file ABV_DISPOSE Zlib.decompress (Some data)
        = [NL :: pystr "Decoded message:"; pystr "please dispose"])
  /\ (exists data,
        V153.encode_to_file_from_text ABV_DISPOSE Zlib.compress_stored
          (Text (pystr "dpo now")) (pystr "n") [] [] = Ok (Some data)
        /\ V153.decode_from_file ABV_DISPOSE Zlib.decompress (Some data)
           = [NL :: pystr "Decoded message:"; pystr "dispose now"]).
Proof.
  split.
  - exists (match V153.build_encoded_bytes (pystr "please dpo") with
            | Ok raw => raw
            | Raise _ => []
            end).
    split; vm_compute; reflexivity.
  - exists (match V153.build_encoded_bytes (pystr "dpo now") with
            | Ok raw => raw
            | Raise _ => []
            end).
    split; vm_compute; reflexivity.
Qed.

(** ** C3: the first scenario *)

Lemma occurs_across (w a b : str) (c : ascii) :
  ~ In c w -> occurs w (a ++ c :: b) -> occurs w a \/ occurs w b.
Proof.
  intros Hc (pre & post & E). symmetry in E.
  apply app_eq_app in E. destruct E as (l & [[E1 E2]|[E1 E2]]).
  - destruct l as [|x l].
    + cbn [app] in E2. destruct w as [|y w].
      * left. exists a, []. now rewrite app_nil_r.
      * injection E2 as <- _. exfalso. apply Hc. now left.
    + injection E2 as _ E2. right. now exists l, post.
  - symmetry in E2. apply app_eq_app in E2.
    destruct E2 as (l2 & [[E3 E4]|[E3 E4]]).
    + left. exists pre, l2. now rewrite E1, E3.
    + destruct l2 as [|x l2].
      * left. exists pre, []. rewrite E1, E3. now rewrite !app_nil_r.
      * injection E4 as <- _. exfalso. apply Hc. rewrite E3.
        apply in_or_app. right. now left.
Qed.

Lemma stop_word_not_before_blank (h : str) :
  contains STOP_WORD h = false ->
  ~ occurs STOP_WORD ((h ++ pystr " ") ++ pystr "sto").
Proof.
  intros N O. apply contains_false in N.
  rewrite <- app_assoc in O.
  apply (occurs_across STOP_WORD h (pystr "sto") " "%char) in O.
  - destruct O as [O|(pre & post & E)]; [now apply N|].
    apply (f_equal (@List.length ascii)) in E.
    rewrite !length_app in E. cbn in E. lia.
  - cbn. intuition discriminate.
Qed.

Lemma py_split_trailing_blank (h : str) :
  nonblank h -> py_split (h ++ pystr " ") = [h].
Proof.
  intros [Hn Hb]. unfold py_split.
  rewrite split_words_app by exact Hb. cbn. now destruct h.
Qed.

(** C3, as the code has it.  [main.py] and [1.5/1.54.py] encode
    "hello stop" and decode the artifact to "hello " with the blank that
    stands before the stop word: the loop stops at the first match and
    the rest of the stream is not reached.  [1.5/1.53.py] prints "hello",
    the abbreviation reversal dropping the blank, when the dictionary
    leaves "stop" as it is or turns it into a word that begins with
    "stop", the abbreviated form of "hello" does not hold the stop word,
    "hello" is a full word of the dictionary or is not one of its
    shortcuts, and decompress-or-fallback gives back the packed bytes. *)
Theorem hello_stop_decodes_to_hello :
  (exists raw,
     Main.encode_to_file (pystr "hello stop") = Ok raw
     /\ scan (bytes_to_bits raw) = Some (pystr "hello ")
     /\ Main.decode_from_file raw
        = [pystr "Decoded message:"; pystr "hello "])
  /\ (forall zc zd uc cmp,
        (forall raw data,
           V153.build_encoded_bytes (pystr "hello stop") = Ok raw ->
           V154.handle_compression zc raw uc cmp = V154.Written data ->
           V153.try_decompress zd data = raw) ->
        exists raw data,
          V153.build_encoded_bytes (pystr "hello stop") = Ok raw
          /\ V154.handle_compression zc raw uc cmp = V154.Written data
          /\ V154.decode_from_file zd (Some data)
             = [NL :: pystr "Decoded message:"; pystr "hello "])
  /\ (forall abv zc zd uc cmp ch rest,
        get_or_self (V153.WORD_SHORTCUTS abv) (pystr "stop")
        = STOP_WORD ++ rest ->
        contains STOP_WORD
          (get_or_self (V153.WORD_SHORTCUTS abv) (pystr "hello")) = false ->
        dict_mem str_eqb (V153.WORD_SHORTCUTS abv) (pystr "hello") = true
        \/ dict_mem str_eqb (REVERSE_SHORTCUTS (V153.WORD_SHORTCUTS abv))
             (pystr "hello") = false ->
        (forall raw,
           V153.build_encoded_bytes
             (apply_shortcuts_encode (V153.WORD_SHORTCUTS abv)
                (pystr "hello stop")) = Ok raw ->
           V153.try_decompress zd (V153.handle_compression zc raw uc cmp ch)
           = raw) ->
        exists raw data,
          V153.build_encoded_bytes
            (apply_shortcuts_encode (V153.WORD_SHORTCUTS abv)
               (pystr "hello stop")) = Ok raw
          /\ V153.encode_to_file_from_text abv zc (Text (pystr "hello stop"))
               uc cmp ch = Ok (Some data)
          /\ scan (bytes_to_bits raw)
             = Some (get_or_self (V153.WORD_SHORTCUTS abv) (pystr "hello")
                     ++ pystr " ")
          /\ V153.decode_from_file abv zd (Some data)
             = [NL :: pystr "Decoded message:"; pystr "hello"]).
Proof.
  assert (exists raw, V153.build_encoded_bytes (pystr "hello stop") = Ok raw
                      /\ Main.encode_to_file (pystr "hello stop") = Ok raw
                      /\ scan (bytes_to_bits raw) = Some (pystr "hello "))
    as (raw0 & B0 & M0 & Sc0).
  { eexists. split; [|split]; vm_compute; reflexivity. }
  split; [|split].
  - exists raw0. split; [exact M0|]. split; [exact Sc0|].
    unfold Main.decode_from_file. now rewrite Sc0.
  - intros zc zd uc cmp Z.
    assert (exists data, V154.handle_compression zc raw0 uc cmp
                         = V154.Written data) as (data & W).
    { pose proof (packed_nonempty _ _ B0) as L.
      unfold V154.handle_compression.
      destruct (negb (str_eqb uc (pystr "y"))); [eauto|].
      destruct (Nat.eqb_spec (len raw0) 0) as [Q|_]; [lia | eauto]. }
    exists raw0, data. split; [exact B0|]. split; [exact W|].
    unfold V154.decode_from_file. now rewrite (Z raw0 data B0 W), Sc0.
  - intros abv zc zd uc cmp ch rest Et Nh Rh Z.
    set (WS := V153.WORD_SHORTCUTS abv) in *.
    set (h := get_or_self WS (pystr "hello")) in *.
    assert (nonblank (pystr "hello")) as Nb0
      by (split; [discriminate | reflexivity]).
    assert (nonblank (pystr "stop")) as Nb1
      by (split; [discriminate | reflexivity]).
    destruct (encoded_word abv (pystr "hello") Nb0) as (Nbh & Th).
    destruct (encoded_word abv (pystr "stop") Nb1) as (_ & Tt).
    specialize (Th eq_refl). specialize (Tt eq_refl).
    fold WS in Nbh, Th, Tt. fold h in Nbh, Th.
    assert (apply_shortcuts_encode WS (pystr "hello stop")
            = (h ++ pystr " ") ++ STOP_WORD ++ rest) as Ew.
    { unfold apply_shortcuts_encode.
      change (py_split (pystr "hello stop"))
        with [pystr "hello"; pystr "stop"].
      cbn [map py_join]. fold h. rewrite Et. now rewrite <- app_assoc. }
    assert (in_table (apply_shortcuts_encode WS (pystr "hello stop")) = true)
      as Tw.
    { rewrite Ew, <- Et, !in_table_app, Th, Tt. reflexivity. }
    destruct (build_encoded_bytes_spec _ Tw) as (raw & B & _).
    assert (scan (bytes_to_bits raw) = Some (h ++ pystr " ")) as Sc.
    { destruct (scan_packed _ _ B) as (_ & _ & t & E).
      rewrite scan_feed, E, Ew, <- !app_assoc.
      rewrite (app_assoc h (pystr " ")).
      apply feed_first. now apply stop_word_not_before_blank. }
    specialize (Z raw B).
    exists raw, (V153.handle_compression zc raw uc cmp ch).
    split; [exact B|]. split; [|split; [exact Sc|]].
    + unfold V153.encode_to_file_from_text.
      rewrite read_text_file_table by reflexivity. cbn [bind].
      rewrite rstrip_newlines_table by reflexivity.
      fold WS. rewrite validate_message_table, B by exact Tw. reflexivity.
    + unfold V153.decode_from_file. rewrite Z, Sc.
      unfold apply_shortcuts_decode. fold WS.
      rewrite py_split_trailing_blank by exact Nbh.
      cbn [map py_join]. do 2 f_equal.
      destruct (loaded_dictionary abv) as (_ & Nv & _). fold WS in Nv.
      unfold h. unfold get_or_self at 2.
      destruct (dict_get str_eqb WS (pystr "hello")) as [v|] eqn:G.
      * apply dict_get_In_str in G. unfold get_or_self.
        now rewrite (reverse_get _ _ _ Nv G).
      * destruct Rh as [K|R].
        -- unfold dict_mem in K. rewrite G in K. discriminate K.
        -- unfold get_or_self, dict_mem in *.
           now destruct (dict_get str_eqb (REVERSE_SHORTCUTS WS)
                           (pystr "hello")).
Qed.

Lemma hello_stop_decodes_to_hello_witness :
  exists data,
    V153.encode_to_file_from_text ABV_DISPOSE Zlib.compress_stored
      (Text (pystr "hello stop")) (pystr "y") (pystr "n") (pystr "")
    = Ok (Some data)
    /\ V153.decode_from_file ABV_DISPOSE Zlib.decompress (Some data)
       = [NL :: pystr "Decoded message:"; pystr "hello"].
Proof.
  destruct hello_stop_decodes_to_hello as (_ & _ & H).
  destruct (H ABV_DISPOSE Zlib.compress_stored Zlib.decompress
              (pystr "y") (pystr "n") (pystr "") [])
    as (raw & data & _ & E & _ & D).
  - reflexivity.
  - reflexivity.
  - right. reflexivity.
  - intros raw B. vm_compute in B. injection B as <-. reflexivity.
  - exists data. split; [exact E | exact D].
Defined.

(** C3, counterexample: [main.py] prints "hello " with the blank, not
    "hello"; and [1.5/1.53.py] with the dictionary [stop=sp] prints the
    whole input, the stop word of the text being written as "sp" and
    restored by the decoder. *)
Lemma hello_stop_keeps_blank_or_stop :
  (exists raw,
     Main.encode_to_file (pystr "hello stop") = Ok raw
     /\ Main.decode_from_file raw
        = [pystr "Decoded message:"; pystr "hello "])
  /\ (exists data,
        V153.encode_to_file_from_text ABV_STOP Zlib.compress_stored
          (Text (pystr "hello stop")) (pystr "n") [] [] = Ok (Some data)
        /\ V153.decode_from_file ABV_STOP Zlib.decompress (Some data)
           = [NL :: pystr "Decoded message:"; pystr "hello stop"]).
Proof.
  split.
  - exists (match Main.encode_to_file (pystr "hello stop") with
            | Ok raw => raw
            | Raise _ => []
            end).
    split; vm_compute; reflexivity.
  - exists (match V153.build_encoded_bytes (pystr "hello sp") with
            | Ok raw => raw
            | Raise _ => []
            end).
    split; vm_compute; reflexivity.
Qed.
